(** * PNDA command line: parallel host orchestration

    A shallow embedding of [cli/pnda_cli_utils.py] and [cli/backend_base.py].

    Python code that talks to the outside world is embedded in an
    error-and-state monad [M] over a record [World] holding everything the
    code can observe or change: the wall clock, the file system, the
    [Queue.Queue] objects, the dictionaries returned by [fill_instance_map],
    the instance-map cache of the backend object and a log of the actions
    taken.  Whatever lies outside the two source files (the remote hosts
    reached through [subprocess_to_log.call], the provisioning back end
    behind [fill_instance_map], the thread scheduler) is an oracle in the
    record [Env]; theorems quantify over it. *)

From Equations Require Import Equations.
From stdpp Require Import gmap strings list fin_maps pretty.
From Stdlib Require Import ZArith Ascii Lia Permutation.

Open Scope Z_scope.

(** ** Strings *)

(** The double quote and the line feed, which string literals cannot hold. *)
Definition DQUOTE : string := String (Ascii.ascii_of_nat 34) EmptyString.
Definition NEWLINE : string := String (Ascii.ascii_of_nat 10) EmptyString.

(** [sep.join(l)] *)
Fixpoint str_join (sep : string) (l : list string) : string :=
  match l with
  | [] => EmptyString
  | [x] => x
  | x :: rest => x +:+ sep +:+ str_join sep rest
  end.

(** [s.split(c)] for a separator [c] of one character. *)
Fixpoint str_split (c : ascii) (s : string) : list string :=
  match s with
  | EmptyString => [EmptyString]
  | String a s' =>
      if Ascii.eqb a c then EmptyString :: str_split c s'
      else match str_split c s' with
           | h :: t => String a h :: t
           | [] => [String a EmptyString]
           end
  end.

(** [s.startswith(p)] *)
Definition startswith (s p : string) : bool := String.prefix p s.

(** [sub in s] for strings: [s] contains [sub]. *)
Definition str_contains (sub s : string) : Prop :=
  ∃ pre post : string, s = pre +:+ sub +:+ post.

(** The same test as a function. *)
Fixpoint str_containsb (sub s : string) : bool :=
  String.prefix sub s ||
  match s with
  | EmptyString => false
  | String _ s' => str_containsb sub s'
  end.

(** ** Exceptions and results *)

Inductive exn :=
| Exception (msg : string)
| PNDAConfigException (msg : string)
| IOError (msg : string)
| ValueError (msg : string)
| TypeError (msg : string)
| KeyError (key : string)
| SystemExit (code : Z).

Inductive result (A : Type) :=
| Ok (a : A)
| Raise (e : exn).
Arguments Ok {A} a.
Arguments Raise {A} e.

(** ** Data model *)

(** An element of the instance map.  [bootstrapped] is [None] while the
    dictionary has no such key; [is_saltmaster] tells whether the key
    ["is_saltmaster"] is present. *)
Record Instance := {
  name : string;
  ip_address : string;
  private_ip_address : string;
  node_type : string;
  node_idx : string;
  bootstrapped : option bool;
  is_saltmaster : bool
}.

(** [self._node_config] *)
Record NodeConfig := {
  console_instance : string;
  bastion_instance : string;
  salt_master_instance : string
}.

(** The entries of [pnda_env.yaml] that the code reads. *)
Record PndaEnv := {
  MAX_SIMULTANEOUS_OUTBOUND_CONNECTIONS : Z;
  OS_USER : string;
  SECURITY_MODE : string;
  SECURITY_MATERIAL_PATH : string;
  PLATFORM_SALT_LOCAL : option string
}.

(** The fields of a [BaseBackend] object set once by [__init__]. The one
    field written later, [_cached_instance_map], lives in [World]. *)
Record BaseBackend := {
  _pnda_env : PndaEnv;
  _cluster : string;
  _no_config_check : bool;
  _flavor : string;
  _keyfile : string;
  _branch : string;
  _node_config : NodeConfig
}.

(** One class of [volume-config.yaml]: the keys ['partitions'] and
    ['volumes'] are optional. *)
Record Volumes := {
  partitions : option (list string);
  volumes : option (list string)
}.

(** [volume-config.yaml]: node type to class, class to volumes (a class
    may be null). *)
Record VolumeConfig := {
  vc_instances : gmap string string;
  vc_classes : gmap string (option Volumes)
}.

(** Values stored in the run file. *)
Inductive Json :=
| JString (s : string)
| JArray (l : list string).

(** What a regular file holds, as far as the code looks into it. *)
Inductive FileData :=
| Opaque
| JsonDoc (d : gmap string Json)
| YamlVolumes (c : VolumeConfig).

(** ** Threads, actions and the world *)

(** [Thread(target=..., args=[...])]: the three functions that the code
    runs in threads, with their arguments. Queues are named by their
    position in [queues]. *)
Inductive Target :=
| target_do_wait (host cluster : string) (wait_errors : nat)
| target_do_check (host_key host cluster : string) (check_results : nat)
| target_bootstrap (instance : Instance)
    (saltmaster cluster flavor branch : string)
    (salt_tarball certs_tarball : option string) (error_queue : nat)
    (bootstrap_files bootstrap_commands : option nat).

Record Thread := { tid : nat; target : Target }.

Inductive Actor :=
| MainThread
| Worker (t : nat).

Inductive Event :=
| ECall (parts : list string) (host : string) (ret_val : Z)
| ESleep (seconds : Z)
| EStart (t : Thread)
| EJoin (t : Thread)
| EFill (n : nat)
| ETar (archive path arcname : string)
| EExport (cluster : string) (files commands : list string).

Record World := {
  now : Z;
  actor : Actor;
  log : list (Actor * Event);
  queues : list (list string);
  next_tid : nat;
  fs : gmap string FileData;
  RUNFILE : option string;
  heap : list (gmap string Instance);
  _cached_instance_map : option nat;
  fill_calls : nat
}.

Definition set_now (f : Z → Z) (w : World) : World :=
  {| now := f (now w); actor := actor w; log := log w; queues := queues w;
     next_tid := next_tid w; fs := fs w; RUNFILE := RUNFILE w; heap := heap w;
     _cached_instance_map := _cached_instance_map w; fill_calls := fill_calls w |}.
Definition set_actor (a : Actor) (w : World) : World :=
  {| now := now w; actor := a; log := log w; queues := queues w;
     next_tid := next_tid w; fs := fs w; RUNFILE := RUNFILE w; heap := heap w;
     _cached_instance_map := _cached_instance_map w; fill_calls := fill_calls w |}.
Definition set_log (f : list (Actor * Event) → list (Actor * Event)) (w : World) : World :=
  {| now := now w; actor := actor w; log := f (log w); queues := queues w;
     next_tid := next_tid w; fs := fs w; RUNFILE := RUNFILE w; heap := heap w;
     _cached_instance_map := _cached_instance_map w; fill_calls := fill_calls w |}.
Definition set_queues (f : list (list string) → list (list string)) (w : World) : World :=
  {| now := now w; actor := actor w; log := log w; queues := f (queues w);
     next_tid := next_tid w; fs := fs w; RUNFILE := RUNFILE w; heap := heap w;
     _cached_instance_map := _cached_instance_map w; fill_calls := fill_calls w |}.
Definition set_next_tid (f : nat → nat) (w : World) : World :=
  {| now := now w; actor := actor w; log := log w; queues := queues w;
     next_tid := f (next_tid w); fs := fs w; RUNFILE := RUNFILE w; heap := heap w;
     _cached_instance_map := _cached_instance_map w; fill_calls := fill_calls w |}.
Definition set_fs (f : gmap string FileData → gmap string FileData) (w : World) : World :=
  {| now := now w; actor := actor w; log := log w; queues := queues w;
     next_tid := next_tid w; fs := f (fs w); RUNFILE := RUNFILE w; heap := heap w;
     _cached_instance_map := _cached_instance_map w; fill_calls := fill_calls w |}.
Definition set_RUNFILE (r : option string) (w : World) : World :=
  {| now := now w; actor := actor w; log := log w; queues := queues w;
     next_tid := next_tid w; fs := fs w; RUNFILE := r; heap := heap w;
     _cached_instance_map := _cached_instance_map w; fill_calls := fill_calls w |}.
Definition set_heap (f : list (gmap string Instance) → list (gmap string Instance))
    (w : World) : World :=
  {| now := now w; actor := actor w; log := log w; queues := queues w;
     next_tid := next_tid w; fs := fs w; RUNFILE := RUNFILE w; heap := f (heap w);
     _cached_instance_map := _cached_instance_map w; fill_calls := fill_calls w |}.
Definition set_cached (c : option nat) (w : World) : World :=
  {| now := now w; actor := actor w; log := log w; queues := queues w;
     next_tid := next_tid w; fs := fs w; RUNFILE := RUNFILE w; heap := heap w;
     _cached_instance_map := c; fill_calls := fill_calls w |}.
Definition set_fill_calls (f : nat → nat) (w : World) : World :=
  {| now := now w; actor := actor w; log := log w; queues := queues w;
     next_tid := next_tid w; fs := fs w; RUNFILE := RUNFILE w; heap := heap w;
     _cached_instance_map := _cached_instance_map w; fill_calls := f (fill_calls w) |}.

(** A world in which nothing has happened yet. *)
Definition initial_world : World :=
  {| now := 0; actor := MainThread; log := []; queues := []; next_tid := 0%nat;
     fs := ∅; RUNFILE := None; heap := []; _cached_instance_map := None;
     fill_calls := 0%nat |}.

(** What the two source files do not define. *)
Record Env := {
  (** [subprocess_to_log.call(cmd, logger, host, scan_for_errors)] issued at a
      given time: its return value and how long it took, in ms. *)
  subprocess_to_log_call : Z → list string → string → list string → Z * nat;
  (** [traceback.format_exc()] while the given exception is handled. *)
  format_exc : exn → string;
  (** The dictionary built by the [n]-th call of [fill_instance_map], which
      the deployment-specific subclass defines. *)
  fill_oracle : nat → gmap string Instance;
  (** The order in which the threads of a set run to completion. *)
  schedule : list Thread → list Thread;
  (** [str(uuid.uuid1())] at a given time. *)
  uuid1 : Z → string;
  (** [os.path.abspath] *)
  abspath : string → string;
  (** Whether [tarfile] can archive the given local path. *)
  tar_readable : string → bool;
  (** [utils.LOG_FILE_NAME] and [sys.argv]. *)
  LOG_FILE_NAME : string;
  sys_argv : list string
}.

(** ** The monad *)

Definition M (A : Type) : Type := World → result A * World.

Definition ret {A} (a : A) : M A := λ w, (Ok a, w).
Definition raise {A} (e : exn) : M A := λ w, (Raise e, w).
Definition bind {A B} (m : M A) (k : A → M B) : M B :=
  λ w, match m w with
       | (Ok a, w') => k a w'
       | (Raise e, w') => (Raise e, w')
       end.

(** [try: body except: handler], with a bare [except] clause. *)
Definition try_except {A} (body : M A) (handler : exn → M A) : M A :=
  λ w, match body w with
       | (Ok a, w') => (Ok a, w')
       | (Raise e, w') => handler e w'
       end.

Global Instance M_ret : MRet M := @ret.
Global Instance M_bind : MBind M := λ A B k m, bind m k.

(** [for x in l: body x] *)
Fixpoint for_each {A} (l : list A) (body : A → M unit) : M unit :=
  match l with
  | [] => ret tt
  | x :: rest => body x ;; for_each rest body
  end.

Definition get_world : M World := λ w, (Ok w, w).
Definition modify (f : World → World) : M unit := λ w, (Ok tt, f w).
Definition lift_result {A} (r : result A) : M A := λ w, (r, w).

(** Appends an action of the running thread to the log. *)
Definition emit (e : Event) : M unit :=
  λ w, (Ok tt, set_log (λ l, l ++ [(actor w, e)]) w).

(** [MILLI_TIME()] and [time.sleep(seconds)] *)
Definition MILLI_TIME : M Z := λ w, (Ok (now w), w).
Definition sleep (seconds : Z) : M unit :=
  emit (ESleep seconds) ;; modify (set_now (λ t, t + 1000 * seconds)).

(** [Queue.Queue()], [q.put(x)], [q.empty()], [q.queue] *)
Definition queue_of (q : nat) (w : World) : list string :=
  default [] (queues w !! q).
Definition Queue : M nat :=
  λ w, (Ok (length (queues w)), set_queues (λ qs, qs ++ [[]]) w).
Definition put (q : nat) (x : string) : M unit :=
  modify (set_queues (alter (λ items, items ++ [x]) q)).
Definition queue_items (q : nat) : M (list string) := λ w, (Ok (queue_of q w), w).
(** [q.get()] on a queue that is not empty. *)
Definition get (q : nat) : M unit := modify (set_queues (alter (drop 1) q)).

(** [os.path.isfile(path)] *)
Definition isfile (path : string) : M bool :=
  λ w, (Ok (bool_decide (is_Some (fs w !! path))), w).

(** [d[k]] on a dictionary. *)
Definition getitem {V} (d : gmap string V) (k : string) : M V :=
  match d !! k with
  | Some v => ret v
  | None => raise (KeyError k)
  end.

(** ** File objects *)

Record File := { f_path : string; f_mode : string }.

(** [open(path, mode)] for the modes ['r'] and ['w']: writing creates or
    truncates the file, reading needs it to exist. *)
Definition open (path mode : string) : M File :=
  λ w, if String.eqb mode "w"
       then (Ok {| f_path := path; f_mode := mode |}, set_fs (<[path := Opaque]>) w)
       else match fs w !! path with
            | Some _ => (Ok {| f_path := path; f_mode := mode |}, w)
            | None => (Raise (IOError ("No such file or directory: " +:+ path)), w)
            end.

(** [os.remove(path)] *)
Definition os_remove (path : string) : M unit := modify (set_fs (delete path)).

(** [json.load(f)] *)
Definition json_load (f : File) : M (gmap string Json) :=
  λ w, match fs w !! f_path f with
       | Some (JsonDoc d) => (Ok d, w)
       | _ => (Raise (ValueError "No JSON object could be decoded"), w)
       end.

(** [json.dump(d, f)]: [f.write] refuses a file opened for reading. *)
Definition json_dump (d : gmap string Json) (f : File) : M unit :=
  if String.eqb (f_mode f) "r"
  then raise (IOError "File not open for writing")
  else modify (set_fs (<[f_path f := JsonDoc d]>)).

(** [yaml.load(f)] of the volume configuration. *)
Definition yaml_load (f : File) : M VolumeConfig :=
  λ w, match fs w !! f_path f with
       | Some (YamlVolumes c) => (Ok c, w)
       | _ => (Raise (TypeError "string indices must be integers, not str"), w)
       end.

Section WithEnv.

Variable env : Env.

(** ** pnda_cli_utils.py *)

(** [subprocess_to_log.call]: the call is logged with its return value and
    the clock moves on by the time it took. *)
Definition call (parts : list string) (host : string) (scan_for_errors : list string)
    : M Z :=
  λ w, let '(ret_val, ms) :=
         subprocess_to_log_call env (now w) parts host scan_for_errors in
       (Ok ret_val,
        set_now (λ t, t + Z.of_nat ms)
          (set_log (λ l, l ++ [(actor w, ECall parts host ret_val)]) w)).

Definition init_runfile (cluster : string) : M unit :=
  λ w, (Ok tt,
        set_RUNFILE (Some ("cli/logs/" +:+ cluster +:+ "." +:+ pretty (now w / 1000)
                           +:+ ".run")) w).

Definition to_runfile (pairs : gmap string Json) : M unit :=
  λ w, match RUNFILE w with
       | None => (Raise (TypeError "coercing to Unicode: need string or buffer, NoneType found"), w)
       | Some path =>
           (is_file ← isfile path;
            let mode := if negb is_file then "w" else "r" in
            runfile ← open path mode;
            jrf ← (if String.eqb mode "r" then json_load runfile else mret ∅);
            let jrf := pairs ∪ jrf in
            json_dump jrf runfile) w
       end.

Definition scp_parts (files : list string) (cluster host : string) : list string :=
  str_split " " ("scp -F cli/ssh_config-" +:+ cluster +:+ " " +:+ str_join " " files
                 +:+ " " +:+ host +:+ ":" +:+ "/tmp").

Definition scp (files : list string) (cluster host : string) : M unit :=
  ret_val ← call (scp_parts files cluster host) host [];
  if bool_decide (ret_val ≠ 0)
  then raise (Exception ("Error transferring files to new host " +:+ host +:+
                         " via SCP. See debug log (" +:+ LOG_FILE_NAME env +:+
                         ") for details."))
  else mret tt.

Definition ssh_parts (cmds : list string) (cluster host : string) : list string :=
  str_split " " ("ssh -F cli/ssh_config-" +:+ cluster +:+ " " +:+ host)
  ++ [str_join ";" cmds].

Definition ssh (cmds : list string) (cluster host : string) : M unit :=
  ret_val ← call (ssh_parts cmds cluster host) host
              ["lost connection"; "\s*Failed:\s*[1-9].*"];
  if bool_decide (ret_val ≠ 0)
  then raise (Exception ("Error running ssh commands on host " +:+ host +:+
                         ". See debug log (" +:+ LOG_FILE_NAME env +:+
                         ") for details."))
  else mret tt.

(** ** backend_base.py *)

Variable self : BaseBackend.

Definition THROW_BASH_ERROR : string :=
  "cmd_result=${PIPESTATUS[0]} && if [ ${cmd_result} != '0' ]; then exit ${cmd_result}; fi".

(** [tarfile.open(archive, mode='w:gz')] followed by
    [archive.add(path, arcname=arcname, recursive=True)]. *)
Definition tar_create (archive path arcname : string) : M unit :=
  modify (set_fs (<[archive := Opaque]>));;
  if tar_readable env path
  then emit (ETar archive path arcname)
  else raise (IOError ("No such file or directory: " +:+ path)).

Definition _ship_certs (cluster saltmaster_ip : string) : M (option string) :=
  let local_certs_path := SECURITY_MATERIAL_PATH (_pnda_env self) in
  t ← MILLI_TIME;
  let platform_certs_tarball := uuid1 env t +:+ ".tar.gz" in
  packed ← try_except
    (tar_create platform_certs_tarball local_certs_path "security-certs";;
     mret true)
    (λ exception,
       if String.eqb (SECURITY_MODE (_pnda_env self)) "permissive"
       then mret false
       else raise (PNDAConfigException
                     ("Error: " +:+ local_certs_path +:+ " must contain certificates")));
  if packed : bool then
    scp [platform_certs_tarball] cluster saltmaster_ip;;
    os_remove platform_certs_tarball;;
    mret (Some platform_certs_tarball)
  else mret None.

Definition _get_volume_info (node_type config_file : string) : M (option Volumes) :=
  if (0 <? String.length node_type)%nat then
    infile ← open config_file "r";
    volume_config ← yaml_load infile;
    volume_class ← getitem (vc_instances volume_config) node_type;
    getitem (vc_classes volume_config) volume_class
  else mret None.

(** The two files are written; their text and the mode bits set by
    [os.chmod] are not modelled. *)
Definition _write_ssh_config (cluster : string) (bastion_ip : option string)
    (os_user keyfile : string) : M unit :=
  config_file ← open ("cli/ssh_config-" +:+ cluster) "w";
  if bool_decide (bastion_ip = None ∨ bastion_ip = Some "") then mret tt
  else
    let socks_file_path := "cli/socks_proxy-" +:+ cluster in
    config_file ← open socks_file_path "w";
    mret tt.

(** The body of the [try] block of [_bootstrap]. *)
Definition _bootstrap_try (instance : Instance)
    (saltmaster cluster flavor branch : string)
    (salt_tarball certs_tarball : option string)
    (bootstrap_files bootstrap_commands : option nat) : M unit :=
  let ip_address := private_ip_address instance in
  let node_type := node_type instance in
  if (String.length node_type <=? 0)%nat then mret tt else
  let type_script := "bootstrap-scripts/" +:+ flavor +:+ "/" +:+ node_type +:+ ".sh" in
  type_script_found ← isfile type_script;
  let type_script :=
    if negb type_script_found then "bootstrap-scripts/" +:+ node_type +:+ ".sh"
    else type_script in
  let node_idx := node_idx instance in
  let files_to_scp := ["cli/pnda_env_" +:+ cluster +:+ ".sh";
                       "bootstrap-scripts/package-install.sh";
                       "bootstrap-scripts/base.sh";
                       "bootstrap-scripts/volume-mappings.sh";
                       type_script] in
  let volume_config := "bootstrap-scripts/" +:+ flavor +:+ "/" +:+ "volume-config.yaml" in
  requested_volumes ← _get_volume_info node_type volume_config;
  let cmds_to_run :=
    ["source /tmp/pnda_env_" +:+ cluster +:+ ".sh";
     "export PNDA_SALTMASTER_IP=" +:+ saltmaster;
     "export PNDA_CLUSTER=" +:+ cluster;
     "export PNDA_FLAVOR=" +:+ flavor;
     "export PLATFORM_GIT_BRANCH=" +:+ branch;
     match salt_tarball with
     | Some tarball => "export PLATFORM_SALT_TARBALL=" +:+ tarball
     | None => ":"
     end;
     match certs_tarball with
     | Some tarball => "export SECURITY_CERTS_TARBALL=" +:+ tarball
     | None => ":"
     end;
     "sudo chmod a+x /tmp/package-install.sh";
     "sudo chmod a+x /tmp/base.sh";
     "sudo chmod a+x /tmp/volume-mappings.sh"] in
  let cmds_to_run :=
    match requested_volumes ≫= partitions with
    | Some lines =>
        cmds_to_run ++
        ["sudo mkdir -p /etc/pnda/disk-config && echo '" +:+ str_join NEWLINE lines
         +:+ "' | sudo tee /etc/pnda/disk-config/partitions"]
    | None => cmds_to_run
    end in
  let cmds_to_run :=
    match requested_volumes ≫= volumes with
    | Some lines =>
        cmds_to_run ++
        ["sudo mkdir -p /etc/pnda/disk-config && echo '" +:+ str_join NEWLINE lines
         +:+ "' | sudo tee /etc/pnda/disk-config/requested-volumes"]
    | None => cmds_to_run
    end in
  let cmds_to_run :=
    cmds_to_run ++
    ["(sudo -E /tmp/base.sh 2>&1) | tee -a pnda-bootstrap.log; " +:+ THROW_BASH_ERROR] in
  let holds_saltmaster :=
    bool_decide (node_type = salt_master_instance (_node_config self))
    || is_saltmaster instance in
  git_pem_found ← (if holds_saltmaster then isfile "git.pem" else mret false);
  let files_to_scp :=
    if holds_saltmaster
    then files_to_scp ++ ["bootstrap-scripts/saltmaster-common.sh"]
         ++ (if git_pem_found : bool then ["git.pem"] else [])
    else files_to_scp in
  let cmds_to_run :=
    if holds_saltmaster
    then cmds_to_run ++
         ["sudo chmod a+x /tmp/saltmaster-common.sh";
          "(sudo -E /tmp/saltmaster-common.sh 2>&1) | tee -a pnda-bootstrap.log; "
          +:+ THROW_BASH_ERROR]
    else cmds_to_run in
  let cmds_to_run :=
    cmds_to_run ++
    ["sudo chmod a+x /tmp/" +:+ node_type +:+ ".sh";
     "(sudo -E /tmp/" +:+ node_type +:+ ".sh " +:+ node_idx
     +:+ " 2>&1) | tee -a pnda-bootstrap.log; " +:+ THROW_BASH_ERROR;
     "touch ~/.bootstrap_complete"] in
  scp files_to_scp cluster ip_address;;
  ssh cmds_to_run cluster ip_address;;
  match bootstrap_files with
  | Some q => for_each files_to_scp (put q);; put q volume_config
  | None => mret tt
  end;;
  match bootstrap_commands with
  | Some q => for_each cmds_to_run (put q)
  | None => mret tt
  end.

Definition _bootstrap (instance : Instance)
    (saltmaster cluster flavor branch : string)
    (salt_tarball certs_tarball : option string) (error_queue : nat)
    (bootstrap_files bootstrap_commands : option nat) : M unit :=
  try_except
    (_bootstrap_try instance saltmaster cluster flavor branch
       salt_tarball certs_tarball bootstrap_files bootstrap_commands)
    (λ e,
       let ret_val := "Error for host " +:+ name instance +:+ ". " +:+ format_exc env e in
       put error_queue ret_val).

Definition _process_thread_errors (action : string) (errors : nat) : M unit :=
  items ← queue_items errors;
  match items with
  | [] => mret tt
  | error_message :: _ =>
      get errors;;
      raise (Exception ("Error " +:+ action +:+ ", error msg: " +:+ error_message +:+
                        ". See debug log (" +:+ LOG_FILE_NAME env +:+ ") for details."))
  end.

(** [xrange(start, stop, step)] *)
Definition xrange (start stop step : Z) : result (list Z) :=
  if step =? 0 then Raise (ValueError "xrange() arg 3 must not be zero")
  else
    let n := if 0 <? step then (stop - start + step - 1) / step
             else (start - stop - step - 1) / (- step) in
    Ok (map (λ i : nat, start + Z.of_nat i * step) (seq 0 (Z.to_nat n))).

(** [l[lo:hi]] for [0 <= lo <= hi], the only slices the code takes. *)
Definition slice {A} (l : list A) (lo hi : Z) : list A :=
  take (Z.to_nat (hi - lo)) (drop (Z.to_nat lo) l).

(** [Thread(target=..., args=[...])]: every thread object is a new one. *)
Definition Thread_new (tg : Target) : M Thread :=
  λ w, (Ok {| tid := next_tid w; target := tg |}, set_next_tid S w).

Definition thread_start (t : Thread) : M unit := emit (EStart t).
Definition thread_join (t : Thread) : M unit := emit (EJoin t).

Definition inspect {A} (a : A) : {b : A | a = b} := exist _ a eq_refl.

(** The [while True] loop of [do_wait]. It ends because the clock moves on
    by two seconds in every round. *)
Equations? do_wait_loop (host cluster : string) (wait_errors : nat) (time_start : Z)
    (w : World) : result unit * World
    by wf (Z.to_nat (10 * 60 * 1000 + 1 + time_start - now w)) lt :=
  do_wait_loop host cluster wait_errors time_start w
    with inspect (ssh ["ls ~"] cluster host w) => {
    | exist _ (Ok _, w1) _ => (Ok tt, w1)
    | exist _ (Raise _, w1) Hssh
        with inspect (now w1 - time_start >? 10 * 60 * 1000) => {
        | exist _ true _ =>
            let ret_val := "Giving up waiting for connectivity to " +:+ host in
            put wait_errors ret_val w1
        | exist _ false Hdeadline =>
            do_wait_loop host cluster wait_errors time_start (sleep 2 w1).2 } }.
Proof.
  assert (now w ≤ now w1) as Hmono.
  { revert Hssh. unfold ssh, call, mbind, M_bind, bind.
    destruct (subprocess_to_log_call _ _ _ _ _) as [r ms].
    destruct (bool_decide _); intros [= _ <-]; simpl; lia. }
  rewrite Z.gtb_ltb in Hdeadline. apply Z.ltb_ge in Hdeadline. simpl. lia.
Qed.

Definition do_wait (host cluster : string) (wait_errors : nat) : M unit :=
  time_start ← MILLI_TIME;
  do_wait_loop host cluster wait_errors time_start.

Definition do_check (host_key host cluster : string) (check_results : nat) : M unit :=
  try_except
    (ssh ["ls ~/.bootstrap_complete"] cluster host;;
     put check_results host_key)
    (λ _, mret tt).

(** What a thread does once started: it calls its target. *)
Definition run_target (tg : Target) : M unit :=
  match tg with
  | target_do_wait host cluster wait_errors => do_wait host cluster wait_errors
  | target_do_check host_key host cluster check_results =>
      do_check host_key host cluster check_results
  | target_bootstrap instance saltmaster cluster flavor branch
      salt_tarball certs_tarball error_queue bootstrap_files bootstrap_commands =>
      _bootstrap instance saltmaster cluster flavor branch
        salt_tarball certs_tarball error_queue bootstrap_files bootstrap_commands
  end.

(** The run of a started thread, logged under the thread's name. An
    exception that leaves the target ends the thread and nothing else. *)
Definition thread_run (t : Thread) : M unit :=
  λ w, (Ok tt, set_actor (actor w) (run_target (target t) (set_actor (Worker (tid t)) w)).2).

(** [[thread_list[x:x+n] for x in xrange(0, len(thread_list), n)]] *)
Definition thread_sets_of (thread_list : list Thread) (thread_set_size : Z)
    : result (list (list Thread)) :=
  match xrange 0 (Z.of_nat (length thread_list)) thread_set_size with
  | Ok offsets => Ok (map (λ x, slice thread_list x (x + thread_set_size)) offsets)
  | Raise e => Raise e
  end.

(** One round of the outer loop of [_wait_on_host_operations]. The threads
    of the set run between the starts and the joins, one after the other in
    the order that [schedule] gives. *)
Definition run_thread_set (bastion_used : bool) (thread_set : list Thread) : M unit :=
  for_each thread_set (λ thread,
    thread_start thread;;
    if bastion_used then
      let wait_seconds := 2 in
      sleep wait_seconds
    else mret tt);;
  for_each (schedule env thread_set) thread_run;;
  for_each thread_set thread_join.

Definition _wait_on_host_operations (action : string) (thread_list : list Thread)
    (bastion_used : bool) (errors : option nat) : M unit :=
  let thread_set_size := MAX_SIMULTANEOUS_OUTBOUND_CONNECTIONS (_pnda_env self) in
  thread_sets ← lift_result (thread_sets_of thread_list thread_set_size);
  for_each thread_sets (run_thread_set bastion_used);;
  match errors with
  | Some errors => _process_thread_errors action errors
  | None => mret tt
  end.

(** A [for] loop that builds a list: the body returns what it appends. *)
Fixpoint for_append {A B} (l : list A) (body : A → M (list B)) : M (list B) :=
  match l with
  | [] => mret []
  | x :: rest => ys ← body x; zs ← for_append rest body; mret (ys ++ zs)
  end.

Definition _wait_for_host_connectivity (hosts : list string) (cluster : string)
    (bastion_used : bool) : M unit :=
  wait_errors ← Queue;
  wait_threads ← for_append hosts (λ host,
    thread ← Thread_new (target_do_wait host cluster wait_errors);
    mret [thread]);
  _wait_on_host_operations "waiting for host connectivity" wait_threads bastion_used
    (Some wait_errors).

(** [tar.add(path)] needs the file; the archive keeps the files and the
    [export] commands. *)
Definition _export_bootstrap_resources (cluster : string) (files commands : list string)
    : M unit :=
  t ← MILLI_TIME;
  modify (set_fs (<["cli/logs/" +:+ cluster +:+ "_" +:+ pretty t
                    +:+ "_bootstrap-resources.tar.gz" := Opaque]>));;
  for_each files (λ file,
    found ← isfile file;
    if found : bool then mret tt
    else raise (IOError ("No such file or directory: " +:+ file)));;
  emit (EExport cluster files (List.filter (λ command, startswith command "export") commands)).

(** The dictionary object behind a reference. *)
Definition instance_map_of (r : nat) (w : World) : gmap string Instance :=
  default ∅ (heap w !! r).
Definition deref (r : nat) : M (gmap string Instance) :=
  λ w, (Ok (instance_map_of r w), w).

(** [fill_instance_map], which the deployment-specific subclass defines: it
    asks the provisioning back end and returns a new dictionary. *)
Definition fill_instance_map : M nat :=
  λ w, (Ok (length (heap w)),
        set_log (λ l, l ++ [(actor w, EFill (fill_calls w))])
          (set_fill_calls S (set_heap (λ h, h ++ [fill_oracle env (fill_calls w)]) w))).

Definition set_bootstrapped (b : bool) (i : Instance) : Instance :=
  {| name := name i; ip_address := ip_address i;
     private_ip_address := private_ip_address i; node_type := node_type i;
     node_idx := node_idx i; bootstrapped := Some b;
     is_saltmaster := is_saltmaster i |}.

(** [instances[host_key]['bootstrapped'] = True] *)
Definition mark_bootstrapped (instances : nat) (host_key : string) : M unit :=
  m ← deref instances;
  _ ← getitem m host_key;
  modify (set_heap (alter (alter (set_bootstrapped true) host_key) instances)).

Definition _check_hosts_bootstrapped (instances : nat) (cluster : string)
    (bastion_used : bool) : M unit :=
  check_results ← Queue;
  m ← deref instances;
  check_threads ← for_append (map_to_list m) (λ '(key, instance),
    thread ← Thread_new (target_do_check key (private_ip_address instance) cluster
                           check_results);
    mret [thread]);
  _wait_on_host_operations "checking bootstrap status" check_threads bastion_used None;;
  found ← queue_items check_results;
  for_each found (λ host_key,
    get check_results;;
    mark_bootstrapped instances host_key).

(** [self._cached_instance_map] when it is truthy: neither [None] nor an
    empty dictionary. *)
Definition truthy_cache (w : World) : option nat :=
  match _cached_instance_map w with
  | Some cached =>
      if bool_decide (size (instance_map_of cached w) = 0%nat) then None else Some cached
  | None => None
  end.

(** The value returned is [self._cached_instance_map]: the dictionary
    found there, or the one that has just been stored there. *)
Definition get_instance_map (check_bootstrapped : bool) : M nat :=
  w ← get_world;
  match truthy_cache w with
  | Some cached => mret cached
  | None =>
      instance_map ← fill_instance_map;
      (if check_bootstrapped then
         m ← deref instance_map;
         _check_hosts_bootstrapped instance_map (_cluster self)
           (bool_decide (is_Some (m !! (_cluster self +:+ "-" +:+
                                        bastion_instance (_node_config self)))))
       else mret tt);;
      modify (set_cached (Some instance_map));;
      mret instance_map
  end.

Definition clear_instance_map_cache : M unit := modify (set_cached None).

(** One attempt of [_install_pnda] to reach the bastion. *)
Definition nc_install (bastion_ip : string) : M unit :=
  let nc_ssh_cmd :=
    "ssh -i " +:+ _keyfile self +:+
    " -o StrictHostKeyChecking=no -o UserKnownHostsFile=/dev/null " +:+
    OS_USER (_pnda_env self) +:+ "@" +:+ bastion_ip in
  let nc_install_cmd :=
    str_split " " nc_ssh_cmd ++ ["sudo yum install -y nc || echo nc already installed"] in
  ret_val ← call nc_install_cmd bastion_ip [];
  if bool_decide (ret_val ≠ 0)
  then raise (Exception ("Error running ssh commands on host " +:+ bastion_ip +:+
                         ". See debug log (" +:+ LOG_FILE_NAME env +:+ ") for details."))
  else mret tt.

(** The [while True] loop in which [_install_pnda] waits for the bastion. *)
Equations? wait_for_bastion (bastion_ip : string) (time_start : Z) (w : World)
    : result unit * World
    by wf (Z.to_nat (10 * 60 * 1000 + 1 + time_start - now w)) lt :=
  wait_for_bastion bastion_ip time_start w
    with inspect (nc_install bastion_ip w) => {
    | exist _ (Ok _, w1) _ => (Ok tt, w1)
    | exist _ (Raise _, w1) Hcall
        with inspect (now w1 - time_start >? 10 * 60 * 1000) => {
        | exist _ true _ => (Raise (SystemExit (-1)), w1)
        | exist _ false Hdeadline =>
            wait_for_bastion bastion_ip time_start (sleep 2 w1).2 } }.
Proof.
  assert (now w ≤ now w1) as Hmono.
  { revert Hcall. unfold nc_install, call, mbind, M_bind, bind.
    destruct (subprocess_to_log_call _ _ _ _ _) as [r ms].
    destruct (bool_decide _); intros [= _ <-]; simpl; lia. }
  rewrite Z.gtb_ltb in Hdeadline. apply Z.ltb_ge in Hdeadline. simpl. lia.
Qed.

(** What the first part of [_install_pnda] hands to the bootstrap part. *)
Record Prepared := {
  p_instance_map : gmap string Instance;
  p_bastion_ip : option string;
  p_saltmaster : Instance;
  p_salt_tarball : option string;
  p_certs_tarball : option string
}.

(** [_install_pnda] up to the shipping of the tarballs. *)
Definition _install_pnda_prepare : M Prepared :=
  let bastion := bastion_instance (_node_config self) in
  to_runfile (<["cmdline" := JArray (sys_argv env)]>
               (<["bastion" := JString bastion]>
                 {["saltmaster" := JString (salt_master_instance (_node_config self))]}));;
  instance_map ← get_instance_map false;
  m ← deref instance_map;
  let bastion_name := _cluster self +:+ "-" +:+ bastion in
  bastion_ip ←
    (if bool_decide (is_Some (m !! bastion_name)) then
       i ← getitem m (_cluster self +:+ "-" +:+ bastion);
       mret (Some (ip_address i))
     else mret None);
  _write_ssh_config (_cluster self) bastion_ip (OS_USER (_pnda_env self))
    (abspath env (_keyfile self));;
  console ← getitem m (_cluster self +:+ "-" +:+ console_instance (_node_config self));
  match bastion_ip with
  | Some ip =>
      if bool_decide (ip = "") then mret tt
      else time_start ← MILLI_TIME; wait_for_bastion ip time_start
  | None => mret tt
  end;;
  _wait_for_host_connectivity ((λ h, private_ip_address h.2) <$> map_to_list m)
    (_cluster self) (bool_decide (bastion_ip ≠ None));;
  saltmaster ← getitem m (_cluster self +:+ "-" +:+ salt_master_instance (_node_config self));
  let saltmaster_ip := private_ip_address saltmaster in
  platform_salt_tarball ←
    match PLATFORM_SALT_LOCAL (_pnda_env self) with
    | Some local_salt_path =>
        t ← MILLI_TIME;
        let platform_salt_tarball := uuid1 env t +:+ ".tmp" in
        tar_create platform_salt_tarball local_salt_path "platform-salt";;
        scp [platform_salt_tarball] (_cluster self) saltmaster_ip;;
        os_remove platform_salt_tarball;;
        mret (Some platform_salt_tarball)
    | None => mret None
    end;
  platform_certs_tarball ←
    (if negb (String.eqb (SECURITY_MODE (_pnda_env self)) "disabled")
     then _ship_certs (_cluster self) saltmaster_ip
     else mret None);
  mret {| p_instance_map := m; p_bastion_ip := bastion_ip; p_saltmaster := saltmaster;
          p_salt_tarball := platform_salt_tarball;
          p_certs_tarball := platform_certs_tarball |}.

(** The loop of [_install_pnda] that makes a thread for every instance
    but the saltmaster. *)
Definition _install_pnda_threads (p : Prepared)
    (bootstrap_errors bootstrap_files bootstrap_commands : nat) : M (list Thread) :=
  for_append (map_to_list (p_instance_map p)) (λ '(key, instance),
    if negb (str_containsb ("-" +:+ salt_master_instance (_node_config self)) key) then
      thread ← Thread_new (target_bootstrap instance (private_ip_address (p_saltmaster p))
                             (_cluster self) (_flavor self) (_branch self)
                             (p_salt_tarball p) None bootstrap_errors
                             (Some bootstrap_files) (Some bootstrap_commands));
      mret [thread]
    else mret []).

(** [_install_pnda] after the bootstrap of the saltmaster. *)
Definition _install_pnda_remaining (p : Prepared)
    (bootstrap_errors bootstrap_files bootstrap_commands : nat) : M unit :=
  let saltmaster_ip := private_ip_address (p_saltmaster p) in
  bootstrap_threads ←
    _install_pnda_threads p bootstrap_errors bootstrap_files bootstrap_commands;
  _wait_on_host_operations "bootstrapping host" bootstrap_threads
    (bool_decide (p_bastion_ip p ≠ None)) (Some bootstrap_errors);;
  files ← queue_items bootstrap_files;
  commands ← queue_items bootstrap_commands;
  _export_bootstrap_resources (_cluster self) (remove_dups files) (remove_dups commands);;
  sleep 30;;
  ssh ["(sudo salt -v --log-level=debug --timeout=120 --state-output=mixed " +:+ DQUOTE
       +:+ "*" +:+ DQUOTE +:+ " state.highstate queue=True 2>&1) | tee -a pnda-salt.log; "
       +:+ THROW_BASH_ERROR;
       "(sudo CLUSTER=" +:+ _cluster self +:+
       " salt-run --log-level=debug state.orchestrate orchestrate.pnda 2>&1) | tee -a pnda-salt.log; "
       +:+ THROW_BASH_ERROR]
    (_cluster self) saltmaster_ip.

(** [_install_pnda] from the creation of the bootstrap queues on. *)
Definition _install_pnda_bootstrap (p : Prepared) : M unit :=
  let saltmaster := p_saltmaster p in
  let saltmaster_ip := private_ip_address saltmaster in
  bootstrap_errors ← Queue;
  bootstrap_files ← Queue;
  bootstrap_commands ← Queue;
  _bootstrap saltmaster saltmaster_ip (_cluster self) (_flavor self) (_branch self)
    (p_salt_tarball p) (p_certs_tarball p)
    bootstrap_errors (Some bootstrap_files) (Some bootstrap_commands);;
  _process_thread_errors "bootstrapping saltmaster" bootstrap_errors;;
  _install_pnda_remaining p bootstrap_errors bootstrap_files bootstrap_commands.

Definition _install_pnda : M unit :=
  p ← _install_pnda_prepare;
  _install_pnda_bootstrap p.

(** The loop of [_expand_pnda] that makes a thread for every instance
    with a role that is not bootstrapped yet. *)
Definition _expand_pnda_threads (m : gmap string Instance) (saltmaster_ip : string)
    (bootstrap_errors : nat) : M (list Thread) :=
  for_append (map_to_list m) (λ '(_, instance),
    if (0 <? String.length (node_type instance))%nat then
      match bootstrapped instance with
      | None => raise (KeyError "bootstrapped")
      | Some is_bootstrapped =>
          if negb is_bootstrapped then
            thread ← Thread_new (target_bootstrap instance saltmaster_ip
                                   (_cluster self) (_flavor self) (_branch self)
                                   None None bootstrap_errors None None);
            mret [thread]
          else mret []
      end
    else mret []).

Definition _expand_pnda (do_orchestrate : bool) : M unit :=
  instance_map ← get_instance_map true;
  m ← deref instance_map;
  let bastion := bastion_instance (_node_config self) in
  let bastion_name := _cluster self +:+ "-" +:+ bastion in
  bastion_ip ←
    (if bool_decide (is_Some (m !! bastion_name)) then
       i ← getitem m (_cluster self +:+ "-" +:+ bastion);
       mret (Some (ip_address i))
     else mret None);
  _write_ssh_config (_cluster self) bastion_ip (OS_USER (_pnda_env self))
    (abspath env (_keyfile self));;
  saltmaster ← getitem m (_cluster self +:+ "-" +:+ salt_master_instance (_node_config self));
  let saltmaster_ip := private_ip_address saltmaster in
  _wait_for_host_connectivity ((λ h, private_ip_address h.2) <$> map_to_list m)
    (_cluster self) (bool_decide (bastion_ip ≠ None));;
  bootstrap_errors ← Queue;
  bootstrap_threads ← _expand_pnda_threads m saltmaster_ip bootstrap_errors;
  _wait_on_host_operations "bootstrapping host" bootstrap_threads
    (bool_decide (bastion_ip ≠ None)) (Some bootstrap_errors);;
  sleep 30;;
  let expand_commands :=
    ["(sudo salt -v --log-level=debug --timeout=120 --state-output=mixed " +:+ DQUOTE
     +:+ "*" +:+ DQUOTE +:+ " state.sls hostsfile queue=True 2>&1)"
     +:+ " | tee -a pnda-salt.log; " +:+ THROW_BASH_ERROR;
     "(sudo salt -v --log-level=debug --timeout=120 --state-output=mixed -C " +:+ DQUOTE
     +:+ "G@pnda:is_new_node" +:+ DQUOTE +:+ " state.highstate queue=True 2>&1)"
     +:+ " | tee -a pnda-salt.log; " +:+ THROW_BASH_ERROR] in
  let expand_commands :=
    if do_orchestrate then
      expand_commands ++
      ["(sudo CLUSTER=" +:+ _cluster self +:+
       " salt-run --log-level=debug state.orchestrate orchestrate.pnda-expand 2>&1)"
       +:+ " | tee -a pnda-salt.log; " +:+ THROW_BASH_ERROR]
    else expand_commands in
  ssh expand_commands (_cluster self) saltmaster_ip.

End WithEnv.

(** * Properties *)

Ltac munfold :=
  unfold mbind, M_bind, bind, mret, M_ret, ret, raise, try_except, modify,
    get_world, lift_result, queue_items, MILLI_TIME, isfile, emit in *.

(** ** The run file *)

Lemma to_runfile_new_file (pairs : gmap string Json) (path : string) (w : World) :
  RUNFILE w = Some path → fs w !! path = None →
  to_runfile pairs w = (Ok tt, set_fs (λ f, <[path := JsonDoc (pairs ∪ ∅)]> (<[path := Opaque]> f)) w).
Proof.
  intros Hrun Hnone. unfold to_runfile. rewrite Hrun. munfold.
  rewrite Hnone. rewrite bool_decide_eq_false_2 by (intros [? ?]; discriminate).
  reflexivity.
Qed.

Lemma to_runfile_existing_file (pairs : gmap string Json) (path : string)
    (data : FileData) (w : World) :
  RUNFILE w = Some path → fs w !! path = Some data →
  to_runfile pairs w
  = (Raise (match data with
            | JsonDoc _ => IOError "File not open for writing"
            | _ => ValueError "No JSON object could be decoded"
            end), w).
Proof.
  intros Hrun Hsome. unfold to_runfile. rewrite Hrun. munfold.
  rewrite Hsome. rewrite bool_decide_eq_true_2 by eauto.
  unfold open, json_load, json_dump.
  do 3 (simpl; rewrite ?Hsome). destruct data; reflexivity.
Qed.

(** C9. A run in which [to_runfile] is called twice: the first call makes
    the record with its pairs; the second call, which finds the record,
    raises [IOError] from [json.dump] on the file opened for reading, and
    leaves the record as it was, without the new key. *)
Theorem to_runfile_second_call_raises :
  let w0 := set_RUNFILE (Some "cli/logs/pnda.0.run") initial_world in
  let r1 := to_runfile {["cmdline" := JArray ["pnda-cli.py"; "create"]]} w0 in
  let r2 := to_runfile {["bastion" := JString "bastion"]} r1.2 in
  r1.1 = Ok tt
  ∧ fs r1.2 !! "cli/logs/pnda.0.run"
    = Some (JsonDoc {["cmdline" := JArray ["pnda-cli.py"; "create"]]})
  ∧ r2.1 = Raise (IOError "File not open for writing")
  ∧ fs r2.2 !! "cli/logs/pnda.0.run"
    = Some (JsonDoc {["cmdline" := JArray ["pnda-cli.py"; "create"]]}).
Proof. vm_compute. repeat split; reflexivity. Qed.

(** ** Strings *)

Lemma str_app_assoc (a b c : string) : (a +:+ b) +:+ c = a +:+ (b +:+ c).
Proof.
  induction a as [|x a IH]; [reflexivity|].
  change (String x ((a +:+ b) +:+ c) = String x (a +:+ b +:+ c)). by rewrite IH.
Qed.

Lemma str_app_nil_r (a : string) : a +:+ "" = a.
Proof.
  induction a as [|x a IH]; [reflexivity|].
  change (String x (a +:+ "") = String x a). by rewrite IH.
Qed.

Lemma str_contains_mid (pre sub post : string) : str_contains sub (pre +:+ sub +:+ post).
Proof. by exists pre, post. Qed.

Lemma str_contains_end (pre sub : string) : str_contains sub (pre +:+ sub).
Proof. exists pre, "". by rewrite str_app_nil_r. Qed.

(** ** The bootstrap pipeline of one host *)

Section Bootstrap.

Variable env : Env.
Variable self : BaseBackend.

Lemma list_alter_twice {A} (f g : A → A) (l : list A) (i : nat) :
  alter f i (alter g i l) = alter (λ x, f (g x)) i l.
Proof.
  revert i. induction l as [|x l IH]; intros [|i]; try reflexivity.
  change (x :: alter f i (alter g i l) = x :: alter (λ x, f (g x)) i l).
  by rewrite IH.
Qed.

Lemma put_run (q : nat) (x : string) (w : World) :
  put q x w = (Ok tt, set_queues (alter (λ items, items ++ [x]) q) w).
Proof. reflexivity. Qed.

Lemma for_each_put (q : nat) (l : list string) (w : World) :
  for_each l (put q) w = (Ok tt, set_queues (alter (λ items, items ++ l) q) w).
Proof.
  revert w. induction l as [|x l IH]; intros w.
  - simpl. unfold ret. f_equal. destruct w; unfold set_queues; simpl. f_equal.
    symmetry. apply list_alter_id. intros. by rewrite app_nil_r.
  - simpl. munfold. unfold put at 1. munfold. rewrite IH. f_equal.
    destruct w; unfold set_queues; simpl. f_equal.
    rewrite list_alter_twice. apply list_alter_ext; [|done].
    intros. by rewrite <- app_assoc.
Qed.

(** The message that [_bootstrap] records for an exception. *)
Definition bootstrap_error (instance : Instance) (e : exn) : string :=
  "Error for host " +:+ name instance +:+ ". " +:+ format_exc env e.

(** C4. [_bootstrap] returns normally in every world. An exception that
    leaves its [try] block is recorded in the error queue, as one message
    that holds the name of the instance and the traceback, and nothing else
    is done. For an instance with an empty [node_type] the world is left as
    it was: no transfer, no execution, no error. *)
Theorem bootstrap_never_raises (instance : Instance)
    (saltmaster cluster flavor branch : string)
    (salt_tarball certs_tarball : option string) (error_queue : nat)
    (bootstrap_files bootstrap_commands : option nat) (w : World) :
  let body := _bootstrap_try env self instance saltmaster cluster flavor branch
                salt_tarball certs_tarball bootstrap_files bootstrap_commands in
  let r := _bootstrap env self instance saltmaster cluster flavor branch
             salt_tarball certs_tarball error_queue bootstrap_files bootstrap_commands w in
  r.1 = Ok tt
  ∧ match body w with
    | (Ok _, w1) => r.2 = w1
    | (Raise e, w1) =>
        r.2 = set_queues (alter (λ items, items ++ [bootstrap_error instance e])
                            error_queue) w1
        ∧ str_contains (name instance) (bootstrap_error instance e)
        ∧ str_contains (format_exc env e) (bootstrap_error instance e)
    end
  ∧ (node_type instance = "" → r.2 = w).
Proof.
  intros body r. subst r body. unfold _bootstrap, try_except.
  split; [|split].
  - destruct (_bootstrap_try _ _ _ _ _ _ _ _ _ _ _ w) as [[[]|e] w1]; reflexivity.
  - destruct (_bootstrap_try _ _ _ _ _ _ _ _ _ _ _ w) as [[[]|e] w1]; [reflexivity|].
    split; [reflexivity|]. unfold bootstrap_error. split.
    + apply str_contains_mid.
    + rewrite <- !str_app_assoc. apply str_contains_end.
  - intros Hrole. unfold _bootstrap_try. rewrite Hrole. reflexivity.
Qed.

(** The parts of the command list, in the words of the design. *)
Definition source_environment (cluster : string) : list string :=
  ["source /tmp/pnda_env_" +:+ cluster +:+ ".sh"].

Definition export_variables (saltmaster cluster flavor branch : string)
    (salt_tarball certs_tarball : option string) : list string :=
  ["export PNDA_SALTMASTER_IP=" +:+ saltmaster;
   "export PNDA_CLUSTER=" +:+ cluster;
   "export PNDA_FLAVOR=" +:+ flavor;
   "export PLATFORM_GIT_BRANCH=" +:+ branch;
   from_option (λ tarball, "export PLATFORM_SALT_TARBALL=" +:+ tarball) ":" salt_tarball;
   from_option (λ tarball, "export SECURITY_CERTS_TARBALL=" +:+ tarball) ":" certs_tarball].

Definition mark_scripts_executable : list string :=
  ["sudo chmod a+x /tmp/package-install.sh";
   "sudo chmod a+x /tmp/base.sh";
   "sudo chmod a+x /tmp/volume-mappings.sh"].

Definition persist (lines : list string) (file : string) : string :=
  "sudo mkdir -p /etc/pnda/disk-config && echo '" +:+ str_join NEWLINE lines
  +:+ "' | sudo tee /etc/pnda/disk-config/" +:+ file.

Definition persist_volumes (requested : option Volumes) : list string :=
  from_option (λ lines, [persist lines "partitions"]) [] (requested ≫= partitions)
  ++ from_option (λ lines, [persist lines "requested-volumes"]) [] (requested ≫= volumes).

Definition run_logged (script : string) : string :=
  "(sudo -E /tmp/" +:+ script +:+ " 2>&1) | tee -a pnda-bootstrap.log; " +:+ THROW_BASH_ERROR.

Definition holds_coordinating_role (instance : Instance) : bool :=
  bool_decide (node_type instance = salt_master_instance (_node_config self))
  || is_saltmaster instance.

Definition coordinator_extension (instance : Instance) : list string :=
  if holds_coordinating_role instance
  then ["sudo chmod a+x /tmp/saltmaster-common.sh"; run_logged "saltmaster-common.sh"]
  else [].

Definition sentinel : list string := ["touch ~/.bootstrap_complete"].

Definition role_script (instance : Instance) : list string :=
  ["sudo chmod a+x /tmp/" +:+ node_type instance +:+ ".sh";
   "(sudo -E /tmp/" +:+ node_type instance +:+ ".sh " +:+ node_idx instance
   +:+ " 2>&1) | tee -a pnda-bootstrap.log; " +:+ THROW_BASH_ERROR].

(** The role script of the flavor if there is one, else the default one. *)
Definition type_script (flavor : string) (instance : Instance) (w : World) : string :=
  if bool_decide (is_Some (fs w !! ("bootstrap-scripts/" +:+ flavor +:+ "/"
                                    +:+ node_type instance +:+ ".sh")))
  then "bootstrap-scripts/" +:+ flavor +:+ "/" +:+ node_type instance +:+ ".sh"
  else "bootstrap-scripts/" +:+ node_type instance +:+ ".sh".

Definition staged_files (cluster flavor : string) (instance : Instance) (w : World)
    : list string :=
  ["cli/pnda_env_" +:+ cluster +:+ ".sh";
   "bootstrap-scripts/package-install.sh";
   "bootstrap-scripts/base.sh";
   "bootstrap-scripts/volume-mappings.sh";
   type_script flavor instance w]
  ++ (if holds_coordinating_role instance
      then "bootstrap-scripts/saltmaster-common.sh"
           :: (if bool_decide (is_Some (fs w !! "git.pem")) then ["git.pem"] else [])
      else []).

Definition bootstrap_commands_of (instance : Instance)
    (saltmaster cluster flavor branch : string)
    (salt_tarball certs_tarball : option string) (requested : option Volumes)
    : list string :=
  source_environment cluster
  ++ export_variables saltmaster cluster flavor branch salt_tarball certs_tarball
  ++ mark_scripts_executable
  ++ persist_volumes requested
  ++ [run_logged "base.sh"]
  ++ coordinator_extension instance
  ++ role_script instance
  ++ sentinel.

(** The end of [_bootstrap]: files and commands go to the queues given. *)
Definition record_resources (files cmds : list string) (volume_config : string)
    (bootstrap_files bootstrap_commands : option nat) : M unit :=
  match bootstrap_files with
  | Some q => for_each files (put q);; put q volume_config
  | None => mret tt
  end;;
  match bootstrap_commands with
  | Some q => for_each cmds (put q)
  | None => mret tt
  end.

Lemma get_volume_info_world (node_type config_file : string) (w : World) :
  (_get_volume_info node_type config_file w).2 = w.
Proof.
  unfold _get_volume_info, open, yaml_load, getitem. munfold.
  repeat (case_match; simpl in *; simplify_eq; try done).
Qed.

Lemma nonempty_length (s : string) : s ≠ "" → (String.length s <=? 0)%nat = false.
Proof. destruct s; [done|]. intros _. reflexivity. Qed.

Lemma bootstrap_try_steps (instance : Instance)
    (saltmaster cluster flavor branch : string)
    (salt_tarball certs_tarball : option string)
    (bootstrap_files bootstrap_commands : option nat)
    (requested : option Volumes) (w : World) :
  node_type instance ≠ "" →
  (_get_volume_info (node_type instance)
     ("bootstrap-scripts/" +:+ flavor +:+ "/" +:+ "volume-config.yaml") w).1
  = Ok requested →
  let files := staged_files cluster flavor instance w in
  let cmds := bootstrap_commands_of instance saltmaster cluster flavor branch
                salt_tarball certs_tarball requested in
  _bootstrap_try env self instance saltmaster cluster flavor branch
    salt_tarball certs_tarball bootstrap_files bootstrap_commands w
  = (scp env files cluster (private_ip_address instance);;
     ssh env cmds cluster (private_ip_address instance);;
     record_resources files cmds
       ("bootstrap-scripts/" +:+ flavor +:+ "/" +:+ "volume-config.yaml")
       bootstrap_files bootstrap_commands) w.
Proof.
  intros Hrole Hvol files cmds.
  pose proof (get_volume_info_world (node_type instance)
    ("bootstrap-scripts/" +:+ flavor +:+ "/" +:+ "volume-config.yaml") w) as Hw.
  unfold _bootstrap_try. rewrite (nonempty_length _ Hrole).
  subst files cmds.
  unfold bootstrap_commands_of, staged_files, type_script, persist_volumes,
    coordinator_extension, holds_coordinating_role, record_resources.
  munfold.
  destruct (_get_volume_info _ _ w) as [rv wv]; simpl in Hvol, Hw; subst rv wv.
  destruct (bool_decide (node_type instance = salt_master_instance (_node_config self))
            || is_saltmaster instance);
    destruct (option_bind _ _ partitions requested),
             (option_bind _ _ volumes requested);
    destruct (bool_decide (is_Some (fs w !! ("bootstrap-scripts/" +:+ flavor +:+ "/"
                                    +:+ node_type instance +:+ ".sh"))));
    reflexivity.
Qed.

Lemma record_resources_log (files cmds : list string) (volume_config : string)
    (bootstrap_files bootstrap_commands : option nat) (w : World) :
  (record_resources files cmds volume_config bootstrap_files bootstrap_commands w).1 = Ok tt
  ∧ log (record_resources files cmds volume_config bootstrap_files bootstrap_commands w).2
    = log w.
Proof.
  unfold record_resources. munfold.
  destruct bootstrap_files, bootstrap_commands;
    rewrite ?for_each_put; simpl; rewrite ?put_run, ?for_each_put; done.
Qed.

(** C5. For an instance with a role whose volume requirements resolve,
    [_bootstrap] first transfers the staged files and then, if the transfer
    succeeded, executes one command list made of, in this order: the
    sourcing of the environment file; the exports; the chmod of the staged
    scripts; the commands that persist the declared partitions and volumes;
    the base script; the saltmaster script, present exactly when the
    instance is the saltmaster; the role script with the node index as its
    argument; and the touch of the sentinel file, which comes last. *)
Theorem bootstrap_command_order (instance : Instance)
    (saltmaster cluster flavor branch : string)
    (salt_tarball certs_tarball : option string) (error_queue : nat)
    (bootstrap_files bootstrap_commands : option nat)
    (requested : option Volumes) (w : World) :
  node_type instance ≠ "" →
  (_get_volume_info (node_type instance)
     ("bootstrap-scripts/" +:+ flavor +:+ "/" +:+ "volume-config.yaml") w).1
  = Ok requested →
  let files_to_scp := staged_files cluster flavor instance w in
  let cmds_to_run :=
    source_environment cluster
    ++ export_variables saltmaster cluster flavor branch salt_tarball certs_tarball
    ++ mark_scripts_executable
    ++ persist_volumes requested
    ++ [run_logged "base.sh"]
    ++ coordinator_extension instance
    ++ role_script instance
    ++ sentinel in
  let ip_address := private_ip_address instance in
  ∃ scp_ret ssh_ret : Z,
    log (_bootstrap env self instance saltmaster cluster flavor branch
           salt_tarball certs_tarball error_queue bootstrap_files bootstrap_commands w).2
    = log w
      ++ (actor w, ECall (scp_parts files_to_scp cluster ip_address) ip_address scp_ret)
      :: (if bool_decide (scp_ret = 0)
          then [(actor w, ECall (ssh_parts cmds_to_run cluster ip_address) ip_address ssh_ret)]
          else [])
    ∧ last cmds_to_run = Some "touch ~/.bootstrap_complete"
    ∧ (coordinator_extension instance ≠ [] ↔ holds_coordinating_role instance = true).
Proof.
  intros Hrole Hvol files_to_scp cmds_to_run ip.
  assert (last cmds_to_run = Some "touch ~/.bootstrap_complete") as Hlast.
  { subst cmds_to_run. unfold sentinel. rewrite !app_assoc. apply last_snoc. }
  assert (coordinator_extension instance ≠ [] ↔ holds_coordinating_role instance = true)
    as Hcoord.
  { unfold coordinator_extension. destruct (holds_coordinating_role instance); naive_solver. }
  unfold _bootstrap, try_except.
  rewrite (bootstrap_try_steps _ _ _ _ _ _ _ _ _ requested w Hrole Hvol).
  fold files_to_scp. change (bootstrap_commands_of _ _ _ _ _ _ _ _) with cmds_to_run.
  clearbody files_to_scp cmds_to_run.
  unfold scp, ssh, call. munfold.
  destruct (subprocess_to_log_call env (now w) _ _ _) as [scp_ret scp_ms].
  exists scp_ret.
  destruct (decide (scp_ret = 0)) as [Hz|Hnz].
  - rewrite (bool_decide_eq_false_2 (scp_ret ≠ 0)) by (by intros ?).
    rewrite (bool_decide_eq_true_2 (scp_ret = 0)) by done. simpl.
    destruct (subprocess_to_log_call env _ _ _ _) as [ssh_ret ssh_ms].
    exists ssh_ret. split; [|done].
    case_bool_decide; simpl.
    + by rewrite <- app_assoc.
    + match goal with
      | |- context [record_resources ?f ?c ?v ?bf ?bc ?w0] =>
          destruct (record_resources_log f c v bf bc w0) as [Hr Hl];
          destruct (record_resources f c v bf bc w0) as [rr wr]
      end.
      simpl in Hr, Hl. subst rr. simpl. rewrite Hl. simpl. by rewrite <- app_assoc.
  - rewrite (bool_decide_eq_true_2 (scp_ret ≠ 0)) by done.
    rewrite (bool_decide_eq_false_2 (scp_ret = 0)) by done.
    exists 0. done.
Qed.

End Bootstrap.

Lemma for_append_cons {A B} (x : A) (l : list A) (body : A → M (list B)) (w : World) :
  for_append (x :: l) body w
  = match body x w with
    | (Ok ys, w1) =>
        match for_append l body w1 with
        | (Ok zs, w2) => (Ok (ys ++ zs), w2)
        | (Raise e, w2) => (Raise e, w2)
        end
    | (Raise e, w1) => (Raise e, w1)
    end.
Proof. reflexivity. Qed.

Lemma bind_run {A B} (m : M A) (k : A → M B) (w : World) :
  (m ≫= k) w
  = match m w with
    | (Ok a, w') => k a w'
    | (Raise e, w') => (Raise e, w')
    end.
Proof. reflexivity. Qed.

(** ** Which instances are bootstrapped on expand *)

Section Expand.

Variable env : Env.
Variable self : BaseBackend.

(** An instance that [_expand_pnda] has to bootstrap: it has a role and its
    flag says it is not bootstrapped. *)
Definition new_with_role (i : Instance) : Prop :=
  node_type i ≠ "" ∧ bootstrapped i = Some false.

Global Instance new_with_role_dec (i : Instance) : Decision (new_with_role i).
Proof. unfold new_with_role. apply _. Defined.

(** The pipeline invocation that [_expand_pnda] makes for an instance. *)
Definition expand_invocation (saltmaster_ip : string) (bootstrap_errors : nat)
    (i : Instance) : Target :=
  target_bootstrap i saltmaster_ip (_cluster self) (_flavor self) (_branch self)
    None None bootstrap_errors None None.

Lemma expand_threads_list (saltmaster_ip : string) (bootstrap_errors : nat)
    (entries : list (string * Instance)) (w : World) :
  Forall (λ e, node_type e.2 ≠ "" → bootstrapped e.2 ≠ None) entries →
  ∃ threads,
    for_append entries (λ '(_, instance),
      if (0 <? String.length (node_type instance))%nat then
        match bootstrapped instance with
        | None => raise (KeyError "bootstrapped")
        | Some is_bootstrapped =>
            if negb is_bootstrapped then
              thread ← Thread_new (target_bootstrap instance saltmaster_ip
                                     (_cluster self) (_flavor self) (_branch self)
                                     None None bootstrap_errors None None);
              mret [thread]
            else mret []
        end
      else mret []) w
    = (Ok threads, set_next_tid (λ n, n + length threads)%nat w)
    ∧ target <$> threads
      = expand_invocation saltmaster_ip bootstrap_errors <$> filter new_with_role entries.*2
    ∧ tid <$> threads = seq (next_tid w) (length threads).
Proof.
  intros Hflags.
  match goal with |- context [for_append _ ?b] => set (body := b) end.
  revert w. induction Hflags as [|[k i] entries Hi _ IH]; intros w.
  - exists []. split; [|done]. simpl. unfold ret. f_equal.
    destruct w; unfold set_next_tid; simpl. f_equal. lia.
  - rewrite for_append_cons. simpl in Hi.
    destruct (decide (new_with_role i)) as [Hnew|Hold].
    + destruct Hnew as [Hnt Hb].
      assert (body (k, i) w
              = (Ok [{| tid := next_tid w;
                        target := expand_invocation saltmaster_ip bootstrap_errors i |}],
                 set_next_tid S w)) as ->.
      { subst body. cbv beta iota. destruct (node_type i); [done|]. by rewrite Hb. }
      destruct (IH (set_next_tid S w)) as (threads & -> & Htargets & Htids).
      eexists (_ :: threads). split; [|split].
      * simpl. f_equal. destruct w; unfold set_next_tid; simpl. f_equal. lia.
      * rewrite !fmap_cons, Htargets. rewrite filter_cons_True by done.
        by rewrite fmap_cons.
      * rewrite fmap_cons, Htids. reflexivity.
    + assert (body (k, i) w = (Ok [], w)) as ->.
      { subst body. cbv beta iota. unfold new_with_role in Hold.
        destruct (node_type i); [done|].
        destruct (bootstrapped i) as [[|]|]; [done| |].
        - exfalso. by apply Hold.
        - exfalso. by apply Hi. }
      destruct (IH w) as (threads & -> & Htargets & Htids).
      exists threads. split; [done|]. split; [|done].
      rewrite Htargets, fmap_cons. rewrite filter_cons_False; done.
Qed.

(** C6. When every instance with a role carries the flag, the loop of
    [_expand_pnda] makes its threads without raising, and the pipeline
    invocations made are, in the order of the map, those of the instances
    with a non-empty [node_type] whose [bootstrapped] flag is false: an
    instance of the map gets an invocation if and only if it is one of
    these, and every thread made is a thread of its own. *)
Theorem expand_bootstraps_new_instances_only (m : gmap string Instance)
    (saltmaster_ip : string) (bootstrap_errors : nat) (w : World) :
  (∀ k i, m !! k = Some i → node_type i ≠ "" → bootstrapped i ≠ None) →
  ∃ threads w',
    _expand_pnda_threads self m saltmaster_ip bootstrap_errors w = (Ok threads, w')
    ∧ target <$> threads
      = expand_invocation saltmaster_ip bootstrap_errors
        <$> filter new_with_role (map_to_list m).*2
    ∧ (∀ i, expand_invocation saltmaster_ip bootstrap_errors i ∈ target <$> threads
            ↔ ∃ k, m !! k = Some i ∧ node_type i ≠ "" ∧ bootstrapped i = Some false)
    ∧ NoDup (tid <$> threads).
Proof.
  intros Hflags.
  destruct (expand_threads_list saltmaster_ip bootstrap_errors (map_to_list m) w)
    as (threads & Hrun & Htargets & Htids).
  { apply Forall_forall. intros [k i] Hin. simpl.
    apply (Hflags k). by apply elem_of_map_to_list. }
  exists threads, (set_next_tid (λ n, n + length threads)%nat w).
  split; [exact Hrun|]. split; [exact Htargets|]. split.
  - intros i. rewrite Htargets. rewrite list_elem_of_fmap. split.
    + intros (i' & Heq & Hin). unfold expand_invocation in Heq.
      injection Heq as ->. apply list_elem_of_filter in Hin as [[Hnt Hb] Hin].
      apply list_elem_of_fmap in Hin as ([k i''] & -> & Hin).
      exists k. split; [by apply elem_of_map_to_list|done].
    + intros (k & Hk & Hnt & Hb). exists i. split; [done|].
      apply list_elem_of_filter. split; [done|].
      apply list_elem_of_fmap. exists (k, i). split; [done|].
      by apply elem_of_map_to_list.
  - rewrite Htids. apply NoDup_seq.
Qed.

(** Without the flag on an instance with a role the loop raises. *)
Lemma expand_threads_missing_flag (k : string) (i : Instance)
    (saltmaster_ip : string) (bootstrap_errors : nat) (w : World) :
  node_type i ≠ "" → bootstrapped i = None →
  (_expand_pnda_threads self {[k := i]} saltmaster_ip bootstrap_errors w).1
  = Raise (KeyError "bootstrapped").
Proof.
  intros Hnt Hb. unfold _expand_pnda_threads. rewrite map_to_list_singleton.
  simpl. munfold. destruct (node_type i); [done|]. simpl. by rewrite Hb.
Qed.

End Expand.

(** ** What a computation may change

    [always R m] says that [R] relates the world before [m] to the world
    after it, whatever the result. For a preorder [R] the property passes
    through the monad, so that it is enough to look at the primitive updates
    of the world. The classes below name the updates that a relation admits. *)

Definition always {A} (R : relation World) (m : M A) : Prop :=
  ∀ w, R w (m w).2.

(** The updates made by code that runs in a thread. [Q] tells which actions
    may be logged. *)
Class Admits (Q : Event → Prop) (R : relation World) := {
  adm_preorder :: PreOrder R;
  adm_now w d : 0 ≤ d → R w (set_now (λ t, t + d) w);
  adm_emit w e : Q e → R w (set_log (λ l, l ++ [(actor w, e)]) w);
  adm_queues w f : R w (set_queues f w)
}.

(** The updates made when threads are created and run. *)
Class AdmitsThreads (R : relation World) := {
  adm_next_tid w f : R w (set_next_tid f w);
  adm_thread w a w' : R (set_actor a w) w' → R w (set_actor (actor w) w')
}.

(** The update of [bootstrapped] flags. *)
Class AdmitsFlags (R : relation World) := {
  adm_flags w host_key instances :
    R w (set_heap (alter (alter (set_bootstrapped true) host_key) instances) w)
}.

(** The other updates. *)
Class AdmitsAll (R : relation World) := {
  adm_fs w f : R w (set_fs f w);
  adm_heap w f : R w (set_heap f w);
  adm_cached w c : R w (set_cached c w);
  adm_fill_calls w f : R w (set_fill_calls f w);
  adm_RUNFILE w r : R w (set_RUNFILE r w)
}.

Section Always.

Context {R : relation World} `{!PreOrder R}.

Lemma always_ret {A} (a : A) : always R (ret a).
Proof. intros w. reflexivity. Qed.

Lemma always_mret {A} (a : A) : always R (mret a).
Proof. intros w. reflexivity. Qed.

Lemma always_raise {A} (e : exn) : always R (raise (A:=A) e).
Proof. intros w. reflexivity. Qed.

Lemma always_bind {A B} (m : M A) (k : A → M B) :
  always R m → (∀ a, always R (k a)) → always R (m ≫= k).
Proof.
  intros Hm Hk w. unfold mbind, M_bind, bind. specialize (Hm w).
  destruct (m w) as [[a|e] w1]; simpl in *; [|done].
  etransitivity; [exact Hm|apply Hk].
Qed.

Lemma always_try_except {A} (body : M A) (handler : exn → M A) :
  always R body → (∀ e, always R (handler e)) → always R (try_except body handler).
Proof.
  intros Hm Hk w. unfold try_except. specialize (Hm w).
  destruct (body w) as [[a|e] w1]; simpl in *; [done|].
  etransitivity; [exact Hm|apply Hk].
Qed.

Lemma always_for_each {A} (l : list A) (body : A → M unit) :
  (∀ x, x ∈ l → always R (body x)) → always R (for_each l body).
Proof.
  induction l as [|x l IH]; intros Hbody; simpl.
  - apply always_ret.
  - apply always_bind; [apply Hbody; left|].
    intros _. apply IH. intros y Hy. apply Hbody. by right.
Qed.

Lemma always_for_append {A B} (l : list A) (body : A → M (list B)) :
  (∀ x, x ∈ l → always R (body x)) → always R (for_append l body).
Proof.
  induction l as [|x l IH]; intros Hbody; simpl.
  - apply always_mret.
  - apply always_bind; [apply Hbody; left|]. intros ys.
    apply always_bind; [apply IH; intros y Hy; apply Hbody; by right|].
    intros zs. apply always_mret.
Qed.

Lemma always_pure {A} (f : World → result A) : always R (λ w, (f w, w)).
Proof. intros w. reflexivity. Qed.

Lemma always_modify (f : World → World) : (∀ w, R w (f w)) → always R (modify f).
Proof. intros Hf w. apply Hf. Qed.

Lemma always_if {A} (b : bool) (m1 m2 : M A) :
  always R m1 → always R m2 → always R (if b then m1 else m2).
Proof. by destruct b. Qed.

End Always.

Create HintDb always.
Global Hint Resolve always_ret always_mret always_raise always_pure : always.

Ltac always_step :=
  first
    [ apply always_mret | apply always_ret | apply always_raise
    | apply always_bind; [|intros ?]
    | apply always_try_except; [|intros ?]
    | apply always_if
    | match goal with |- always _ (match ?x with _ => _ end) => destruct x end ].

Section AlwaysInThreads.

Variable env : Env.
Variable self : BaseBackend.
Context {Q : Event → Prop} {R : relation World} `{!Admits Q R}.
Hypothesis Q_call : ∀ parts host ret_val, Q (ECall parts host ret_val).
Hypothesis Q_sleep : ∀ seconds, Q (ESleep seconds).

Lemma always_emit (e : Event) : Q e → always R (emit e).
Proof. intros He w. by apply adm_emit. Qed.

Lemma always_call (parts : list string) (host : string) (scan : list string) :
  always R (call env parts host scan).
Proof.
  intros w. unfold call.
  destruct (subprocess_to_log_call env (now w) parts host scan) as [ret_val ms]. simpl.
  etransitivity; [apply (adm_emit w (ECall parts host ret_val)), Q_call|].
  apply adm_now. lia.
Qed.

Lemma always_sleep (seconds : Z) : 0 ≤ seconds → always R (sleep seconds).
Proof.
  intros Hs. unfold sleep. apply always_bind; [apply always_emit, Q_sleep|].
  intros _. apply always_modify. intros w. apply adm_now. lia.
Qed.

Lemma always_put (q : nat) (x : string) : always R (put q x).
Proof. apply always_modify. intros w. apply adm_queues. Qed.

Lemma always_get (q : nat) : always R (get q).
Proof. apply always_modify. intros w. apply adm_queues. Qed.

Lemma always_Queue : always R Queue.
Proof. intros w. apply adm_queues. Qed.

Lemma always_scp (files : list string) (cluster host : string) :
  always R (scp env files cluster host).
Proof.
  unfold scp. apply always_bind; [apply always_call|].
  intros r. case_bool_decide; [apply always_raise|apply always_mret].
Qed.

Lemma always_ssh (cmds : list string) (cluster host : string) :
  always R (ssh env cmds cluster host).
Proof.
  unfold ssh. apply always_bind; [apply always_call|].
  intros r. case_bool_decide; [apply always_raise|apply always_mret].
Qed.

Lemma always_do_wait_loop (host cluster : string) (wait_errors : nat) (time_start : Z) :
  always R (do_wait_loop env host cluster wait_errors time_start).
Proof.
  intros w. funelim (do_wait_loop env host cluster wait_errors time_start w).
  all: pose proof (always_ssh ["ls ~"] cluster host w) as Hs.
  all: match goal with He : ssh _ _ _ _ _ = _ |- _ => rewrite He in Hs end.
  all: simpl in Hs.
  - exact Hs.
  - etransitivity; [exact Hs|]. apply always_put.
  - etransitivity; [exact Hs|].
    etransitivity; [apply (always_sleep 2); lia|].
    match goal with IH : R _ _ |- _ => exact IH end.
Qed.

Lemma always_do_wait (host cluster : string) (wait_errors : nat) :
  always R (do_wait env host cluster wait_errors).
Proof. intros w. apply always_do_wait_loop. Qed.

Lemma always_do_check (host_key host cluster : string) (check_results : nat) :
  always R (do_check env host_key host cluster check_results).
Proof.
  unfold do_check. apply always_try_except; [|intros; apply always_mret].
  apply always_bind; [apply always_ssh|]. intros _. apply always_put.
Qed.

Lemma always_isfile (path : string) : always R (isfile path).
Proof. intros w. reflexivity. Qed.

Lemma always_get_volume_info (node_type config_file : string) :
  always R (_get_volume_info node_type config_file).
Proof.
  intros w. rewrite get_volume_info_world. reflexivity.
Qed.

Lemma always_bootstrap_try (instance : Instance)
    (saltmaster cluster flavor branch : string)
    (salt_tarball certs_tarball : option string)
    (bootstrap_files bootstrap_commands : option nat) :
  always R (_bootstrap_try env self instance saltmaster cluster flavor branch
              salt_tarball certs_tarball bootstrap_files bootstrap_commands).
Proof.
  unfold _bootstrap_try. cbv zeta.
  apply always_if; [apply always_mret|].
  apply always_bind; [apply always_isfile|]. intros found.
  apply always_bind; [apply always_get_volume_info|]. intros requested.
  apply always_bind; [apply always_if; [apply always_isfile|apply always_mret]|].
  intros git. apply always_bind; [apply always_scp|]. intros _.
  apply always_bind; [apply always_ssh|]. intros _.
  apply always_bind.
  - destruct bootstrap_files; [|apply always_mret].
    apply always_bind; [|intros _; apply always_put].
    apply always_for_each. intros; apply always_put.
  - intros _. destruct bootstrap_commands; [|apply always_mret].
    apply always_for_each. intros; apply always_put.
Qed.

Lemma always_bootstrap (instance : Instance)
    (saltmaster cluster flavor branch : string)
    (salt_tarball certs_tarball : option string) (error_queue : nat)
    (bootstrap_files bootstrap_commands : option nat) :
  always R (_bootstrap env self instance saltmaster cluster flavor branch
              salt_tarball certs_tarball error_queue bootstrap_files bootstrap_commands).
Proof.
  unfold _bootstrap. apply always_try_except; [apply always_bootstrap_try|].
  intros e. apply always_put.
Qed.

Lemma always_run_target (tg : Target) : always R (run_target env self tg).
Proof.
  destruct tg; simpl.
  - apply always_do_wait.
  - apply always_do_check.
  - apply always_bootstrap.
Qed.

Lemma always_process_thread_errors (action : string) (errors : nat) :
  always R (_process_thread_errors env action errors).
Proof.
  unfold _process_thread_errors. apply always_bind; [apply always_pure|].
  intros [|m items]; [apply always_mret|].
  apply always_bind; [apply always_get|]. intros _. apply always_raise.
Qed.

End AlwaysInThreads.

(** ** Thread sets *)

Lemma concat_chunks {A} (l : list A) (k c : nat) :
  concat (map (λ i, take k (drop (i * k) l)) (seq 0 c)) = take (c * k) l.
Proof.
  induction c as [|c IH]; [done|].
  rewrite seq_S, map_app, concat_app, IH. simpl. rewrite app_nil_r.
  rewrite take_take_drop. f_equal. lia.
Qed.

(** For a positive size the thread sets are the consecutive pieces of the
    list, each of them not empty and no longer than the size. *)
Lemma thread_sets_of_pos (thread_list : list Thread) (size : Z) :
  1 ≤ size →
  ∃ sets,
    thread_sets_of thread_list size = Ok sets
    ∧ concat sets = thread_list
    ∧ Forall (λ set, (0 < length set ≤ Z.to_nat size)%nat) sets.
Proof.
  intros Hsize. unfold thread_sets_of, xrange.
  destruct (Z.eqb_spec size 0) as [?|_]; [lia|].
  destruct (Z.ltb_spec 0 size) as [_|?]; [|lia].
  set (n := length thread_list). set (k := Z.to_nat size).
  set (c := Z.to_nat ((Z.of_nat n - 0 + size - 1) / size)).
  assert (Hc : (n ≤ c * k ∧ ∀ i, i < c → i * k < n)%nat).
  { subst c k.
    pose proof (Z.div_mod (Z.of_nat n - 0 + size - 1) size ltac:(lia)) as Hdm.
    pose proof (Z.mod_pos_bound (Z.of_nat n - 0 + size - 1) size ltac:(lia)) as Hmod.
    assert (0 ≤ (Z.of_nat n - 0 + size - 1) / size) by (apply Z.div_pos; lia).
    split; [nia|]. intros i Hi. nia. }
  eexists. split; [reflexivity|]. rewrite map_map.
  assert (Heq : map (λ x : nat, slice thread_list (0 + Z.of_nat x * size)
                                  (0 + Z.of_nat x * size + size)) (seq 0 c)
                = map (λ i, take k (drop (i * k) thread_list)) (seq 0 c)).
  { apply map_ext. intros i. unfold slice. f_equal; [subst k; f_equal; lia|].
    f_equal. subst k. lia. }
  rewrite Heq. split.
  - rewrite concat_chunks. apply take_ge. fold n. lia.
  - apply Forall_forall. intros set Hin.
    apply list_elem_of_In, in_map_iff in Hin as (i & <- & Hi).
    apply in_seq in Hi. rewrite length_take, length_drop. fold n.
    destruct Hc as [_ Hc]. specialize (Hc i ltac:(lia)). lia.
Qed.

Lemma thread_sets_of_zero (thread_list : list Thread) :
  thread_sets_of thread_list 0 = Raise (ValueError "xrange() arg 3 must not be zero").
Proof. reflexivity. Qed.

Lemma thread_sets_of_neg (thread_list : list Thread) (size : Z) :
  size < 0 → thread_sets_of thread_list size = Ok [].
Proof.
  intros Hsize. unfold thread_sets_of, xrange.
  destruct (Z.eqb_spec size 0) as [?|_]; [lia|].
  destruct (Z.ltb_spec 0 size) as [?|_]; [lia|].
  assert ((0 - Z.of_nat (length thread_list) - size - 1) / - size < 1) as Hq
    by (apply Z.div_lt_upper_bound; lia).
  replace (Z.to_nat ((0 - Z.of_nat (length thread_list) - size - 1) / - size)) with 0%nat
    by lia.
  reflexivity.
Qed.

Lemma elem_of_thread_sets (thread_list : list Thread) (size : Z)
    (sets : list (list Thread)) (set : list Thread) (t : Thread) :
  thread_sets_of thread_list size = Ok sets → set ∈ sets → t ∈ set → t ∈ thread_list.
Proof.
  unfold thread_sets_of. destruct (xrange _ _ _) as [offsets|]; [|done].
  intros [= <-] Hset Ht. apply list_elem_of_In, in_map_iff in Hset as (x & <- & _).
  unfold slice in Ht. by apply subseteq_take, subseteq_drop in Ht.
Qed.

Lemma always_bind_post {R : relation World} `{!PreOrder R} {A B}
    (Post : A → Prop) (m : M A) (k : A → M B) :
  always R m → (∀ w a w', m w = (Ok a, w') → Post a) →
  (∀ a, Post a → always R (k a)) → always R (m ≫= k).
Proof.
  intros Hm Hpost Hk w. unfold mbind, M_bind, bind. specialize (Hm w).
  destruct (m w) as [[a|e] w1] eqn:Hrun; simpl in *; [|done].
  etransitivity; [exact Hm|]. eapply Hk, Hpost, Hrun.
Qed.

(** What holds of everything that the body appends holds of the list built. *)
Lemma for_append_Forall {A B} (P : B → Prop) (l : list A) (body : A → M (list B))
    (w : World) (ys : list B) (w' : World) :
  (∀ x w ys w', x ∈ l → body x w = (Ok ys, w') → Forall P ys) →
  for_append l body w = (Ok ys, w') → Forall P ys.
Proof.
  revert w ys w'. induction l as [|x l IH]; intros w ys w' HP Hrun.
  - injection Hrun as <- _. constructor.
  - rewrite for_append_cons in Hrun.
    destruct (body x w) as [[xs|e] w1] eqn:Hx; [|done].
    destruct (for_append l body w1) as [[zs|e] w2] eqn:Hrest; [|done].
    injection Hrun as <- _. apply Forall_app. split.
    + eapply HP; [left|exact Hx].
    + eapply IH; [|exact Hrest]. intros y w0 ys0 w0' Hy. apply HP. by right.
Qed.

Section AlwaysWithThreads.

Variable env : Env.
Variable self : BaseBackend.
Context {Q : Event → Prop} {R : relation World} `{!Admits Q R, !AdmitsThreads R}.
Hypothesis Q_call : ∀ parts host ret_val, Q (ECall parts host ret_val).
Hypothesis Q_sleep : ∀ seconds, Q (ESleep seconds).

Lemma always_Thread_new (tg : Target) : always R (Thread_new tg).
Proof. intros w. apply adm_next_tid. Qed.

Lemma always_thread_run (t : Thread) : always R (thread_run env self t).
Proof.
  intros w. unfold thread_run. simpl.
  apply (adm_thread w (Worker (tid t))). apply (always_run_target env self Q_call Q_sleep).
Qed.

Lemma always_run_thread_set (bastion_used : bool) (thread_set : list Thread) :
  (∀ t, t ∈ thread_set → Q (EStart t) ∧ Q (EJoin t)) →
  always R (run_thread_set env self bastion_used thread_set).
Proof.
  intros HQ. unfold run_thread_set.
  apply always_bind.
  { apply always_for_each. intros t Ht. apply always_bind.
    - apply always_emit. by apply HQ.
    - intros _. destruct bastion_used; [|apply always_mret].
      by apply always_sleep. }
  intros _. apply always_bind.
  { apply always_for_each. intros t _. apply always_thread_run. }
  intros _. apply always_for_each. intros t Ht. apply always_emit. by apply HQ.
Qed.

Lemma always_wait_on_host_operations (action : string) (thread_list : list Thread)
    (bastion_used : bool) (errors : option nat) :
  (∀ t, t ∈ thread_list → Q (EStart t) ∧ Q (EJoin t)) →
  always R (_wait_on_host_operations env self action thread_list bastion_used errors).
Proof.
  intros HQ. unfold _wait_on_host_operations.
  apply (always_bind_post (λ sets, ∀ set t, set ∈ sets → t ∈ set → t ∈ thread_list)).
  - apply always_pure.
  - intros w sets w' [= Hsets _] set t. by eapply elem_of_thread_sets.
  - intros sets Hsets. apply always_bind.
    + apply always_for_each. intros set Hset. apply always_run_thread_set.
      intros t Ht. apply HQ. by eapply Hsets.
    + intros _. destruct errors; [|apply always_mret].
      apply (always_process_thread_errors env (Q:=Q)).
Qed.

Lemma always_wait_for_host_connectivity (hosts : list string) (cluster : string)
    (bastion_used : bool) :
  (∀ t host wait_errors, target t = target_do_wait host cluster wait_errors →
     Q (EStart t) ∧ Q (EJoin t)) →
  always R (_wait_for_host_connectivity env self hosts cluster bastion_used).
Proof.
  intros HQ. unfold _wait_for_host_connectivity.
  apply always_bind; [apply (always_Queue (Q:=Q))|]. intros wait_errors.
  apply (always_bind_post
           (Forall (λ t, ∃ host, target t = target_do_wait host cluster wait_errors))).
  - apply always_for_append. intros host _.
    apply always_bind; [apply always_Thread_new|]. intros t. apply always_mret.
  - intros w threads w' Hrun. eapply for_append_Forall; [|exact Hrun].
    intros host w0 ys w0' _ [= <- _]. constructor; [|constructor]. by exists host.
  - intros threads Hthreads. apply always_wait_on_host_operations.
    intros t Ht. rewrite Forall_forall in Hthreads.
    destruct (Hthreads t Ht) as [host Htarget]. by eapply HQ.
Qed.

Context `{!AdmitsFlags R}.

Lemma always_mark_bootstrapped (instances : nat) (host_key : string) :
  always R (mark_bootstrapped instances host_key).
Proof.
  unfold mark_bootstrapped. apply always_bind; [apply always_pure|]. intros m.
  apply always_bind.
  { unfold getitem. destruct (m !! host_key); [apply always_ret|apply always_raise]. }
  intros _. apply always_modify. intros w. apply adm_flags.
Qed.

Lemma always_check_hosts_bootstrapped (instances : nat) (cluster : string)
    (bastion_used : bool) :
  (∀ t host_key host check_results,
     target t = target_do_check host_key host cluster check_results →
     Q (EStart t) ∧ Q (EJoin t)) →
  always R (_check_hosts_bootstrapped env self instances cluster bastion_used).
Proof.
  intros HQ. unfold _check_hosts_bootstrapped.
  apply always_bind; [apply (always_Queue (Q:=Q))|]. intros check_results.
  apply always_bind; [apply always_pure|]. intros m.
  apply (always_bind_post
           (Forall (λ t, ∃ host_key host,
                      target t = target_do_check host_key host cluster check_results))).
  - apply always_for_append. intros [key instance] _.
    apply always_bind; [apply always_Thread_new|]. intros t. apply always_mret.
  - intros w threads w' Hrun. eapply for_append_Forall; [|exact Hrun].
    intros [key instance] w0 ys w0' _ [= <- _]. constructor; [|constructor].
    by eexists _, _.
  - intros threads Hthreads. apply always_bind.
    + apply always_wait_on_host_operations.
      intros t Ht. rewrite Forall_forall in Hthreads.
      destruct (Hthreads t Ht) as (host_key & host & Htarget). by eapply HQ.
    + intros _. apply always_bind; [apply always_pure|]. intros found.
      apply always_for_each. intros host_key _.
      apply always_bind; [apply (always_get (Q:=Q))|]. intros _.
      apply always_mark_bootstrapped.
Qed.

End AlwaysWithThreads.

(** ** The instance map cache *)

(** Nothing that the cache depends on changes: the cached reference, the
    number of calls of [fill_instance_map], the dictionaries that exist and
    their keys. *)
Definition keeps_cache : relation World := λ w w',
  _cached_instance_map w' = _cached_instance_map w
  ∧ fill_calls w' = fill_calls w
  ∧ length (heap w') = length (heap w)
  ∧ ∀ r, dom (instance_map_of r w') = dom (instance_map_of r w).

Global Instance keeps_cache_preorder : PreOrder keeps_cache.
Proof.
  split.
  - intros w. done.
  - intros w1 w2 w3 (Hc & Hf & Hl & Hd) (Hc' & Hf' & Hl' & Hd').
    split; [congruence|]. split; [congruence|]. split; [congruence|].
    intros r. by rewrite Hd', Hd.
Qed.

Global Instance keeps_cache_admits : Admits (λ _, True) keeps_cache.
Proof. split; [apply _|done..]. Qed.

Global Instance keeps_cache_threads : AdmitsThreads keeps_cache.
Proof. by split. Qed.

Global Instance keeps_cache_flags : AdmitsFlags keeps_cache.
Proof.
  split. intros w host_key instances.
  split; [done|]. split; [done|]. split.
  - apply length_alter.
  - intros r. unfold instance_map_of. simpl. rewrite list_lookup_alter.
    case_decide as Hr; [subst r|done].
    destruct (heap w !! instances) as [m|]; simpl; [|done].
    apply dom_alter_L.
Qed.

Lemma instance_map_empty_dom (r : nat) (w : World) :
  size (instance_map_of r w) = 0%nat ↔ dom (instance_map_of r w) = ∅.
Proof. rewrite map_size_empty_iff. symmetry. apply dom_empty_iff_L. Qed.

Lemma truthy_cache_None (w : World) :
  truthy_cache w = None
  ↔ ∀ r, _cached_instance_map w = Some r → dom (instance_map_of r w) = ∅.
Proof.
  unfold truthy_cache. destruct (_cached_instance_map w) as [cached|].
  - case_bool_decide as Hsize; rewrite instance_map_empty_dom in Hsize.
    + split; [|done]. by intros _ r [= <-].
    + split; [done|]. intros Hall. destruct Hsize. by apply Hall.
  - split; [|done]. by intros _ r.
Qed.

Lemma truthy_cache_Some (w : World) (r : nat) :
  truthy_cache w = Some r
  ↔ _cached_instance_map w = Some r ∧ instance_map_of r w ≠ ∅.
Proof.
  unfold truthy_cache. destruct (_cached_instance_map w) as [cached|].
  - case_bool_decide as Hsize; rewrite map_size_empty_iff in Hsize.
    + split; [done|]. by intros [[= <-] Hne].
    + split; [by intros [= <-]|]. by intros [[= <-] _].
  - split; [done|]. by intros [? _].
Qed.

Section Cache.

Variable env : Env.
Variable self : BaseBackend.

Lemma check_hosts_bootstrapped_keeps_cache (instances : nat) (cluster : string)
    (bastion_used : bool) :
  always keeps_cache (_check_hosts_bootstrapped env self instances cluster bastion_used).
Proof.
  apply (always_check_hosts_bootstrapped env self (Q:=λ _, True)); try done.
  apply _.
Qed.

(** A call that finds a dictionary with entries in the cache returns it and
    does nothing else. *)
Lemma get_instance_map_hit (check_bootstrapped : bool) (w : World) (cached : nat) :
  _cached_instance_map w = Some cached → instance_map_of cached w ≠ ∅ →
  get_instance_map env self check_bootstrapped w = (Ok cached, w).
Proof.
  intros Hc Hm. unfold get_instance_map. munfold.
  by rewrite (proj2 (truthy_cache_Some w cached)).
Qed.

(** What [get_instance_map] does after looking into the cache in vain. *)
Definition fill_and_check (check_bootstrapped : bool) (w : World) : result unit * World :=
  let w1 := (fill_instance_map env w).2 in
  let instance_map := length (heap w) in
  if check_bootstrapped then
    _check_hosts_bootstrapped env self instance_map (_cluster self)
      (bool_decide (is_Some (instance_map_of instance_map w1
                             !! (_cluster self +:+ "-" +:+
                                 bastion_instance (_node_config self))))) w1
  else (Ok tt, w1).

Lemma get_instance_map_miss_eq (check_bootstrapped : bool) (w : World) :
  truthy_cache w = None →
  get_instance_map env self check_bootstrapped w
  = match fill_and_check check_bootstrapped w with
    | (Ok _, w2) => (Ok (length (heap w)), set_cached (Some (length (heap w))) w2)
    | (Raise e, w2) => (Raise e, w2)
    end.
Proof.
  intros Hmiss. unfold get_instance_map, fill_and_check. munfold. rewrite Hmiss.
  destruct check_bootstrapped; reflexivity.
Qed.

(** A call that finds no such dictionary calls [fill_instance_map], which
    makes a new dictionary, and stores it unless the bootstrap check raises. *)
Lemma get_instance_map_miss (check_bootstrapped : bool) (w : World) :
  truthy_cache w = None →
  let r := length (heap w) in
  let res := get_instance_map env self check_bootstrapped w in
  fill_calls res.2 = S (fill_calls w)
  ∧ length (heap res.2) = S (length (heap w))
  ∧ dom (instance_map_of r res.2) = dom (fill_oracle env (fill_calls w))
  ∧ (∀ r', r' < r → dom (instance_map_of r' res.2) = dom (instance_map_of r' w))%nat
  ∧ match res.1 with
    | Ok r' => r' = r ∧ _cached_instance_map res.2 = Some r
    | Raise _ => _cached_instance_map res.2 = _cached_instance_map w
    end.
Proof.
  intros Hmiss r res. subst res. rewrite get_instance_map_miss_eq by done.
  assert (Hk : ∃ w1, keeps_cache w1 (fill_and_check check_bootstrapped w).2
                ∧ fill_calls w1 = S (fill_calls w)
                ∧ length (heap w1) = S (length (heap w))
                ∧ instance_map_of r w1 = fill_oracle env (fill_calls w)
                ∧ (∀ r', r' < r → instance_map_of r' w1 = instance_map_of r' w)%nat
                ∧ _cached_instance_map w1 = _cached_instance_map w).
  { exists (fill_instance_map env w).2. split.
    - unfold fill_and_check. destruct check_bootstrapped; [|done].
      apply check_hosts_bootstrapped_keeps_cache.
    - subst r. unfold instance_map_of. simpl. repeat split.
      + rewrite length_app. simpl. lia.
      + by rewrite list_lookup_middle.
      + intros r' Hr'. by rewrite lookup_app_l. }
  destruct Hk as (w1 & (Hc2 & Hf2 & Hl2 & Hd2) & Hf & Hl & Hr & Hlt & Hc).
  destruct (fill_and_check check_bootstrapped w) as [[[]|e] w2];
    unfold instance_map_of in *; cbn [fst snd set_cached heap fill_calls
                                      _cached_instance_map] in *.
  - rewrite Hf2, Hl2, Hd2, Hr. repeat split; try done.
    intros r' Hr'. by rewrite Hd2, Hlt.
  - rewrite Hf2, Hl2, Hd2, Hr, Hc2. repeat split; try done.
    intros r' Hr'. by rewrite Hd2, Hlt.
Qed.

(** The world after a sequence of calls of [get_instance_map], one for
    each flag, whatever their results. *)
Definition after_calls (flags : list bool) (w : World) : World :=
  foldl (λ w check_bootstrapped, (get_instance_map env self check_bootstrapped w).2)
    w flags.

(** The results of a sequence of calls of [get_instance_map]. *)
Definition call_sequence (flags : list bool) : M (list nat) :=
  for_append flags (λ check_bootstrapped,
    instance_map ← get_instance_map env self check_bootstrapped;
    mret [instance_map]).

Lemma cached_after_get_instance_map (check_bootstrapped : bool) (w w1 : World) (r : nat) :
  get_instance_map env self check_bootstrapped w = (Ok r, w1) →
  _cached_instance_map w1 = Some r.
Proof.
  intros Hrun. destruct (truthy_cache w) as [c|] eqn:Hc.
  - apply truthy_cache_Some in Hc as [Hc Hne].
    rewrite (get_instance_map_hit _ _ _ Hc Hne) in Hrun. by injection Hrun as <- <-.
  - pose proof (get_instance_map_miss check_bootstrapped w Hc) as (_ & _ & _ & _ & Hres).
    rewrite Hrun in Hres. simpl in Hres. destruct Hres as [-> Hres]. exact Hres.
Qed.

Lemma instance_map_of_valid (r : nat) (w : World) :
  instance_map_of r w ≠ ∅ → (r < length (heap w))%nat.
Proof.
  intros Hne. destruct (decide (r < length (heap w))%nat) as [|Hge]; [done|].
  destruct Hne. unfold instance_map_of. rewrite lookup_ge_None_2; [done|lia].
Qed.

(** C7, as the code has it. Once a call has returned a dictionary that is
    not empty, every call of any later sequence of calls, whatever its
    flag, returns that same object and leaves the world as it is, so that
    [fill_instance_map] is not called again; and after
    [clear_instance_map_cache] the next call calls [fill_instance_map] once
    and, unless it raises, returns a new object. *)
Theorem get_instance_map_memoizes (check_bootstrapped : bool) (w w1 : World) (r : nat) :
  get_instance_map env self check_bootstrapped w = (Ok r, w1) →
  instance_map_of r w1 ≠ ∅ →
  (∀ flags, call_sequence flags w1 = (Ok (replicate (length flags) r), w1))
  ∧ (∀ flag,
       let res := get_instance_map env self flag (clear_instance_map_cache w1).2 in
       fill_calls res.2 = S (fill_calls w1)
       ∧ ∀ r', res.1 = Ok r' → r' = length (heap w1) ∧ r' ≠ r).
Proof.
  intros Hrun Hne. pose proof (cached_after_get_instance_map _ _ _ _ Hrun) as Hc.
  split.
  - intros flags. unfold call_sequence. induction flags as [|flag flags IH]; [done|].
    rewrite for_append_cons. munfold.
    rewrite (get_instance_map_hit flag w1 r Hc Hne). by rewrite IH.
  - intros flag res. subst res.
    set (w2 := (clear_instance_map_cache w1).2).
    assert (truthy_cache w2 = None) as Hmiss by done.
    pose proof (get_instance_map_miss flag w2 Hmiss) as (Hf & _ & _ & _ & Hres).
    split; [exact Hf|]. intros r' Hr'. rewrite Hr' in Hres. destruct Hres as [-> _].
    split; [done|]. apply instance_map_of_valid in Hne.
    change (length (heap w2)) with (length (heap w1)). lia.
Qed.

(** C10. A call that finds a dictionary with entries in the cache returns
    that object and leaves the world as it is, whatever the flag: no host is
    probed and no flag is refreshed. When [fill_instance_map] returns empty
    dictionaries, no call is served from the cache: each call of a sequence
    calls [fill_instance_map] again. *)
Theorem get_instance_map_cache_hit_ignores_flag (check_bootstrapped : bool) (w : World) :
  (∀ cached, _cached_instance_map w = Some cached → instance_map_of cached w ≠ ∅ →
     get_instance_map env self check_bootstrapped w = (Ok cached, w))
  ∧ ((∀ n, fill_oracle env n = ∅) → truthy_cache w = None →
     ∀ flags,
       fill_calls (after_calls flags w) = (fill_calls w + length flags)%nat
       ∧ truthy_cache (after_calls flags w) = None).
Proof.
  split; [intros cached; apply get_instance_map_hit|].
  intros Hempty Hmiss flags. revert w Hmiss.
  induction flags as [|flag flags IH]; intros w Hmiss; simpl.
  - split; [lia|done].
  - pose proof (get_instance_map_miss flag w Hmiss) as (Hf & Hl & Hnew & Hold & Hres).
    set (w' := (get_instance_map env self flag w).2) in *.
    assert (truthy_cache w' = None) as Hmiss'.
    { apply truthy_cache_None. intros r0 Hr0.
      rewrite Hempty, dom_empty_L in Hnew.
      destruct (decide (r0 < length (heap w))%nat) as [Hlt|Hge].
      - rewrite (Hold r0 Hlt).
        destruct (get_instance_map env self flag w).1 as [r'|e].
        + destruct Hres as [_ Hres]. fold w' in Hres. rewrite Hres in Hr0.
          injection Hr0 as <-. lia.
        + fold w' in Hres. rewrite Hres in Hr0.
          by apply (proj1 (truthy_cache_None w) Hmiss).
      - destruct (decide (r0 = length (heap w))) as [->|Hne]; [exact Hnew|].
        unfold instance_map_of. rewrite lookup_ge_None_2; [apply dom_empty_L|lia]. }
    destruct (IH w' Hmiss') as [IHf IHc]. split; [|exact IHc].
    rewrite IHf, Hf. lia.
Qed.

End Cache.

(** ** Waves *)

Global Instance Actor_eq_dec : EqDecision Actor.
Proof. solve_decision. Defined.

(** The actions of the coordinating thread, in order. *)
Definition main_events (l : list (Actor * Event)) : list Event :=
  (filter (λ ae, ae.1 = MainThread) l).*2.

(** The actions of the coordinating thread on one thread set: every thread
    is started, with a pause after each start behind a bastion, and then
    every thread is joined. *)
Definition start_events (bastion_used : bool) (set : list Thread) : list Event :=
  set ≫= λ t, EStart t :: (if bastion_used then [ESleep 2] else []).
Definition wave_events (bastion_used : bool) (set : list Thread) : list Event :=
  start_events bastion_used set ++ (EJoin <$> set).

(** The number of times the coordinating thread goes from something else
    to joining threads. *)
Fixpoint join_phases (evs : list Event) : nat :=
  match evs with
  | [] => 0
  | EJoin _ :: rest =>
      match rest with
      | EJoin _ :: _ => join_phases rest
      | _ => S (join_phases rest)
      end
  | _ :: rest => join_phases rest
  end.

Lemma main_events_app (l1 l2 : list (Actor * Event)) :
  main_events (l1 ++ l2) = main_events l1 ++ main_events l2.
Proof. unfold main_events. by rewrite filter_app, fmap_app. Qed.

Lemma main_events_own (es : list Event) :
  main_events (pair MainThread <$> es) = es.
Proof.
  unfold main_events. induction es as [|e es IH]; [done|].
  rewrite fmap_cons, filter_cons_True by done. rewrite fmap_cons. by rewrite IH.
Qed.

Lemma main_events_others (l : list (Actor * Event)) :
  Forall (λ ae, ae.1 ≠ MainThread) l → main_events l = [].
Proof.
  unfold main_events. induction 1 as [|ae l Hae _ IH]; [done|].
  by rewrite filter_cons_False.
Qed.

(** Whatever is logged is logged under the name of the running thread,
    which does not change. *)
Definition logs_as_self : relation World := λ w w',
  actor w' = actor w
  ∧ ∃ es, log w' = log w ++ es ∧ Forall (λ ae, ae.1 = actor w) es.

Global Instance logs_as_self_preorder : PreOrder logs_as_self.
Proof.
  split.
  - intros w. split; [done|]. exists []. by rewrite app_nil_r.
  - intros w1 w2 w3 (Ha & es & Hl & Hes) (Ha' & es' & Hl' & Hes').
    split; [congruence|]. exists (es ++ es'). split.
    + by rewrite Hl', Hl, app_assoc.
    + apply Forall_app. split; [done|]. by rewrite <- Ha.
Qed.

Global Instance logs_as_self_admits : Admits (λ _, True) logs_as_self.
Proof.
  split; [apply _|..].
  - intros w d _. split; [done|]. exists []. by rewrite app_nil_r.
  - intros w e _. split; [done|]. exists [(actor w, e)]. split; [done|].
    by constructor.
  - intros w f. split; [done|]. exists []. by rewrite app_nil_r.
Qed.

Section Waves.

Variable env : Env.
Variable self : BaseBackend.

Lemma thread_run_main (t : Thread) (w : World) :
  actor w = MainThread →
  ∃ w',
    thread_run env self t w = (Ok tt, w')
    ∧ actor w' = MainThread
    ∧ main_events (log w') = main_events (log w).
Proof.
  intros Hmain. unfold thread_run. eexists. split; [reflexivity|]. split; [done|].
  destruct (always_run_target env self (Q:=λ _, True) (R:=logs_as_self)
              ltac:(done) ltac:(done) (target t) (set_actor (Worker (tid t)) w))
    as (_ & es & Hl & Hes).
  simpl in *. rewrite Hl, main_events_app, (main_events_others es), app_nil_r; [done|].
  eapply Forall_impl; [exact Hes|]. simpl. by intros ae ->.
Qed.

Lemma for_each_thread_run_main (threads : list Thread) (w : World) :
  actor w = MainThread →
  ∃ w',
    for_each threads (thread_run env self) w = (Ok tt, w')
    ∧ actor w' = MainThread
    ∧ main_events (log w') = main_events (log w).
Proof.
  revert w. induction threads as [|t threads IH]; intros w Hmain; [by exists w|].
  cbn [for_each]. rewrite bind_run.
  destruct (thread_run_main t w Hmain) as (w1 & -> & Ha & Hl).
  destruct (IH _ Ha) as (w2 & -> & IH2 & IH3). exists w2.
  split; [done|]. split; [exact IH2|]. by rewrite IH3.
Qed.

Lemma start_loop (bastion_used : bool) (set : list Thread) (w : World) :
  ∃ w',
    for_each set (λ thread,
      thread_start thread;;
      if bastion_used then sleep 2 else mret tt) w
    = (Ok tt, w')
    ∧ actor w' = actor w
    ∧ log w' = log w ++ (pair (actor w) <$> start_events bastion_used set)
    ∧ queues w' = queues w.
Proof.
  revert w. induction set as [|t set IH]; intros w.
  - exists w. repeat split; try done. by rewrite app_nil_r.
  - cbn [for_each]. unfold thread_start, sleep. munfold.
    destruct bastion_used; simpl.
    + edestruct IH as (w' & -> & Ha & Hl & Hq). exists w'.
      split; [done|]. rewrite Ha, Hl, Hq. simpl. repeat split; try done.
      by rewrite <- !app_assoc.
    + edestruct IH as (w' & -> & Ha & Hl & Hq). exists w'.
      split; [done|]. rewrite Ha, Hl, Hq. simpl. repeat split; try done.
      by rewrite <- !app_assoc.
Qed.

Lemma join_loop (set : list Thread) (w : World) :
  ∃ w',
    for_each set thread_join w = (Ok tt, w')
    ∧ actor w' = actor w
    ∧ log w' = log w ++ (pair (actor w) <$> (EJoin <$> set))
    ∧ queues w' = queues w.
Proof.
  revert w. induction set as [|t set IH]; intros w.
  - exists w. repeat split; try done. by rewrite app_nil_r.
  - cbn [for_each]. unfold thread_join. munfold.
    edestruct IH as (w' & -> & Ha & Hl & Hq). exists w'.
    split; [done|]. rewrite Ha, Hl, Hq. simpl. repeat split; try done.
    by rewrite <- !app_assoc.
Qed.

Lemma run_thread_set_main (bastion_used : bool) (set : list Thread) (w : World) :
  actor w = MainThread →
  ∃ w',
    run_thread_set env self bastion_used set w = (Ok tt, w')
    ∧ actor w' = MainThread
    ∧ main_events (log w') = main_events (log w) ++ wave_events bastion_used set.
Proof.
  intros Hmain. unfold run_thread_set. rewrite bind_run.
  destruct (start_loop bastion_used set w) as (w1 & -> & Ha1 & Hl1 & _).
  rewrite bind_run.
  rewrite Hmain in Ha1, Hl1.
  destruct (for_each_thread_run_main (schedule env set) w1 Ha1) as (w2 & -> & Ha2 & Hl2).
  destruct (join_loop set w2) as (w3 & -> & Ha3 & Hl3 & _).
  rewrite Ha2 in Ha3, Hl3. exists w3. split; [done|]. split; [done|].
  rewrite Hl3, main_events_app, main_events_own, Hl2, Hl1.
  rewrite main_events_app, main_events_own. unfold wave_events. by rewrite app_assoc.
Qed.

Lemma run_thread_sets_main (bastion_used : bool) (sets : list (list Thread)) (w : World) :
  actor w = MainThread →
  ∃ w',
    for_each sets (run_thread_set env self bastion_used) w = (Ok tt, w')
    ∧ actor w' = MainThread
    ∧ main_events (log w') = main_events (log w) ++ sets ≫= wave_events bastion_used.
Proof.
  revert w. induction sets as [|set sets IH]; intros w Hmain.
  - exists w. repeat split; try done. by rewrite app_nil_r.
  - cbn [for_each]. rewrite bind_run.
    destruct (run_thread_set_main bastion_used set w Hmain) as (w1 & -> & Ha1 & Hl1).
    destruct (IH w1 Ha1) as (w2 & -> & Ha2 & Hl2). exists w2.
    split; [done|]. split; [done|]. rewrite Hl2, Hl1. by rewrite <- app_assoc.
Qed.

Lemma process_thread_errors_log (action : string) (errors : nat) (w : World) :
  log (_process_thread_errors env action errors w).2 = log w.
Proof.
  unfold _process_thread_errors. munfold. by destruct (queue_of errors w).
Qed.

Lemma process_thread_errors_empty (action : string) (errors : nat) (w : World) :
  queue_of errors w = [] → _process_thread_errors env action errors w = (Ok tt, w).
Proof. intros Hq. unfold _process_thread_errors. munfold. by rewrite Hq. Qed.

End Waves.

Definition no_join_head (evs : list Event) : Prop :=
  match evs with
  | EJoin _ :: _ => False
  | _ => True
  end.

Lemma join_phases_starts (bastion_used : bool) (set : list Thread) (rest : list Event) :
  join_phases (start_events bastion_used set ++ rest) = join_phases rest.
Proof.
  unfold start_events. induction set as [|t set IH]; [done|].
  rewrite bind_cons. destruct bastion_used; simpl; exact IH.
Qed.

Lemma join_phases_joins (set : list Thread) (rest : list Event) :
  set ≠ [] → no_join_head rest →
  join_phases ((EJoin <$> set) ++ rest) = S (join_phases rest).
Proof.
  intros Hset Hrest. induction set as [|t set IH]; [done|].
  destruct set as [|t' set].
  - simpl. by destruct rest as [|[] rest].
  - rewrite fmap_cons. change (join_phases ((EJoin <$> t' :: set) ++ rest)
                               = S (join_phases rest)). by apply IH.
Qed.

Lemma no_join_head_waves (bastion_used : bool) (sets : list (list Thread)) :
  Forall (λ set, set ≠ []) sets → no_join_head (sets ≫= wave_events bastion_used).
Proof.
  intros Hsets. destruct Hsets as [|set sets Hset _]; [done|].
  rewrite bind_cons. destruct set as [|t set]; [done|]. done.
Qed.

Lemma join_phases_waves (bastion_used : bool) (sets : list (list Thread)) :
  Forall (λ set, set ≠ []) sets →
  join_phases (sets ≫= wave_events bastion_used) = length sets.
Proof.
  induction 1 as [|set sets Hset Hsets IH]; [done|].
  rewrite bind_cons. unfold wave_events at 1. rewrite <- app_assoc.
  rewrite join_phases_starts, join_phases_joins, IH; [done..|].
  by apply no_join_head_waves.
Qed.

Lemma elem_of_concat {A} (x : A) (ls : list (list A)) :
  x ∈ concat ls ↔ ∃ l, l ∈ ls ∧ x ∈ l.
Proof.
  rewrite list_elem_of_In, in_concat. split.
  - intros (l & Hl & Hx). exists l. by rewrite !list_elem_of_In.
  - intros (l & Hl & Hx). exists l. by rewrite <- !list_elem_of_In.
Qed.

Lemma start_in_wave (bastion_used : bool) (set : list Thread) (b : Thread) :
  EStart b ∈ wave_events bastion_used set → b ∈ set.
Proof.
  unfold wave_events, start_events. rewrite elem_of_app. intros [Hin|Hin].
  - apply list_elem_of_bind in Hin as (t & Hin & Ht).
    apply elem_of_cons in Hin as [[= ->]|Hin]; [done|].
    destruct bastion_used; [|by apply elem_of_nil in Hin].
    apply elem_of_cons in Hin as [[=]|Hin]. by apply elem_of_nil in Hin.
  - apply list_elem_of_fmap in Hin as (t & [=] & _).
Qed.

Lemma start_in_waves (bastion_used : bool) (sets : list (list Thread)) (b : Thread) :
  EStart b ∈ sets ≫= wave_events bastion_used → b ∈ concat sets.
Proof.
  intros Hin. apply list_elem_of_bind in Hin as (set & Hin & Hset).
  apply start_in_wave in Hin. apply elem_of_concat. eauto.
Qed.

Lemma join_in_wave (bastion_used : bool) (set : list Thread) (a : Thread) :
  a ∈ set → EJoin a ∈ wave_events bastion_used set.
Proof. intros Ha. unfold wave_events. apply elem_of_app. right. by apply list_elem_of_fmap_2. Qed.

(** No thread of a set is started before the threads of the set before it
    are joined. *)
Lemma wave_order (bastion_used : bool) (waves : list (list Thread)) (k : nat)
    (wave next : list Thread) (a b : Thread) (pre post : list Event) :
  NoDup (concat waves) →
  waves !! k = Some wave → waves !! S k = Some next → a ∈ wave → b ∈ next →
  waves ≫= wave_events bastion_used = pre ++ EStart b :: post →
  EJoin a ∈ pre.
Proof.
  intros Hnodup Hk HSk Ha Hb Hsplit.
  assert (waves = take k waves ++ wave :: next :: drop (S (S k)) waves) as Hwaves.
  { rewrite <- (take_drop_middle waves k wave Hk) at 1. do 2 f_equal.
    apply drop_S in HSk. exact HSk. }
  rewrite Hwaves in Hsplit, Hnodup. clear Hwaves Hk HSk.
  set (ws1 := take k waves) in *. set (ws2 := drop (S (S k)) waves) in *.
  rewrite bind_app, bind_cons, app_assoc in Hsplit.
  rewrite concat_app, concat_cons, concat_cons in Hnodup.
  apply NoDup_app in Hnodup as (_ & Hdisj1 & Hnodup).
  apply NoDup_app in Hnodup as (_ & Hdisj2 & _).
  symmetry in Hsplit. apply app_eq_app in Hsplit as [l [[Hpre _]|[HA Hl]]].
  - rewrite Hpre. apply elem_of_app. left. apply elem_of_app. right.
    by apply join_in_wave.
  - destruct l as [|e l].
    + rewrite app_nil_r in HA. rewrite <- HA. apply elem_of_app. right.
      by apply join_in_wave.
    + injection Hl as <- _. exfalso.
      assert (EStart b ∈ (ws1 ≫= wave_events bastion_used)
                         ++ wave_events bastion_used wave) as Hin.
      { rewrite HA. apply elem_of_app. right. left. }
      apply elem_of_app in Hin as [Hin|Hin].
      * apply start_in_waves in Hin. apply (Hdisj1 b Hin).
        apply elem_of_app. right. apply elem_of_app. by left.
      * apply start_in_wave in Hin. apply (Hdisj2 b Hin).
        apply elem_of_app. by left.
Qed.

Section WaitOnHostOperations.

Variable env : Env.
Variable self : BaseBackend.

(** C1. For a maximum of at least one, [_wait_on_host_operations], called
    by the coordinating thread, cuts the list of threads into consecutive
    waves, none empty and none longer than the maximum, that make up the
    list in its order; what the coordinating thread does is, wave after
    wave, to start every thread of the wave and then to join every thread of
    the wave, so that it joins as many times as there are waves; when the
    threads are distinct, no thread of a wave is started before every
    thread of the wave before it is joined; with no thread and no error
    waiting in the queue the call changes nothing and returns; and five
    threads with a maximum of two make the waves of two, two and one
    threads, with three rounds of joins. *)
Theorem wait_on_host_operations_waves (action : string) (thread_list : list Thread)
    (bastion_used : bool) (errors : option nat) (w : World) :
  let size := MAX_SIMULTANEOUS_OUTBOUND_CONNECTIONS (_pnda_env self) in
  let res := _wait_on_host_operations env self action thread_list bastion_used errors w in
  1 ≤ size → actor w = MainThread →
  ∃ waves,
    thread_sets_of thread_list size = Ok waves
    ∧ concat waves = thread_list
    ∧ Forall (λ wave, (0 < length wave ≤ Z.to_nat size)%nat) waves
    ∧ main_events (log res.2)
      = main_events (log w) ++ (waves ≫= wave_events bastion_used)
    ∧ join_phases (waves ≫= wave_events bastion_used) = length waves
    ∧ (NoDup thread_list →
       ∀ k wave next a b pre post,
         waves !! k = Some wave → waves !! S k = Some next → a ∈ wave → b ∈ next →
         waves ≫= wave_events bastion_used = pre ++ EStart b :: post →
         EJoin a ∈ pre)
    ∧ (thread_list = [] → (∀ q, errors = Some q → queue_of q w = []) →
       res = (Ok tt, w))
    ∧ (∀ t1 t2 t3 t4 t5, thread_list = [t1; t2; t3; t4; t5] → size = 2 →
       waves = [[t1; t2]; [t3; t4]; [t5]]
       ∧ join_phases (waves ≫= wave_events bastion_used) = 3%nat).
Proof.
  intros size res Hsize Hmain.
  destruct (thread_sets_of_pos thread_list size Hsize) as (waves & Hsets & Hconcat & Hlen).
  exists waves.
  assert (Forall (λ set : list Thread, set ≠ []) waves) as Hne.
  { eapply Forall_impl; [exact Hlen|]. intros set [Hpos _] ->. simpl in Hpos. lia. }
  pose proof (join_phases_waves bastion_used waves Hne) as Hphases.
  destruct (run_thread_sets_main env self bastion_used waves w Hmain)
    as (w1 & Hrun & Ha1 & Hl1).
  assert (res = match errors with
                | Some q => _process_thread_errors env action q w1
                | None => (Ok tt, w1)
                end) as Hres.
  { subst res. unfold _wait_on_host_operations. rewrite bind_run.
    fold size. unfold lift_result. rewrite Hsets. rewrite bind_run, Hrun.
    by destruct errors. }
  split; [exact Hsets|]. split; [exact Hconcat|]. split; [exact Hlen|].
  split; [|split; [exact Hphases|split; [|split]]].
  - rewrite Hres. destruct errors; [|exact Hl1].
    by rewrite process_thread_errors_log.
  - intros Hnodup. rewrite <- Hconcat in Hnodup. intros k wave next a b pre post.
    by apply wave_order.
  - intros -> Hq.
    assert (waves = []) as ->.
    { destruct waves as [|set waves]; [done|].
      apply Forall_cons in Hne as [Hset _]. simpl in Hconcat.
      by apply app_eq_nil in Hconcat as [-> _]. }
    injection Hrun as <-. rewrite Hres. destruct errors as [q|]; [|done].
    apply process_thread_errors_empty. by apply Hq.
  - intros t1 t2 t3 t4 t5 -> Hsize2. rewrite Hsize2 in Hsets.
    injection Hsets as <-. split; [reflexivity|]. by rewrite Hphases.
Qed.

End WaitOnHostOperations.

(** ** The bootstrap status check *)

(** Nothing but the clock, the log, the queues, the thread counter and the
    running thread changes. *)
Definition keeps_store : relation World := λ w w',
  heap w' = heap w ∧ fs w' = fs w ∧ RUNFILE w' = RUNFILE w
  ∧ _cached_instance_map w' = _cached_instance_map w ∧ fill_calls w' = fill_calls w.

Global Instance keeps_store_preorder : PreOrder keeps_store.
Proof.
  split; [done|].
  intros w1 w2 w3 (H1 & H2 & H3 & H4 & H5) (H1' & H2' & H3' & H4' & H5').
  unfold keeps_store. by rewrite H1', H2', H3', H4', H5'.
Qed.

Global Instance keeps_store_admits : Admits (λ _, True) keeps_store.
Proof. split; [apply _|done..]. Qed.

Global Instance keeps_store_threads : AdmitsThreads keeps_store.
Proof. by split. Qed.

(** The actions of the threads, in the order in which they were taken. *)
Definition worker_events (l : list (Actor * Event)) : list (Actor * Event) :=
  filter (λ ae, ae.1 ≠ MainThread) l.

Lemma worker_events_app (l1 l2 : list (Actor * Event)) :
  worker_events (l1 ++ l2) = worker_events l1 ++ worker_events l2.
Proof. apply filter_app. Qed.

Lemma worker_events_main (es : list Event) :
  worker_events (pair MainThread <$> es) = [].
Proof.
  unfold worker_events. induction es as [|e es IH]; [done|].
  rewrite fmap_cons, filter_cons_False; [done|]. simpl. by intros H.
Qed.

(** The key that a status thread was made for. *)
Definition target_key (tg : Target) : string :=
  match tg with
  | target_do_check host_key _ _ _ => host_key
  | _ => ""
  end.
Definition check_key (t : Thread) : string := target_key (target t).

(** The probe of a status thread and its return value, as logged. *)
Definition probe_event (p : Thread * Z) : Actor * Event :=
  match target p.1 with
  | target_do_check _ host cluster _ =>
      (Worker (tid p.1),
       ECall (ssh_parts ["ls ~/.bootstrap_complete"] cluster host) host p.2)
  | _ => (Worker (tid p.1), ESleep 0)
  end.

(** The keys of the probes that returned zero. *)
Definition ok_keys (probes : list (Thread * Z)) : list string :=
  check_key <$> (filter (λ p, p.2 = 0) probes).*1.

Lemma ok_keys_app (p1 p2 : list (Thread * Z)) :
  ok_keys (p1 ++ p2) = ok_keys p1 ++ ok_keys p2.
Proof. unfold ok_keys. by rewrite filter_app, !fmap_app. Qed.

Lemma worker_events_probes (probes : list (Thread * Z)) :
  worker_events (probe_event <$> probes) = probe_event <$> probes.
Proof.
  unfold worker_events. induction probes as [|p probes IH]; [done|].
  rewrite fmap_cons, filter_cons_True, IH; [done|].
  unfold probe_event. by destruct (target p.1).
Qed.

(** All flags of the keys given set, as the loop at the end of
    [_check_hosts_bootstrapped] does. *)
Definition mark_all (keys : list string) (m : gmap string Instance) : gmap string Instance :=
  foldl (λ m k, alter (set_bootstrapped true) k m) m keys.

Lemma mark_all_lookup (keys : list string) (m : gmap string Instance) (k : string) :
  mark_all keys m !! k
  = if bool_decide (k ∈ keys) then set_bootstrapped true <$> m !! k else m !! k.
Proof.
  unfold mark_all. revert m. induction keys as [|k' keys IH]; intros m; [done|].
  simpl. rewrite IH. destruct (decide (k = k')) as [->|Hne].
  - rewrite lookup_alter_eq. rewrite (bool_decide_eq_true_2 (k' ∈ k' :: keys)) by left.
    case_bool_decide; [|done]. by destruct (m !! k').
  - rewrite lookup_alter_ne by done.
    case_bool_decide as Hin; case_bool_decide as Hin'; try done.
    + destruct Hin'. by right.
    + apply elem_of_cons in Hin' as [?|?]; done.
Qed.

Lemma mark_all_dom (keys : list string) (m : gmap string Instance) :
  dom (mark_all keys m) = dom m.
Proof.
  unfold mark_all. revert m. induction keys as [|k keys IH]; intros m; [done|].
  simpl. by rewrite IH, dom_alter_L.
Qed.

Lemma schedule_sets (schedule : list Thread → list Thread) (sets : list (list Thread)) :
  (∀ l, schedule l ≡ₚ l) → sets ≫= schedule ≡ₚ concat sets.
Proof.
  intros Hs. induction sets as [|set sets IH]; [done|].
  rewrite bind_cons. simpl. by rewrite Hs, IH.
Qed.

Lemma NoDup_fmap_eq {A B} (f : A → B) (l : list A) (x y : A) :
  NoDup (f <$> l) → x ∈ l → y ∈ l → f x = f y → x = y.
Proof.
  induction l as [|z l IH]; [by intros _ ?%elem_of_nil|].
  rewrite fmap_cons, NoDup_cons. intros [Hz Hl] Hx Hy Hf.
  apply elem_of_cons in Hx as [->|Hx]; apply elem_of_cons in Hy as [->|Hy]; try done.
  - destruct Hz. rewrite Hf. by apply list_elem_of_fmap_2.
  - destruct Hz. rewrite <- Hf. by apply list_elem_of_fmap_2.
  - by apply IH.
Qed.

Definition is_check (cluster : string) (q : nat) (t : Thread) : Prop :=
  ∃ host_key host, target t = target_do_check host_key host cluster q.

Lemma alter_append_nil (q : nat) (qs : list (list string)) :
  alter (λ items, items ++ []) q qs = qs.
Proof. apply list_alter_id. intros. apply app_nil_r. Qed.

Lemma alter_append_twice (q : nat) (ks1 ks2 : list string) (qs : list (list string)) :
  alter (λ items, items ++ ks2) q (alter (λ items, items ++ ks1) q qs)
  = alter (λ items, items ++ (ks1 ++ ks2)) q qs.
Proof.
  rewrite list_alter_twice. apply list_alter_ext; [|done].
  intros. by rewrite app_assoc.
Qed.

Section StatusCheck.

Variable env : Env.
Variable self : BaseBackend.

Lemma ok_keys_single (t : Thread) (r : Z) :
  ok_keys [(t, r)] = if decide (r = 0) then [check_key t] else [].
Proof.
  unfold ok_keys. destruct (decide (r = 0)) as [Hr|Hr].
  - by rewrite filter_cons_True.
  - by rewrite filter_cons_False.
Qed.

Lemma thread_run_do_check (t : Thread) (cluster : string) (q : nat) (w : World) :
  is_check cluster q t →
  ∃ r w',
    thread_run env self t w = (Ok tt, w')
    ∧ actor w' = actor w
    ∧ log w' = log w ++ [probe_event (t, r)]
    ∧ queues w' = alter (λ items, items ++ ok_keys [(t, r)]) q (queues w).
Proof.
  intros (host_key & host & Ht). unfold thread_run.
  assert (∃ r w1,
            run_target env self (target t) (set_actor (Worker (tid t)) w) = (Ok tt, w1)
            ∧ actor w1 = Worker (tid t)
            ∧ log w1 = log w ++ [probe_event (t, r)]
            ∧ queues w1 = alter (λ items, items ++ ok_keys [(t, r)]) q (queues w))
    as (r & w1 & -> & Ha & Hl & Hq).
  { destruct (subprocess_to_log_call env (now w)
                (ssh_parts ["ls ~/.bootstrap_complete"] cluster host) host
                ["lost connection"; "\s*Failed:\s*[1-9].*"]) as [r ms] eqn:Hcall.
    exists r. rewrite ok_keys_single. unfold probe_event, check_key. rewrite Ht.
    cbn [fst snd run_target]. unfold do_check, try_except, ssh, call. munfold.
    cbn [now actor set_actor]. rewrite Hcall.
    destruct (decide (r = 0)) as [->|Hr].
    - eexists. split; [reflexivity|]. by rewrite Ht.
    - rewrite bool_decide_eq_true_2 by done. eexists. split; [reflexivity|].
      rewrite Ht. simpl. by rewrite alter_append_nil. }
  exists r. eexists. split; [reflexivity|]. done.
Qed.

Lemma for_each_do_check (threads : list Thread) (cluster : string) (q : nat) (w : World) :
  Forall (is_check cluster q) threads →
  ∃ probes w',
    for_each threads (thread_run env self) w = (Ok tt, w')
    ∧ probes.*1 = threads
    ∧ actor w' = actor w
    ∧ log w' = log w ++ (probe_event <$> probes)
    ∧ queues w' = alter (λ items, items ++ ok_keys probes) q (queues w).
Proof.
  intros Hts. revert w. induction Hts as [|t threads Ht _ IH]; intros w.
  - exists [], w. rewrite app_nil_r. simpl. by rewrite alter_append_nil.
  - cbn [for_each]. rewrite bind_run.
    destruct (thread_run_do_check t cluster q w Ht) as (r & w1 & -> & Ha1 & Hl1 & Hq1).
    destruct (IH w1) as (probes & w2 & -> & Hp & Ha2 & Hl2 & Hq2).
    exists ((t, r) :: probes), w2. split; [done|]. split; [by rewrite fmap_cons, Hp|].
    split; [congruence|]. split.
    + rewrite Hl2, Hl1, fmap_cons. by rewrite <- app_assoc.
    + rewrite Hq2, Hq1, alter_append_twice. by rewrite <- ok_keys_app.
Qed.

Lemma run_thread_set_do_check (bastion_used : bool) (set : list Thread)
    (cluster : string) (q : nat) (w : World) :
  actor w = MainThread → Forall (is_check cluster q) (schedule env set) →
  ∃ probes w',
    run_thread_set env self bastion_used set w = (Ok tt, w')
    ∧ probes.*1 = schedule env set
    ∧ actor w' = MainThread
    ∧ worker_events (log w') = worker_events (log w) ++ (probe_event <$> probes)
    ∧ queues w' = alter (λ items, items ++ ok_keys probes) q (queues w).
Proof.
  intros Hmain Hts. unfold run_thread_set. rewrite bind_run.
  destruct (start_loop bastion_used set w) as (w1 & -> & Ha1 & Hl1 & Hq1).
  rewrite bind_run.
  destruct (for_each_do_check (schedule env set) cluster q w1 Hts)
    as (probes & w2 & -> & Hp & Ha2 & Hl2 & Hq2).
  destruct (join_loop set w2) as (w3 & -> & Ha3 & Hl3 & Hq3).
  exists probes, w3. split; [done|]. split; [done|]. split; [congruence|]. split.
  - rewrite Hl3, Hl2, Hl1. rewrite Ha2, Ha1, Hmain.
    rewrite !worker_events_app, !worker_events_main, !app_nil_r.
    by rewrite worker_events_probes.
  - by rewrite Hq3, Hq2, Hq1.
Qed.

Lemma run_thread_sets_do_check (bastion_used : bool) (sets : list (list Thread))
    (cluster : string) (q : nat) (w : World) :
  actor w = MainThread → (∀ l, schedule env l ≡ₚ l) →
  Forall (Forall (is_check cluster q)) sets →
  ∃ probes w',
    for_each sets (run_thread_set env self bastion_used) w = (Ok tt, w')
    ∧ probes.*1 ≡ₚ concat sets
    ∧ actor w' = MainThread
    ∧ worker_events (log w') = worker_events (log w) ++ (probe_event <$> probes)
    ∧ queues w' = alter (λ items, items ++ ok_keys probes) q (queues w).
Proof.
  intros Hmain Hsched Hsets. revert w Hmain.
  induction Hsets as [|set sets Hset _ IH]; intros w Hmain.
  - exists [], w. rewrite app_nil_r. simpl. by rewrite alter_append_nil.
  - cbn [for_each]. rewrite bind_run.
    destruct (run_thread_set_do_check bastion_used set cluster q w Hmain)
      as (p1 & w1 & -> & Hp1 & Ha1 & Hl1 & Hq1).
    { by rewrite Hsched. }
    destruct (IH w1 Ha1) as (p2 & w2 & -> & Hp2 & Ha2 & Hl2 & Hq2).
    exists (p1 ++ p2), w2. split; [done|]. split; [|split; [done|split]].
    + rewrite fmap_app, Hp1, Hp2, Hsched. done.
    + rewrite Hl2, Hl1, fmap_app. by rewrite <- app_assoc.
    + rewrite Hq2, Hq1, alter_append_twice. by rewrite <- ok_keys_app.
Qed.

(** The loop that makes one thread for every element of a list. *)
Lemma make_threads {A} (l : list A) (mk : A → Target) (body : A → M (list Thread))
    (w : World) :
  (∀ x w, body x w = (Ok [{| tid := next_tid w; target := mk x |}], set_next_tid S w)) →
  ∃ threads,
    for_append l body w = (Ok threads, set_next_tid (λ n, n + length l)%nat w)
    ∧ target <$> threads = mk <$> l
    ∧ tid <$> threads = seq (next_tid w) (length l).
Proof.
  intros Hbody. revert w. induction l as [|x l IH]; intros w.
  - exists []. split; [|done]. simpl. unfold mret, M_ret, ret. f_equal.
    destruct w; unfold set_next_tid; simpl. f_equal. lia.
  - rewrite for_append_cons, Hbody.
    destruct (IH (set_next_tid S w)) as (threads & -> & Htargets & Htids).
    eexists (_ :: threads). split; [|split].
    + simpl. f_equal. destruct w; unfold set_next_tid; simpl. f_equal. lia.
    + by rewrite !fmap_cons, Htargets.
    + rewrite fmap_cons, Htids. reflexivity.
Qed.

(** The loop that sets the flags of the hosts found. *)
Lemma mark_found (instances q : nat) (found : list string) (w : World) :
  (instances < length (heap w))%nat →
  (∀ k, k ∈ found → k ∈ dom (instance_map_of instances w)) →
  ∃ w',
    for_each found (λ host_key, get q;; mark_bootstrapped instances host_key) w
    = (Ok tt, w')
    ∧ log w' = log w
    ∧ heap w' = alter (mark_all found) instances (heap w).
Proof.
  revert w. induction found as [|k found IH]; intros w Hvalid Hdom.
  - exists w. split; [done|]. split; [done|]. symmetry. by apply list_alter_id.
  - cbn [for_each]. rewrite bind_run. unfold get at 1, mark_bootstrapped at 1.
    unfold deref, getitem. munfold. cbn [fst snd].
    assert (k ∈ dom (instance_map_of instances w)) as Hk by (apply Hdom; left).
    apply elem_of_dom in Hk as [i Hi].
    change (instance_map_of instances (set_queues (alter (drop 1) q) w))
      with (instance_map_of instances w).
    rewrite Hi. cbn [ret].
    set (w1 := set_heap _ (set_queues _ w)).
    destruct (IH w1) as (w2 & -> & Hl & Hh).
    { subst w1. simpl. by rewrite length_alter. }
    { intros k' Hk'. subst w1. unfold instance_map_of. simpl.
      rewrite list_lookup_alter_eq.
      pose proof (Hdom k' ltac:(by right)) as Hin. unfold instance_map_of in Hin.
      destruct (heap w !! instances) as [m|]; simpl in *; [|done].
      by rewrite dom_alter_L. }
    exists w2. split; [done|]. split; [by rewrite Hl|].
    rewrite Hh. subst w1. simpl. rewrite list_alter_twice. done.
Qed.

Lemma check_hosts_bootstrapped_run (instances : nat) (cluster : string)
    (bastion_used : bool) (w : World) :
  let m := instance_map_of instances w in
  let q := length (queues w) in
  1 ≤ MAX_SIMULTANEOUS_OUTBOUND_CONNECTIONS (_pnda_env self) →
  actor w = MainThread → (∀ l, schedule env l ≡ₚ l) →
  (instances < length (heap w))%nat →
  ∃ (probes : list (Thread * Z)) (w' : World),
    _check_hosts_bootstrapped env self instances cluster bastion_used w = (Ok tt, w')
    ∧ target <$> probes.*1
      ≡ₚ (λ e, target_do_check e.1 (private_ip_address e.2) cluster q) <$> map_to_list m
    ∧ NoDup ((check_key ∘ fst) <$> probes)
    ∧ worker_events (log w') = worker_events (log w) ++ (probe_event <$> probes)
    ∧ heap w' = alter (mark_all (ok_keys probes)) instances (heap w).
Proof.
  intros m q Hsize Hmain Hsched Hvalid.
  set (mk := λ e : string * Instance,
               target_do_check e.1 (private_ip_address e.2) cluster q).
  unfold _check_hosts_bootstrapped. rewrite bind_run. unfold Queue at 1. fold q.
  set (w0 := set_queues (λ qs, qs ++ [[]]) w).
  rewrite bind_run. unfold deref at 1.
  change (instance_map_of instances w0) with m. rewrite bind_run.
  destruct (make_threads (map_to_list m) mk
              (λ '(key, instance),
                 thread ← Thread_new (target_do_check key (private_ip_address instance)
                                        cluster q);
                 mret [thread]) w0) as (threads & -> & Htargets & Htids).
  { by intros [key instance] w'. }
  set (w1 := set_next_tid _ w0).
  rewrite bind_run. unfold _wait_on_host_operations. rewrite bind_run.
  destruct (thread_sets_of_pos threads _ Hsize) as (sets & Hsets & Hconcat & _).
  unfold lift_result. rewrite Hsets. rewrite bind_run.
  assert (Forall (Forall (is_check cluster q)) sets) as Hchecks.
  { apply Forall_forall. intros set Hset. apply Forall_forall. intros t Ht.
    assert (t ∈ threads) as Hin by (rewrite <- Hconcat; apply elem_of_concat; eauto).
    apply (list_elem_of_fmap_2 target) in Hin. rewrite Htargets in Hin.
    apply list_elem_of_fmap in Hin as ([key instance] & Heq & _).
    by exists key, (private_ip_address instance). }
  pose proof (always_for_each (R:=keeps_store) sets (run_thread_set env self bastion_used)
                (λ set _, always_run_thread_set env self (Q:=λ _, True)
                            ltac:(done) ltac:(done) bastion_used set ltac:(done)) w1)
    as (Hheap & _).
  destruct (run_thread_sets_do_check bastion_used sets cluster q w1 Hmain Hsched Hchecks)
    as (probes & w2 & Hrun & Hperm & Ha2 & Hl2 & Hq2).
  rewrite Hrun in Hheap |- *. cbn [snd] in Hheap.
  change ((mret tt : M unit) w2) with (Ok tt, w2). cbv beta iota.
  rewrite bind_run. unfold queue_items at 1.
  assert (queue_of q w2 = ok_keys probes) as ->.
  { unfold queue_of. rewrite Hq2. subst w1 w0 q. simpl.
    rewrite list_lookup_alter_eq, list_lookup_middle by done. done. }
  rewrite Hconcat in Hperm.
  assert (check_key <$> probes.*1 ≡ₚ (map_to_list m).*1) as Hkeys.
  { unfold check_key. rewrite (list_fmap_compose target target_key).
    rewrite Hperm, Htargets, <- list_fmap_compose.
    assert ((target_key ∘ mk) <$> map_to_list m = (map_to_list m).*1) as ->; [|done].
    apply list_fmap_ext. by intros _ [key instance] _. }
  assert (NoDup ((check_key ∘ fst) <$> probes)) as Hnodup.
  { rewrite list_fmap_compose, Hkeys. apply NoDup_fst_map_to_list. }
  assert (∀ k, k ∈ ok_keys probes → k ∈ dom m) as Hfound.
  { intros k Hk. assert (k ∈ check_key <$> probes.*1) as Hin.
    { unfold ok_keys in Hk. apply list_elem_of_fmap in Hk as (t & -> & Ht).
      apply list_elem_of_fmap_2. apply list_elem_of_fmap in Ht as (p & -> & Hp).
      apply list_elem_of_fmap_2. by apply list_elem_of_filter in Hp as [_ Hp]. }
    rewrite Hkeys in Hin. apply list_elem_of_fmap in Hin as ([k' i] & -> & Hki).
    apply elem_of_map_to_list in Hki. apply elem_of_dom. by exists i. }
  destruct (mark_found instances q (ok_keys probes) w2) as (w3 & -> & Hl3 & Hh3).
  { by rewrite Hheap. }
  { intros k Hk. unfold instance_map_of. rewrite Hheap. by apply Hfound. }
  exists probes, w3. split; [done|].
  split; [rewrite Hperm, Htargets; reflexivity|]. split; [done|].
  split; [by rewrite Hl3|]. by rewrite Hh3, Hheap.
Qed.

(** C8. When the coordinating thread calls [_check_hosts_bootstrapped] on
    an instance map, with a maximum of at least one and a scheduler that
    runs every thread of a set once, the call returns without raising,
    whatever the probes return. Every host of the map is probed once, by a
    thread of its own; the flag of a host is set to true when its probe
    returned zero, and the instance is left as it was when its probe
    returned anything else. The keys of the map and the other
    dictionaries do not change. *)
Theorem check_hosts_bootstrapped_flags (instances : nat) (cluster : string)
    (bastion_used : bool) (w : World) :
  let m := instance_map_of instances w in
  let q := length (queues w) in
  let res := _check_hosts_bootstrapped env self instances cluster bastion_used w in
  1 ≤ MAX_SIMULTANEOUS_OUTBOUND_CONNECTIONS (_pnda_env self) →
  actor w = MainThread → (∀ l, schedule env l ≡ₚ l) →
  (instances < length (heap w))%nat →
  ∃ probes : list (Thread * Z),
    res.1 = Ok tt
    ∧ target <$> probes.*1
      ≡ₚ (λ e, target_do_check e.1 (private_ip_address e.2) cluster q) <$> map_to_list m
    ∧ worker_events (log res.2) = worker_events (log w) ++ (probe_event <$> probes)
    ∧ (∀ k i, m !! k = Some i →
         ∃ t r, (t, r) ∈ probes
           ∧ target t = target_do_check k (private_ip_address i) cluster q
           ∧ instance_map_of instances res.2 !! k
             = Some (if decide (r = 0) then set_bootstrapped true i else i))
    ∧ dom (instance_map_of instances res.2) = dom m
    ∧ ∀ r, r ≠ instances → instance_map_of r res.2 = instance_map_of r w.
Proof.
  intros m q res Hsize Hmain Hsched Hvalid. subst res.
  destruct (check_hosts_bootstrapped_run instances cluster bastion_used w
              Hsize Hmain Hsched Hvalid) as (probes & w3 & -> & Hperm & Hnodup & Hl3 & Hh3).
  fold m q in Hperm.
  assert (instance_map_of instances w3 = mark_all (ok_keys probes) m) as Hm3.
  { unfold instance_map_of. rewrite Hh3, list_lookup_alter_eq.
    subst m. unfold instance_map_of.
    destruct (heap w !! instances) as [m0|] eqn:Hm0; [reflexivity|].
    apply lookup_ge_None in Hm0. lia. }
  exists probes. cbn [fst snd]. split; [done|]. split; [exact Hperm|].
  split; [exact Hl3|]. split; [|split].
  - intros k i Hki. rewrite Hm3.
    assert (target_do_check k (private_ip_address i) cluster q ∈ target <$> probes.*1)
      as Hin.
    { rewrite Hperm.
      apply (list_elem_of_fmap_2' _ _ (k, i)); [by apply elem_of_map_to_list|done]. }
    apply list_elem_of_fmap in Hin as (t & Ht & Hin).
    apply list_elem_of_fmap in Hin as ([t' r] & -> & Hp). simpl in Ht.
    exists t', r. split; [done|]. split; [done|].
    rewrite mark_all_lookup, Hki. simpl.
    assert (check_key t' = k) as Hkey by (unfold check_key; by rewrite <- Ht).
    destruct (decide (r = 0)) as [->|Hr].
    + rewrite bool_decide_eq_true_2; [done|]. unfold ok_keys.
      rewrite <- Hkey. apply list_elem_of_fmap_2.
      apply (list_elem_of_fmap_2' fst _ (t', 0)); [|done].
      by apply list_elem_of_filter.
    + rewrite bool_decide_eq_false_2; [done|]. intros Hok. unfold ok_keys in Hok.
      apply list_elem_of_fmap in Hok as (t2 & Hk2 & Hok).
      apply list_elem_of_fmap in Hok as ([t3 r3] & -> & Hok).
      apply list_elem_of_filter in Hok as [Hr3 Hok]. simpl in *.
      assert ((t', r) = (t3, r3)) as Heq.
      { eapply (NoDup_fmap_eq (check_key ∘ fst)); [exact Hnodup|done..|].
        simpl. congruence. }
      congruence.
  - by rewrite Hm3, mark_all_dom.
  - intros r Hr. unfold instance_map_of. rewrite Hh3.
    by rewrite list_lookup_alter_ne.
Qed.

End StatusCheck.

(** ** Waiting for connectivity *)

(** What one round of polling a host looks like: probes that fail, with a
    pause of two seconds after each, up to a last probe, which either
    reaches the host or is the one after which the loop gives up. *)
Inductive polled (probe : Z → Event) : list Event → bool → Prop :=
| polled_reached : polled probe [probe 0] true
| polled_gave_up (r : Z) : r ≠ 0 → polled probe [probe r] false
| polled_retry (r : Z) (rest : list Event) (reached : bool) :
    r ≠ 0 → polled probe rest reached →
    polled probe (probe r :: ESleep 2 :: rest) reached.

(** The failure that [do_wait] records for a host. *)
Definition giving_up (host : string) : string :=
  "Giving up waiting for connectivity to " +:+ host.

(** The probe of [do_wait], as logged with its return value. *)
Definition connectivity_probe (cluster host : string) (r : Z) : Event :=
  ECall (ssh_parts ["ls ~"] cluster host) host r.

Lemma set_queues_append_nil (q : nat) (w : World) :
  set_queues (alter (λ items, items ++ []) q) w = w.
Proof.
  destruct w. unfold set_queues. cbn [queues now actor log next_tid fs RUNFILE heap
                                      _cached_instance_map fill_calls].
  f_equal. apply alter_append_nil.
Qed.

Section Connectivity.

Variable env : Env.
Variable self : BaseBackend.

Lemma ssh_run (cmds : list string) (cluster host : string) (w : World) :
  ∃ (r : Z) (ms : nat),
    subprocess_to_log_call env (now w) (ssh_parts cmds cluster host) host
      ["lost connection"; "\s*Failed:\s*[1-9].*"] = (r, ms)
    ∧ ssh env cmds cluster host w
      = (if decide (r = 0) then Ok tt
         else Raise (Exception ("Error running ssh commands on host " +:+ host +:+
                                ". See debug log (" +:+ LOG_FILE_NAME env +:+
                                ") for details.")),
         set_now (λ t, t + Z.of_nat ms)
           (set_log (λ l, l ++ [(actor w, ECall (ssh_parts cmds cluster host) host r)]) w)).
Proof.
  unfold ssh, call. munfold.
  destruct (subprocess_to_log_call env (now w) _ host _) as [r ms].
  exists r, ms. split; [done|]. destruct (decide (r = 0)) as [->|Hr]; [done|].
  by rewrite bool_decide_eq_true_2.
Qed.

Lemma do_wait_loop_eq (host cluster : string) (wait_errors : nat) (time_start : Z)
    (w : World) :
  do_wait_loop env host cluster wait_errors time_start w
  = match ssh env ["ls ~"] cluster host w with
    | (Ok _, w1) => (Ok tt, w1)
    | (Raise _, w1) =>
        if now w1 - time_start >? 10 * 60 * 1000
        then put wait_errors (giving_up host) w1
        else do_wait_loop env host cluster wait_errors time_start (sleep 2 w1).2
    end.
Proof.
  funelim (do_wait_loop env host cluster wait_errors time_start w);
    match goal with He : ssh _ _ _ _ _ = _ |- _ => rewrite He end;
    try match goal with He : (_ >? _) = _ |- _ => rewrite He end;
    reflexivity.
Qed.

(** The world after a round of polling that started in [w]: the actions
    [tr] are logged, the clock shows [t'] and the messages [msgs] are in the
    queue; nothing else has changed. *)
Definition polled_world (q : nat) (tr : list Event) (msgs : list string) (t' : Z)
    (w : World) : World :=
  set_queues (alter (λ items, items ++ msgs) q)
    (set_now (λ _, t') (set_log (λ l, l ++ (pair (actor w) <$> tr)) w)).

(** The loop of [do_wait] ends. What it does depends on the clock at its
    start and on nothing else in the world: on other queues or on what
    other threads have recorded it does not depend. *)
Lemma do_wait_loop_run (host cluster : string) (q : nat) (time_start t : Z) :
  ∃ (tr : list Event) (reached : bool) (t' : Z),
    polled (connectivity_probe cluster host) tr reached
    ∧ (reached = false → t' - time_start > 10 * 60 * 1000)
    ∧ t ≤ t'
    ∧ ∀ w, now w = t →
        do_wait_loop env host cluster q time_start w
        = (Ok tt, polled_world q tr (if reached then [] else [giving_up host]) t' w).
Proof.
  remember (Z.to_nat (10 * 60 * 1000 + 1 + time_start - t)) as n eqn:Hn.
  revert t Hn. induction n as [n IH] using lt_wf_ind. intros t ->.
  destruct (subprocess_to_log_call env t (ssh_parts ["ls ~"] cluster host) host
              ["lost connection"; "\s*Failed:\s*[1-9].*"]) as [r ms] eqn:Hcall.
  destruct (decide (r = 0)) as [->|Hr].
  - exists [connectivity_probe cluster host 0], true, (t + Z.of_nat ms).
    split; [constructor|]. split; [done|]. split; [lia|].
    intros w Hw. rewrite do_wait_loop_eq.
    destruct (ssh_run ["ls ~"] cluster host w) as (r' & ms' & Hcall' & ->).
    rewrite Hw, Hcall in Hcall'. injection Hcall' as <- <-. simpl.
    f_equal. unfold polled_world. rewrite set_queues_append_nil.
    destruct w; simpl in *; by subst.
  - destruct (Z.gtb_spec (t + Z.of_nat ms - time_start) (10 * 60 * 1000)) as [Hlate|Hearly].
    + exists [connectivity_probe cluster host r], false, (t + Z.of_nat ms).
      split; [by constructor|]. split; [lia|]. split; [lia|].
      intros w Hw. rewrite do_wait_loop_eq.
      destruct (ssh_run ["ls ~"] cluster host w) as (r' & ms' & Hcall' & ->).
      rewrite Hw, Hcall in Hcall'. injection Hcall' as <- <-.
      destruct (decide (r = 0)); [done|]. cbn [now set_now set_log].
      rewrite Hw. destruct (Z.gtb_spec (t + Z.of_nat ms - time_start) (10 * 60 * 1000));
        [|lia].
      unfold put, modify, polled_world. f_equal.
      destruct w; simpl in *; by subst.
    + destruct (IH (Z.to_nat (10 * 60 * 1000 + 1 + time_start
                               - (t + Z.of_nat ms + 1000 * 2))) ltac:(lia)
                  (t + Z.of_nat ms + 1000 * 2) eq_refl)
        as (tr & reached & t' & Htr & Hlate & Hle & Hrun).
      exists (connectivity_probe cluster host r :: ESleep 2 :: tr), reached, t'.
      split; [by constructor|]. split; [done|]. split; [lia|].
      intros w Hw. rewrite do_wait_loop_eq.
      destruct (ssh_run ["ls ~"] cluster host w) as (r' & ms' & Hcall' & ->).
      rewrite Hw, Hcall in Hcall'. injection Hcall' as <- <-.
      destruct (decide (r = 0)); [done|]. cbn [now set_now set_log].
      rewrite Hw. destruct (Z.gtb_spec (t + Z.of_nat ms - time_start) (10 * 60 * 1000));
        [lia|].
      rewrite Hrun by (simpl; lia). f_equal. unfold polled_world.
      destruct w; unfold set_queues, set_now, set_log; simpl in *; subst.
      f_equal. by rewrite <- !app_assoc.
Qed.

End Connectivity.

Lemma filter_all {A} (P : A → Prop) `{∀ x, Decision (P x)} (l : list A) :
  Forall P l → filter P l = l.
Proof.
  induction 1 as [|x l Hx _ IH]; [done|]. by rewrite filter_cons_True, IH.
Qed.

(** ** Threads that report through a queue

    The threads of a class [P] each end with some outcome: they log the
    actions [evs] under their own name and append the messages [msgs] to
    the queue [q], and change nothing else but the clock. Then so do thread
    sets and lists of thread sets, in the order in which the threads run. *)

Section Outcomes.

Variable env : Env.
Variable self : BaseBackend.
Context {O : Type}.
Variable P : Thread → Prop.
Variable Good : Thread → O → Prop.
Variable evs : Thread * O → list Event.
Variable msgs : Thread * O → list string.
Variable q : nat.

Definition outcome_events (p : Thread * O) : list (Actor * Event) :=
  pair (Worker (tid p.1)) <$> evs p.

Hypothesis thread_outcome : ∀ t w, P t →
  ∃ o w',
    thread_run env self t w = (Ok tt, w')
    ∧ Good t o
    ∧ actor w' = actor w
    ∧ log w' = log w ++ outcome_events (t, o)
    ∧ queues w' = alter (λ items, items ++ msgs (t, o)) q (queues w).

Lemma worker_events_outcomes (outs : list (Thread * O)) :
  worker_events (outs ≫= outcome_events) = outs ≫= outcome_events.
Proof.
  unfold worker_events. apply filter_all. apply Forall_bind.
  apply Forall_forall. intros p _. unfold outcome_events. simpl.
  apply Forall_fmap, Forall_forall. by intros e _.
Qed.

Lemma for_each_outcomes (threads : list Thread) (w : World) :
  Forall P threads →
  ∃ outs w',
    for_each threads (thread_run env self) w = (Ok tt, w')
    ∧ outs.*1 = threads
    ∧ Forall (λ p, Good p.1 p.2) outs
    ∧ actor w' = actor w
    ∧ log w' = log w ++ (outs ≫= outcome_events)
    ∧ queues w' = alter (λ items, items ++ (outs ≫= msgs)) q (queues w).
Proof.
  intros Hts. revert w. induction Hts as [|t threads Ht _ IH]; intros w.
  - exists [], w. rewrite app_nil_r. simpl. by rewrite alter_append_nil.
  - cbn [for_each]. rewrite bind_run.
    destruct (thread_outcome t w Ht) as (o & w1 & -> & Hgood & Ha1 & Hl1 & Hq1).
    destruct (IH w1) as (outs & w2 & -> & Hp & Hgoods & Ha2 & Hl2 & Hq2).
    exists ((t, o) :: outs), w2. split; [done|]. split; [by rewrite fmap_cons, Hp|].
    split; [by constructor|]. split; [congruence|]. split.
    + rewrite Hl2, Hl1, bind_cons. by rewrite <- app_assoc.
    + rewrite Hq2, Hq1, alter_append_twice. by rewrite bind_cons.
Qed.

Lemma run_thread_set_outcomes (bastion_used : bool) (set : list Thread) (w : World) :
  actor w = MainThread → Forall P (schedule env set) →
  ∃ outs w',
    run_thread_set env self bastion_used set w = (Ok tt, w')
    ∧ outs.*1 = schedule env set
    ∧ Forall (λ p, Good p.1 p.2) outs
    ∧ actor w' = MainThread
    ∧ worker_events (log w') = worker_events (log w) ++ (outs ≫= outcome_events)
    ∧ queues w' = alter (λ items, items ++ (outs ≫= msgs)) q (queues w).
Proof.
  intros Hmain Hts. unfold run_thread_set. rewrite bind_run.
  destruct (start_loop bastion_used set w) as (w1 & -> & Ha1 & Hl1 & Hq1).
  rewrite bind_run.
  destruct (for_each_outcomes (schedule env set) w1 Hts)
    as (outs & w2 & -> & Hp & Hgoods & Ha2 & Hl2 & Hq2).
  destruct (join_loop set w2) as (w3 & -> & Ha3 & Hl3 & Hq3).
  exists outs, w3. split; [done|]. split; [done|]. split; [done|].
  split; [congruence|]. split.
  - rewrite Hl3, Hl2, Hl1. rewrite Ha2, Ha1, Hmain.
    rewrite !worker_events_app, !worker_events_main, !app_nil_r.
    by rewrite worker_events_outcomes.
  - by rewrite Hq3, Hq2, Hq1.
Qed.

Lemma run_thread_sets_outcomes (bastion_used : bool) (sets : list (list Thread))
    (w : World) :
  actor w = MainThread → (∀ l, schedule env l ≡ₚ l) → Forall (Forall P) sets →
  ∃ outs w',
    for_each sets (run_thread_set env self bastion_used) w = (Ok tt, w')
    ∧ outs.*1 ≡ₚ concat sets
    ∧ Forall (λ p, Good p.1 p.2) outs
    ∧ actor w' = MainThread
    ∧ worker_events (log w') = worker_events (log w) ++ (outs ≫= outcome_events)
    ∧ queues w' = alter (λ items, items ++ (outs ≫= msgs)) q (queues w).
Proof.
  intros Hmain Hsched Hsets. revert w Hmain.
  induction Hsets as [|set sets Hset _ IH]; intros w Hmain.
  - exists [], w. rewrite app_nil_r. simpl. by rewrite alter_append_nil.
  - cbn [for_each]. rewrite bind_run.
    destruct (run_thread_set_outcomes bastion_used set w Hmain)
      as (o1 & w1 & -> & Hp1 & Hg1 & Ha1 & Hl1 & Hq1).
    { by rewrite Hsched. }
    destruct (IH w1 Ha1) as (o2 & w2 & -> & Hp2 & Hg2 & Ha2 & Hl2 & Hq2).
    exists (o1 ++ o2), w2. split; [done|]. split; [|split; [|split; [done|split]]].
    + rewrite fmap_app, Hp1, Hp2, Hsched. done.
    + by apply Forall_app.
    + rewrite Hl2, Hl1, bind_app. by rewrite <- app_assoc.
    + rewrite Hq2, Hq1, alter_append_twice. by rewrite bind_app.
Qed.

End Outcomes.

(** The host that a connectivity thread was made for. *)
Definition wait_host (t : Thread) : string :=
  match target t with
  | target_do_wait host _ _ => host
  | _ => ""
  end.

Definition is_wait (cluster : string) (q : nat) (t : Thread) : Prop :=
  ∃ host, target t = target_do_wait host cluster q.

(** The outcome of a connectivity thread: what it did and whether it
    reached its host. *)
Definition poll_events (p : Thread * (list Event * bool)) : list Event := p.2.1.
Definition poll_failures (p : Thread * (list Event * bool)) : list string :=
  if p.2.2 then [] else [giving_up (wait_host p.1)].
Definition poll_ok (cluster : string) (t : Thread) (o : list Event * bool) : Prop :=
  polled (connectivity_probe cluster (wait_host t)) o.1 o.2.

Section ConnectivityThreads.

Variable env : Env.
Variable self : BaseBackend.

Lemma do_wait_run (host cluster : string) (q : nat) (t : Z) :
  ∃ (tr : list Event) (reached : bool) (t' : Z),
    polled (connectivity_probe cluster host) tr reached
    ∧ (reached = false → t' - t > 10 * 60 * 1000)
    ∧ ∀ w, now w = t →
        do_wait env host cluster q w
        = (Ok tt, polled_world q tr (if reached then [] else [giving_up host]) t' w).
Proof.
  destruct (do_wait_loop_run env host cluster q t t)
    as (tr & reached & t' & Hpolled & Hlate & _ & Hrun).
  exists tr, reached, t'. split; [done|]. split; [done|].
  intros w Hw. unfold do_wait. rewrite bind_run. unfold MILLI_TIME. rewrite Hw.
  by apply Hrun.
Qed.

Lemma thread_run_do_wait (cluster : string) (q : nat) (t : Thread) (w : World) :
  is_wait cluster q t →
  ∃ o w',
    thread_run env self t w = (Ok tt, w')
    ∧ poll_ok cluster t o
    ∧ actor w' = actor w
    ∧ log w' = log w ++ outcome_events poll_events (t, o)
    ∧ queues w' = alter (λ items, items ++ poll_failures (t, o)) q (queues w).
Proof.
  intros [host Ht]. unfold thread_run, poll_ok, outcome_events, poll_events,
    poll_failures, wait_host.
  rewrite Ht. cbn [run_target fst snd].
  destruct (do_wait_run host cluster q (now w)) as (tr & reached & t' & Hpolled & _ & Hrun).
  rewrite (Hrun (set_actor (Worker (tid t)) w)) by done.
  exists (tr, reached). eexists. split; [reflexivity|]. rewrite Ht.
  unfold polled_world. by destruct w.
Qed.

Lemma wait_for_host_connectivity_run (hosts : list string) (cluster : string)
    (bastion_used : bool) (w : World) :
  let q := length (queues w) in
  1 ≤ MAX_SIMULTANEOUS_OUTBOUND_CONNECTIONS (_pnda_env self) →
  actor w = MainThread → (∀ l, schedule env l ≡ₚ l) →
  ∃ (threads : list Thread) (waves : list (list Thread))
    (outs : list (Thread * (list Event * bool))) (w' : World),
    target <$> threads = (λ host, target_do_wait host cluster q) <$> hosts
    ∧ thread_sets_of threads (MAX_SIMULTANEOUS_OUTBOUND_CONNECTIONS (_pnda_env self))
      = Ok waves
    ∧ outs.*1 ≡ₚ threads
    ∧ Forall (λ p, poll_ok cluster p.1 p.2) outs
    ∧ main_events (log w') = main_events (log w) ++ (waves ≫= wave_events bastion_used)
    ∧ worker_events (log w')
      = worker_events (log w) ++ (outs ≫= outcome_events poll_events)
    ∧ queue_of q w' = outs ≫= poll_failures
    ∧ _wait_for_host_connectivity env self hosts cluster bastion_used w
      = _process_thread_errors env "waiting for host connectivity" q w'.
Proof.
  intros q Hsize Hmain Hsched.
  unfold _wait_for_host_connectivity. rewrite bind_run. unfold Queue at 1. fold q.
  set (w0 := set_queues (λ qs, qs ++ [[]]) w). rewrite bind_run.
  destruct (make_threads hosts (λ host, target_do_wait host cluster q)
              (λ host, thread ← Thread_new (target_do_wait host cluster q);
                       mret [thread]) w0) as (threads & -> & Htargets & Htids).
  { done. }
  set (w1 := set_next_tid _ w0).
  unfold _wait_on_host_operations. rewrite bind_run.
  destruct (thread_sets_of_pos threads _ Hsize) as (sets & Hsets & Hconcat & _).
  unfold lift_result. rewrite Hsets. rewrite bind_run.
  assert (Forall (Forall (is_wait cluster q)) sets) as Hwaits.
  { apply Forall_forall. intros set Hset. apply Forall_forall. intros t Ht.
    assert (t ∈ threads) as Hin by (rewrite <- Hconcat; apply elem_of_concat; eauto).
    apply (list_elem_of_fmap_2 target) in Hin. rewrite Htargets in Hin.
    apply list_elem_of_fmap in Hin as (host & Heq & _). by exists host. }
  destruct (run_thread_sets_outcomes env self (is_wait cluster q) (poll_ok cluster)
              poll_events poll_failures q (thread_run_do_wait cluster q)
              bastion_used sets w1 Hmain Hsched Hwaits)
    as (outs & w2 & Hrun & Hperm & Hgood & Ha2 & Hl2 & Hq2).
  destruct (run_thread_sets_main env self bastion_used sets w1 Hmain)
    as (w2' & Hrun' & _ & Hmain2).
  rewrite Hrun in Hrun'. injection Hrun' as <-. rewrite Hrun.
  exists threads, sets, outs, w2. split; [done|]. split; [done|].
  split; [by rewrite Hperm, Hconcat|]. split; [done|]. split; [done|].
  split; [done|]. split; [|done].
  unfold queue_of. rewrite Hq2. subst w1 w0 q. simpl.
  rewrite list_lookup_alter_eq, list_lookup_middle by done. done.
Qed.

End ConnectivityThreads.

Section WaitForHostConnectivity.

Variable env : Env.
Variable self : BaseBackend.

(** C3 (amended): the polling loop of a host ends at its first probe that
    succeeds and records nothing then; when no probe succeeds it records
    exactly one failure for its host, once more than ten minutes have gone by
    since its first attempt, and it sleeps two seconds between two attempts.
    What a loop does depends on the clock at its start only, not on the
    failures of other hosts. Every thread has been joined when the failures
    are looked at; the exception that is raised then carries the failure
    that was recorded first, the other failures stay behind in the queue. *)
Theorem wait_for_host_connectivity_polls (hosts : list string) (cluster : string)
    (bastion_used : bool) (w : World) :
  let q := length (queues w) in
  let res := _wait_for_host_connectivity env self hosts cluster bastion_used w in
  1 ≤ MAX_SIMULTANEOUS_OUTBOUND_CONNECTIONS (_pnda_env self) →
  actor w = MainThread → (∀ l, schedule env l ≡ₚ l) →
  (∀ (host : string) (t : Z),
      ∃ (tr : list Event) (reached : bool) (t' : Z),
        polled (connectivity_probe cluster host) tr reached
        ∧ (reached = false → t' - t > 10 * 60 * 1000)
        ∧ ∀ w0, now w0 = t →
            do_wait env host cluster q w0
            = (Ok tt, polled_world q tr (if reached then [] else [giving_up host]) t' w0))
  ∧ ∃ (threads : list Thread) (waves : list (list Thread))
      (outs : list (Thread * (list Event * bool))),
      target <$> threads = (λ host, target_do_wait host cluster q) <$> hosts
      ∧ thread_sets_of threads (MAX_SIMULTANEOUS_OUTBOUND_CONNECTIONS (_pnda_env self))
        = Ok waves
      ∧ outs.*1 ≡ₚ threads
      ∧ Forall (λ p, poll_ok cluster p.1 p.2) outs
      ∧ main_events (log res.2)
        = main_events (log w) ++ (waves ≫= wave_events bastion_used)
      ∧ worker_events (log res.2)
        = worker_events (log w) ++ (outs ≫= outcome_events poll_events)
      ∧ match outs ≫= poll_failures with
        | [] => res.1 = Ok tt ∧ queue_of q res.2 = []
        | failure :: rest =>
            res.1 = Raise (Exception ("Error waiting for host connectivity, error msg: "
                                      +:+ failure +:+ ". See debug log ("
                                      +:+ LOG_FILE_NAME env +:+ ") for details."))
            ∧ queue_of q res.2 = rest
        end.
Proof.
  intros q res Hsize Hmain Hsched. split.
  { intros host t. apply do_wait_run. }
  destruct (wait_for_host_connectivity_run env self hosts cluster bastion_used w
              Hsize Hmain Hsched)
    as (threads & waves & outs & w' & Htargets & Hwaves & Hperm & Hgood & Hm & Hw & Hq & Hres).
  fold q in Htargets, Hq, Hres. exists threads, waves, outs.
  split; [done|]. split; [done|]. split; [done|]. split; [done|].
  subst res. rewrite Hres, process_thread_errors_log.
  split; [done|]. split; [done|].
  destruct (outs ≫= poll_failures) as [|failure rest] eqn:Hfailures.
  - by rewrite process_thread_errors_empty.
  - unfold _process_thread_errors. munfold. rewrite Hq. unfold get. munfold.
    split; [done|]. cbn [fst snd]. unfold queue_of in *. unfold set_queues. simpl.
    rewrite list_lookup_alter_eq.
    destruct (queues w' !! q) as [items|]; [|done]. simpl in *. by subst.
Qed.

End WaitForHostConnectivity.

(** ** The create flow *)

Definition is_bootstrap_thread (t : Thread) : Prop :=
  match target t with
  | target_do_wait _ _ _ | target_do_check _ _ _ _ => False
  | _ => True
  end.

(** What may be logged before the remaining hosts are bootstrapped: no
    thread is started for a bootstrap and nothing is exported. *)
Definition before_remaining (e : Event) : Prop :=
  match e with
  | EExport _ _ _ => False
  | EStart t | EJoin t => ¬ is_bootstrap_thread t
  | _ => True
  end.

(** The calls of the remote executor. *)
Definition is_call (e : Event) : Prop :=
  match e with
  | ECall _ _ _ => True
  | _ => False
  end.

(** The code hands control back to the thread that ran it and has logged
    actions in [Q] only. *)
Definition logs_only (Q : Event → Prop) : relation World := λ w w',
  actor w' = actor w ∧ ∃ es, log w' = log w ++ es ∧ Forall (λ ae, Q ae.2) es.

Global Instance logs_only_preorder (Q : Event → Prop) : PreOrder (logs_only Q).
Proof.
  split.
  - intros w. split; [done|]. exists []. by rewrite app_nil_r.
  - intros w1 w2 w3 (Ha & es & Hl & Hes) (Ha' & es' & Hl' & Hes').
    split; [congruence|]. exists (es ++ es'). split.
    + by rewrite Hl', Hl, app_assoc.
    + by apply Forall_app.
Qed.

Lemma logs_only_same_log (Q : Event → Prop) (w w' : World) :
  actor w' = actor w → log w' = log w → logs_only Q w w'.
Proof. intros Ha Hl. split; [done|]. exists []. by rewrite app_nil_r. Qed.

Global Instance logs_only_admits (Q : Event → Prop) : Admits Q (logs_only Q).
Proof.
  split; [apply _|..].
  - intros w d _. by apply logs_only_same_log.
  - intros w e He. split; [done|]. exists [(actor w, e)]. split; [done|].
    by constructor.
  - intros w f. by apply logs_only_same_log.
Qed.

Global Instance logs_only_threads (Q : Event → Prop) : AdmitsThreads (logs_only Q).
Proof.
  split.
  - intros w f. by apply logs_only_same_log.
  - intros w a w' (_ & es & Hl & Hes). split; [done|]. by exists es.
Qed.

Global Instance logs_only_all (Q : Event → Prop) : AdmitsAll (logs_only Q).
Proof. split; intros; by apply logs_only_same_log. Qed.

Lemma logs_only_weaken (Q Q' : Event → Prop) (w w' : World) :
  (∀ e, Q e → Q' e) → logs_only Q w w' → logs_only Q' w w'.
Proof.
  intros HQ (Ha & es & Hl & Hes). split; [done|]. exists es. split; [done|].
  eapply Forall_impl; [exact Hes|]. intros ae. apply HQ.
Qed.

Section AlwaysInCreate.

Variable env : Env.
Variable self : BaseBackend.
Context {Q : Event → Prop} {R : relation World}
  `{!Admits Q R, !AdmitsThreads R, !AdmitsAll R}.
Hypothesis Q_call : ∀ parts host ret_val, Q (ECall parts host ret_val).
Hypothesis Q_sleep : ∀ seconds, Q (ESleep seconds).
Hypothesis Q_fill : ∀ n, Q (EFill n).
Hypothesis Q_tar : ∀ archive path arcname, Q (ETar archive path arcname).
Hypothesis Q_wait : ∀ t host cluster wait_errors,
  target t = target_do_wait host cluster wait_errors → Q (EStart t) ∧ Q (EJoin t).

Lemma always_open (path mode : string) : always R (open path mode).
Proof.
  intros w. unfold open. destruct (String.eqb mode "w"); simpl.
  - apply adm_fs.
  - by destruct (fs w !! path).
Qed.

Lemma always_json_load (f : File) : always R (json_load f).
Proof. intros w. unfold json_load. by destruct (fs w !! f_path f) as [[]|]. Qed.

Lemma always_json_dump (d : gmap string Json) (f : File) : always R (json_dump d f).
Proof.
  unfold json_dump. destruct (String.eqb (f_mode f) "r"); [apply always_raise|].
  apply always_modify. intros w. apply adm_fs.
Qed.

Lemma always_to_runfile (pairs : gmap string Json) : always R (to_runfile pairs).
Proof.
  intros w. unfold to_runfile. destruct (RUNFILE w) as [path|]; [|done].
  revert w. apply always_bind; [apply (always_isfile (Q:=Q))|]. intros is_file.
  apply always_bind; [apply always_open|]. intros runfile.
  apply always_bind.
  { destruct (String.eqb _ "r"); [apply always_json_load|apply always_mret]. }
  intros jrf. apply always_json_dump.
Qed.

Lemma always_fill_instance_map : always R (fill_instance_map env).
Proof.
  intros w. unfold fill_instance_map. cbn [snd].
  etransitivity; [apply (adm_heap w (λ h, h ++ [fill_oracle env (fill_calls w)]))|].
  etransitivity; [apply (adm_fill_calls _ S)|].
  apply (adm_emit (set_fill_calls S (set_heap _ w)) (EFill (fill_calls w))), Q_fill.
Qed.

Lemma always_get_instance_map_unchecked : always R (get_instance_map env self false).
Proof.
  unfold get_instance_map. apply always_bind; [apply always_pure|]. intros w0.
  destruct (truthy_cache w0); [apply always_mret|].
  apply always_bind; [apply always_fill_instance_map|]. intros instance_map.
  apply always_bind; [apply always_mret|]. intros _.
  apply always_bind; [|intros _; apply always_mret].
  apply always_modify. intros w. apply adm_cached.
Qed.

Lemma always_getitem {V} (d : gmap string V) (k : string) : always R (getitem d k).
Proof. unfold getitem. destruct (d !! k); [apply always_ret|apply always_raise]. Qed.

Lemma always_write_ssh_config (cluster : string) (bastion_ip : option string)
    (os_user keyfile : string) :
  always R (_write_ssh_config cluster bastion_ip os_user keyfile).
Proof.
  unfold _write_ssh_config. apply always_bind; [apply always_open|]. intros _.
  case_bool_decide; [apply always_mret|].
  apply always_bind; [apply always_open|]. intros _. apply always_mret.
Qed.

Lemma always_nc_install (bastion_ip : string) : always R (nc_install env self bastion_ip).
Proof.
  unfold nc_install. apply always_bind; [apply (always_call env Q_call)|].
  intros r. case_bool_decide; [apply always_raise|apply always_mret].
Qed.

Lemma always_wait_for_bastion (bastion_ip : string) (time_start : Z) :
  always R (wait_for_bastion env self bastion_ip time_start).
Proof.
  intros w. funelim (wait_for_bastion env self bastion_ip time_start w).
  all: pose proof (always_nc_install bastion_ip w) as Hs.
  all: match goal with He : nc_install _ _ _ _ = _ |- _ => rewrite He in Hs end.
  all: simpl in Hs.
  - exact Hs.
  - exact Hs.
  - etransitivity; [exact Hs|].
    etransitivity; [apply (always_sleep Q_sleep 2); lia|].
    match goal with IH : R _ _ |- _ => exact IH end.
Qed.

Lemma always_tar_create (archive path arcname : string) :
  always R (tar_create env archive path arcname).
Proof.
  unfold tar_create. apply always_bind.
  { apply always_modify. intros w. apply adm_fs. }
  intros _. destruct (tar_readable env path); [|apply always_raise].
  apply always_emit, Q_tar.
Qed.

Lemma always_os_remove (path : string) : always R (os_remove path).
Proof. apply always_modify. intros w. apply adm_fs. Qed.

Lemma always_ship_certs (cluster saltmaster_ip : string) :
  always R (_ship_certs env self cluster saltmaster_ip).
Proof.
  unfold _ship_certs. apply always_bind; [apply always_pure|]. intros t.
  apply always_bind.
  { apply always_try_except.
    - apply always_bind; [apply always_tar_create|]. intros _. apply always_mret.
    - intros exception. destruct (String.eqb _ _); [apply always_mret|apply always_raise]. }
  intros [|]; [|apply always_mret].
  apply always_bind; [apply (always_scp env Q_call)|]. intros _.
  apply always_bind; [apply always_os_remove|]. intros _. apply always_mret.
Qed.

Lemma always_install_pnda_prepare : always R (_install_pnda_prepare env self).
Proof.
  unfold _install_pnda_prepare.
  apply always_bind; [apply always_to_runfile|]. intros _.
  apply always_bind; [apply always_get_instance_map_unchecked|]. intros instance_map.
  apply always_bind; [apply always_pure|]. intros m.
  apply always_bind.
  { case_bool_decide; [|apply always_mret].
    apply always_bind; [apply always_getitem|]. intros i. apply always_mret. }
  intros bastion_ip.
  apply always_bind; [apply always_write_ssh_config|]. intros _.
  apply always_bind; [apply always_getitem|]. intros console.
  apply always_bind.
  { destruct bastion_ip as [ip|]; [|apply always_mret].
    case_bool_decide; [apply always_mret|].
    apply always_bind; [apply always_pure|]. intros time_start.
    apply always_wait_for_bastion. }
  intros _.
  apply always_bind.
  { apply (always_wait_for_host_connectivity env self Q_call Q_sleep).
    intros t host wait_errors. apply Q_wait. }
  intros _.
  apply always_bind; [apply always_getitem|]. intros saltmaster.
  apply always_bind.
  { destruct (PLATFORM_SALT_LOCAL (_pnda_env self)) as [local_salt_path|];
      [|apply always_mret].
    apply always_bind; [apply always_pure|]. intros t.
    apply always_bind; [apply always_tar_create|]. intros _.
    apply always_bind; [apply (always_scp env Q_call)|]. intros _.
    apply always_bind; [apply always_os_remove|]. intros _. apply always_mret. }
  intros platform_salt_tarball.
  apply always_bind.
  { destruct (negb _); [apply always_ship_certs|apply always_mret]. }
  intros platform_certs_tarball. apply always_mret.
Qed.

End AlwaysInCreate.

(** The code hands control back to the thread that ran it, and what it has
    logged are calls of the remote executor made by that thread itself. *)
Definition logs_calls : relation World := λ w w',
  actor w' = actor w
  ∧ ∃ calls, log w' = log w ++ (pair (actor w) <$> calls) ∧ Forall is_call calls.

Global Instance logs_calls_preorder : PreOrder logs_calls.
Proof.
  split.
  - intros w. split; [done|]. exists []. by rewrite app_nil_r.
  - intros w1 w2 w3 (Ha & es & Hl & Hes) (Ha' & es' & Hl' & Hes').
    split; [congruence|]. exists (es ++ es'). split.
    + by rewrite Hl', Hl, Ha, fmap_app, app_assoc.
    + by apply Forall_app.
Qed.

Global Instance logs_calls_admits : Admits is_call logs_calls.
Proof.
  split; [apply _|..].
  - intros w d _. split; [done|]. exists []. by rewrite app_nil_r.
  - intros w e He. split; [done|]. exists [e]. split; [done|]. by constructor.
  - intros w f. split; [done|]. exists []. by rewrite app_nil_r.
Qed.

Lemma logs_calls_before_remaining (w w' : World) :
  logs_calls w w' → logs_only before_remaining w w'.
Proof.
  intros (Ha & calls & Hl & Hcalls). split; [done|].
  exists (pair (actor w) <$> calls). split; [done|].
  apply Forall_fmap. eapply Forall_impl; [exact Hcalls|]. by intros [].
Qed.

Lemma three_queues_run {A} (k : nat → nat → nat → M A) (w : World) :
  (errors ← Queue; files ← Queue; commands ← Queue; k errors files commands) w
  = k (length (queues w)) (S (length (queues w))) (S (S (length (queues w))))
      (set_queues (λ qs, qs ++ [[]; []; []]) w).
Proof.
  rewrite !bind_run. unfold Queue. rewrite !bind_run. cbn [queues set_queues].
  destruct w as [? ? ? qs ? ? ? ? ? ?]. unfold set_queues.
  cbn [queues now actor log next_tid fs RUNFILE heap _cached_instance_map fill_calls].
  rewrite !length_app. cbn [length]. rewrite <- !app_assoc. cbn [app].
  replace (length qs + 1)%nat with (S (length qs)) by lia.
  replace (S (length qs) + 1)%nat with (S (S (length qs))) by lia.
  reflexivity.
Qed.

Section InstallPnda.

Variable env : Env.
Variable self : BaseBackend.

Lemma bootstrap_returns (instance : Instance)
    (saltmaster cluster flavor branch : string)
    (salt_tarball certs_tarball : option string) (error_queue : nat)
    (bootstrap_files bootstrap_commands : option nat) (w : World) :
  (_bootstrap env self instance saltmaster cluster flavor branch
     salt_tarball certs_tarball error_queue bootstrap_files bootstrap_commands w).1
  = Ok tt.
Proof.
  unfold _bootstrap, try_except.
  destruct (_bootstrap_try _ _ _ _ _ _ _ _ _ _ _ w) as [[[]|e] w1]; reflexivity.
Qed.

Lemma install_pnda_prepare_logs (w : World) :
  logs_only before_remaining w (_install_pnda_prepare env self w).2.
Proof.
  apply (always_install_pnda_prepare env self (Q:=before_remaining)); try done.
  intros t host cluster wait_errors Ht. unfold before_remaining, is_bootstrap_thread.
  rewrite Ht. tauto.
Qed.

(** C2. When [_install_pnda] comes to the bootstrap of the saltmaster, no
    thread has been started for a bootstrap and nothing has been exported.
    The saltmaster is bootstrapped by the coordinating thread itself, which
    logs the calls of the remote executor and nothing else, so no thread is
    started while it runs. Its error queue is looked at next. If an error was
    recorded there, [_install_pnda] raises with that error and the log ends
    with the bootstrap of the saltmaster: no thread was started for another
    host and nothing was exported. Only with an empty queue does the rest of
    the function run, which starts the threads of the other hosts and
    exports the resources. *)
Theorem install_pnda_coordinator_first (w : World) (p : Prepared) (w1 : World) :
  _install_pnda_prepare env self w = (Ok p, w1) →
  let errors := length (queues w1) in
  let files := S errors in
  let commands := S (S errors) in
  let coordinator :=
    _bootstrap env self (p_saltmaster p) (private_ip_address (p_saltmaster p))
      (_cluster self) (_flavor self) (_branch self)
      (p_salt_tarball p) (p_certs_tarball p) errors (Some files) (Some commands)
      (set_queues (λ qs, qs ++ [[]; []; []]) w1) in
  let res := _install_pnda env self w in
  logs_only before_remaining w w1
  ∧ coordinator.1 = Ok tt
  ∧ logs_calls w1 coordinator.2
  ∧ match queue_of errors coordinator.2 with
    | [] => res = _install_pnda_remaining env self p errors files commands coordinator.2
    | error_message :: _ =>
        res.1 = Raise (Exception ("Error bootstrapping saltmaster, error msg: "
                                  +:+ error_message +:+ ". See debug log ("
                                  +:+ LOG_FILE_NAME env +:+ ") for details."))
        ∧ log res.2 = log coordinator.2
        ∧ logs_only before_remaining w res.2
    end.
Proof.
  intros Hprep errors files commands coordinator res.
  assert (logs_only before_remaining w w1) as Hbefore.
  { pose proof (install_pnda_prepare_logs w) as H. by rewrite Hprep in H. }
  assert (logs_calls w1 coordinator.2) as Hcalls.
  { transitivity (set_queues (λ qs, qs ++ [[]; []; []]) w1).
    - apply (adm_queues (Q:=is_call)).
    - apply (always_bootstrap env self (Q:=is_call) (R:=logs_calls)). done. }
  split; [done|]. split; [apply bootstrap_returns|]. split; [done|].
  apply logs_calls_before_remaining in Hcalls.
  subst res. unfold _install_pnda. rewrite bind_run, Hprep.
  unfold _install_pnda_bootstrap. cbv zeta. rewrite three_queues_run, bind_run.
  subst coordinator commands files errors.
  set (c := _bootstrap _ _ _ _ _ _ _ _ _ _ _ _ _) in *.
  pose proof (bootstrap_returns (p_saltmaster p) (private_ip_address (p_saltmaster p))
                (_cluster self) (_flavor self) (_branch self)
                (p_salt_tarball p) (p_certs_tarball p) (length (queues w1))
                (Some (S (length (queues w1)))) (Some (S (S (length (queues w1)))))
                (set_queues (λ qs, qs ++ [[]; []; []]) w1)) as Hok.
  fold c in Hok. destruct c as [r wc]. simpl in Hok. subst r.
  rewrite bind_run. cbn [snd].
  destruct (queue_of (length (queues w1)) wc) as [|error_message rest] eqn:Hq.
  - by rewrite process_thread_errors_empty.
  - unfold _process_thread_errors. munfold. rewrite Hq. unfold get. munfold.
    split; [done|]. split; [done|]. etransitivity; [exact Hbefore|].
    etransitivity; [exact Hcalls|]. by apply logs_only_same_log.
Qed.

End InstallPnda.

(** * Examples *)

Lemma prefix_app (sub post : string) : String.prefix sub (sub +:+ post) = true.
Proof.
  induction sub as [|a sub IH]; [by destruct post|].
  change (String a sub +:+ post) with (String a (sub +:+ post)).
  cbn [String.prefix]. by destruct (Ascii.ascii_dec a a).
Qed.

Lemma str_contains_containsb (sub s : string) :
  str_contains sub s → str_containsb sub s = true.
Proof.
  intros (pre & post & ->). induction pre as [|a pre IH].
  - change ("" +:+ sub +:+ post) with (sub +:+ post).
    destruct (sub +:+ post) eqn:Hs; cbn [str_containsb]; rewrite <- Hs, prefix_app; done.
  - change (String a pre +:+ sub +:+ post) with (String a (pre +:+ sub +:+ post)).
    cbn [str_containsb]. rewrite IH. apply orb_true_r.
Qed.

(** A cluster of a saltmaster, an edge node and a data node. The hosts
    10.0.0.3 and 10.0.0.4, which are not of the cluster, never answer and a
    call to one of them takes 700 seconds; every other call succeeds within
    a second. The threads of a set
    run to their ends in the order in which they were started. *)
Definition example_instance (key ip role : string) (flag : option bool) : Instance :=
  {| name := key; ip_address := ""; private_ip_address := ip; node_type := role;
     node_idx := "0"; bootstrapped := flag; is_saltmaster := false |}.

Definition example_instances : gmap string Instance :=
  <["c-saltmaster" := example_instance "c-saltmaster" "10.0.0.1" "saltmaster" None]>
    (<["c-edge" := example_instance "c-edge" "10.0.0.2" "edge" None]>
      (<["c-dn-0" := example_instance "c-dn-0" "10.0.0.5" "dn" None]> ∅)).

Definition example_env : Env := {|
  subprocess_to_log_call := λ t parts host scan,
    if bool_decide (host = "10.0.0.3" ∨ host = "10.0.0.4")
    then (1, Z.to_nat 700000) else (0, Z.to_nat 1000);
  format_exc := λ e, "Traceback (most recent call last)";
  fill_oracle := λ n, example_instances;
  schedule := λ l, l;
  uuid1 := λ t, "8a6e0804-2bd0-4672-b79d-d97027f9071a";
  abspath := λ p, "/opt/pnda-cli/" +:+ p;
  tar_readable := λ _, true;
  LOG_FILE_NAME := "logs/pnda-cli.log";
  sys_argv := ["pnda-cli.py"; "create"]
|}.

(** The same deployment before any instance exists. *)
Definition unprovisioned_env : Env := {|
  subprocess_to_log_call := subprocess_to_log_call example_env;
  format_exc := format_exc example_env;
  fill_oracle := λ n, ∅;
  schedule := schedule example_env;
  uuid1 := uuid1 example_env;
  abspath := abspath example_env;
  tar_readable := tar_readable example_env;
  LOG_FILE_NAME := LOG_FILE_NAME example_env;
  sys_argv := sys_argv example_env
|}.

Definition example_backend : BaseBackend := {|
  _pnda_env := {| MAX_SIMULTANEOUS_OUTBOUND_CONNECTIONS := 2; OS_USER := "ec2-user";
                  SECURITY_MODE := "disabled"; SECURITY_MATERIAL_PATH := "certs";
                  PLATFORM_SALT_LOCAL := None |};
  _cluster := "c"; _no_config_check := true; _flavor := "pico";
  _keyfile := "key.pem"; _branch := "master";
  _node_config := {| console_instance := "edge"; bastion_instance := "bastion";
                     salt_master_instance := "saltmaster" |}
|}.

Definition example_thread (n : nat) (host : string) : Thread :=
  {| tid := n; target := target_do_wait host "c" 0 |}.

Lemma example_schedule (l : list Thread) : schedule example_env l ≡ₚ l.
Proof. reflexivity. Defined.

Lemma wait_on_host_operations_waves_witness :
  let t1 := example_thread 1 "10.0.0.1" in
  let t2 := example_thread 2 "10.0.0.2" in
  let t3 := example_thread 3 "10.0.0.5" in
  let t4 := example_thread 4 "10.0.0.6" in
  let t5 := example_thread 5 "10.0.0.7" in
  1 ≤ MAX_SIMULTANEOUS_OUTBOUND_CONNECTIONS (_pnda_env example_backend)
  ∧ actor initial_world = MainThread
  ∧ ∃ waves,
      thread_sets_of [t1; t2; t3; t4; t5] 2 = Ok waves
      ∧ waves = [[t1; t2]; [t3; t4]; [t5]]
      ∧ join_phases (waves ≫= wave_events false) = 3%nat.
Proof.
  intros t1 t2 t3 t4 t5.
  assert (1 ≤ MAX_SIMULTANEOUS_OUTBOUND_CONNECTIONS (_pnda_env example_backend)) as Hsize
    by (simpl; lia).
  split; [exact Hsize|]. split; [reflexivity|].
  destruct (wait_on_host_operations_waves example_env example_backend
              "waiting for host connectivity" [t1; t2; t3; t4; t5] false None
              initial_world Hsize eq_refl)
    as (waves & Hsets & _ & _ & _ & _ & _ & _ & Hfive).
  exists waves. split; [exact Hsets|].
  exact (Hfive t1 t2 t3 t4 t5 eq_refl eq_refl).
Defined.

Lemma bootstrap_never_raises_witness :
  let bastion := example_instance "c-bastion" "10.0.0.9" "" None in
  node_type bastion = ""
  ∧ _bootstrap example_env example_backend bastion "10.0.0.1" "c" "pico" "master"
      None None 0 None None initial_world
    = (Ok tt, initial_world).
Proof.
  intros bastion. split; [reflexivity|].
  destruct (bootstrap_never_raises example_env example_backend bastion
              "10.0.0.1" "c" "pico" "master" None None 0%nat None None initial_world)
    as (Hok & _ & Hnoop).
  apply injective_projections; [exact Hok|exact (Hnoop eq_refl)].
Defined.

(** The volume configuration of the flavor: the saltmaster gets a log
    partition. *)
Definition example_volumes : Volumes :=
  {| partitions := Some ["/var/log/pnda xvdc 10"]; volumes := None |}.

Definition example_volume_config : VolumeConfig :=
  {| vc_instances := {["saltmaster" := "generic"]};
     vc_classes := {["generic" := Some example_volumes]} |}.

Definition example_world : World :=
  set_RUNFILE (Some "cli/logs/c.0.run")
    (set_fs (λ _, {["bootstrap-scripts/pico/volume-config.yaml"
                    := YamlVolumes example_volume_config]})
       initial_world).

Lemma bootstrap_command_order_witness :
  let instance := example_instance "c-saltmaster" "10.0.0.1" "saltmaster" None in
  let requested := Some example_volumes in
  let files_to_scp := staged_files example_backend "c" "pico" instance example_world in
  let cmds_to_run :=
    source_environment "c"
    ++ export_variables "10.0.0.1" "c" "pico" "master" None None
    ++ mark_scripts_executable
    ++ persist_volumes requested
    ++ [run_logged "base.sh"]
    ++ coordinator_extension example_backend instance
    ++ role_script instance
    ++ sentinel in
  node_type instance ≠ ""
  ∧ (_get_volume_info (node_type instance)
       ("bootstrap-scripts/" +:+ "pico" +:+ "/" +:+ "volume-config.yaml") example_world).1
    = Ok requested
  ∧ ∃ scp_ret ssh_ret : Z,
      log (_bootstrap example_env example_backend instance "10.0.0.1" "c" "pico" "master"
             None None 0 None None example_world).2
      = log example_world
        ++ (MainThread, ECall (scp_parts files_to_scp "c" "10.0.0.1") "10.0.0.1" scp_ret)
        :: (if bool_decide (scp_ret = 0)
            then [(MainThread,
                   ECall (ssh_parts cmds_to_run "c" "10.0.0.1") "10.0.0.1" ssh_ret)]
            else [])
      ∧ last cmds_to_run = Some "touch ~/.bootstrap_complete"
      ∧ (coordinator_extension example_backend instance ≠ []
         ↔ holds_coordinating_role example_backend instance = true).
Proof.
  intros instance requested files_to_scp cmds_to_run.
  assert (node_type instance ≠ "") as Hrole by (simpl; discriminate).
  assert ((_get_volume_info (node_type instance)
             ("bootstrap-scripts/" +:+ "pico" +:+ "/" +:+ "volume-config.yaml")
             example_world).1 = Ok requested) as Hvolumes by (vm_compute; reflexivity).
  split; [exact Hrole|]. split; [exact Hvolumes|].
  exact (bootstrap_command_order example_env example_backend instance
           "10.0.0.1" "c" "pico" "master" None None 0%nat None None requested
           example_world Hrole Hvolumes).
Defined.

(** Three hosts with a role, of which the first is bootstrapped. The third
    one does not answer. *)
Definition example_expansion : gmap string Instance :=
  <["c-h1" := example_instance "c-h1" "10.0.0.5" "dn" (Some true)]>
    (<["c-h2" := example_instance "c-h2" "10.0.0.6" "dn" (Some false)]>
      (<["c-h3" := example_instance "c-h3" "10.0.0.3" "dn" (Some false)]> ∅)).

Lemma expand_bootstraps_new_instances_only_witness :
  (∀ k i, example_expansion !! k = Some i → node_type i ≠ "" → bootstrapped i ≠ None)
  ∧ ∃ threads w',
      _expand_pnda_threads example_backend example_expansion "10.0.0.1" 0 initial_world
      = (Ok threads, w')
      ∧ target <$> threads
        = expand_invocation example_backend "10.0.0.1" 0
          <$> filter new_with_role (map_to_list example_expansion).*2
      ∧ (∀ i, expand_invocation example_backend "10.0.0.1" 0 i ∈ target <$> threads
              ↔ ∃ k, example_expansion !! k = Some i
                     ∧ node_type i ≠ "" ∧ bootstrapped i = Some false)
      ∧ NoDup (tid <$> threads).
Proof.
  assert (∀ k i, example_expansion !! k = Some i →
                 node_type i ≠ "" → bootstrapped i ≠ None) as Hflags.
  { intros k i Hk _. revert k i Hk.
    change (map_Forall (λ _ i, bootstrapped i ≠ None) example_expansion).
    apply (bool_decide_unpack _). vm_compute. exact I. }
  split; [exact Hflags|].
  exact (expand_bootstraps_new_instances_only example_backend example_expansion
           "10.0.0.1" 0%nat initial_world Hflags).
Defined.

Lemma get_instance_map_memoizes_witness :
  let first := get_instance_map example_env example_backend false initial_world in
  first = (Ok 0%nat, first.2)
  ∧ instance_map_of 0 first.2 ≠ ∅
  ∧ (∀ flags,
       call_sequence example_env example_backend flags first.2
       = (Ok (replicate (length flags) 0%nat), first.2))
  ∧ (∀ flag,
       let res := get_instance_map example_env example_backend flag
                    (clear_instance_map_cache first.2).2 in
       fill_calls res.2 = S (fill_calls first.2)
       ∧ ∀ r', res.1 = Ok r' → r' = length (heap first.2) ∧ r' ≠ 0%nat).
Proof.
  intros first.
  assert (first = (Ok 0%nat, first.2)) as Hfirst by (vm_compute; reflexivity).
  assert (instance_map_of 0 first.2 ≠ ∅) as Hfilled.
  { intros Hempty. apply (f_equal (λ m : gmap string Instance, size m)) in Hempty.
    vm_compute in Hempty. discriminate Hempty. }
  split; [exact Hfirst|]. split; [exact Hfilled|].
  exact (get_instance_map_memoizes example_env example_backend false initial_world
           first.2 0%nat Hfirst Hfilled).
Defined.

(** Without the condition on the dictionary the property of C7 fails: an
    empty dictionary is computed again by the next call, which returns
    another object. *)
Lemma get_instance_map_recomputes_empty_map :
  ¬ (∀ (env : Env) (self : BaseBackend) (check_bootstrapped : bool) (w w1 : World)
       (r : nat),
       get_instance_map env self check_bootstrapped w = (Ok r, w1) →
       ∀ flag, get_instance_map env self flag w1 = (Ok r, w1)).
Proof.
  intros Hmemo.
  set (first := get_instance_map unprovisioned_env example_backend false initial_world).
  assert (first = (Ok 0%nat, first.2)) as Hfirst by (vm_compute; reflexivity).
  pose proof (Hmemo unprovisioned_env example_backend false initial_world first.2 0%nat
                Hfirst false) as Hsecond.
  vm_compute in Hsecond. discriminate Hsecond.
Qed.

(** A world in which a dictionary with instances is cached. *)
Definition example_cached_world : World :=
  set_cached (Some 0%nat) (set_heap (λ _, [example_instances]) initial_world).

Lemma get_instance_map_cache_hit_ignores_flag_witness :
  (_cached_instance_map example_cached_world = Some 0%nat
   ∧ instance_map_of 0 example_cached_world ≠ ∅
   ∧ get_instance_map unprovisioned_env example_backend true example_cached_world
     = (Ok 0%nat, example_cached_world))
  ∧ ((∀ n, fill_oracle unprovisioned_env n = ∅)
     ∧ truthy_cache initial_world = None
     ∧ ∀ flags,
         fill_calls (after_calls unprovisioned_env example_backend flags initial_world)
         = (fill_calls initial_world + length flags)%nat
         ∧ truthy_cache (after_calls unprovisioned_env example_backend flags initial_world)
           = None).
Proof.
  assert (instance_map_of 0 example_cached_world ≠ ∅) as Hfilled.
  { intros Hempty. apply (f_equal (λ m : gmap string Instance, size m)) in Hempty.
    vm_compute in Hempty. discriminate Hempty. }
  split.
  - split; [reflexivity|]. split; [exact Hfilled|].
    exact (proj1 (get_instance_map_cache_hit_ignores_flag unprovisioned_env
                    example_backend true example_cached_world)
             0%nat eq_refl Hfilled).
  - split; [reflexivity|]. split; [reflexivity|].
    exact (proj2 (get_instance_map_cache_hit_ignores_flag unprovisioned_env
                    example_backend true initial_world)
             (λ n, eq_refl) eq_refl).
Defined.

(** A world in which the dictionary of the three hosts exists. *)
Definition example_expansion_world : World :=
  set_heap (λ _, [example_expansion]) initial_world.

Lemma check_hosts_bootstrapped_flags_witness :
  let w := example_expansion_world in
  let m := instance_map_of 0 w in
  let q := length (queues w) in
  let res := _check_hosts_bootstrapped example_env example_backend 0 "c" false w in
  1 ≤ MAX_SIMULTANEOUS_OUTBOUND_CONNECTIONS (_pnda_env example_backend)
  ∧ actor w = MainThread
  ∧ (∀ l, schedule example_env l ≡ₚ l)
  ∧ (0 < length (heap w))%nat
  ∧ ∃ probes : list (Thread * Z),
      res.1 = Ok tt
      ∧ target <$> probes.*1
        ≡ₚ (λ e, target_do_check e.1 (private_ip_address e.2) "c" q) <$> map_to_list m
      ∧ worker_events (log res.2) = worker_events (log w) ++ (probe_event <$> probes)
      ∧ (∀ k i, m !! k = Some i →
           ∃ t r, (t, r) ∈ probes
             ∧ target t = target_do_check k (private_ip_address i) "c" q
             ∧ instance_map_of 0 res.2 !! k
               = Some (if decide (r = 0) then set_bootstrapped true i else i))
      ∧ dom (instance_map_of 0 res.2) = dom m
      ∧ ∀ r, r ≠ 0%nat → instance_map_of r res.2 = instance_map_of r w.
Proof.
  intros w m q res.
  assert (1 ≤ MAX_SIMULTANEOUS_OUTBOUND_CONNECTIONS (_pnda_env example_backend)) as Hsize
    by (simpl; lia).
  assert (0 < length (heap w))%nat as Hexists by (simpl; lia).
  split; [exact Hsize|]. split; [reflexivity|]. split; [exact example_schedule|].
  split; [exact Hexists|].
  exact (check_hosts_bootstrapped_flags example_env example_backend 0%nat "c" false w
           Hsize eq_refl example_schedule Hexists).
Defined.

Lemma wait_for_host_connectivity_polls_witness :
  let hosts := ["10.0.0.1"; "10.0.0.3"; "10.0.0.4"] in
  let w := initial_world in
  let q := length (queues w) in
  let res := _wait_for_host_connectivity example_env example_backend hosts "c" false w in
  1 ≤ MAX_SIMULTANEOUS_OUTBOUND_CONNECTIONS (_pnda_env example_backend)
  ∧ actor w = MainThread
  ∧ (∀ l, schedule example_env l ≡ₚ l)
  ∧ ∃ (threads : list Thread) (waves : list (list Thread))
      (outs : list (Thread * (list Event * bool))),
      target <$> threads = (λ host, target_do_wait host "c" q) <$> hosts
      ∧ thread_sets_of threads
          (MAX_SIMULTANEOUS_OUTBOUND_CONNECTIONS (_pnda_env example_backend))
        = Ok waves
      ∧ outs.*1 ≡ₚ threads
      ∧ Forall (λ p, poll_ok "c" p.1 p.2) outs
      ∧ main_events (log res.2) = main_events (log w) ++ (waves ≫= wave_events false)
      ∧ worker_events (log res.2)
        = worker_events (log w) ++ (outs ≫= outcome_events poll_events)
      ∧ match outs ≫= poll_failures with
        | [] => res.1 = Ok tt ∧ queue_of q res.2 = []
        | failure :: rest =>
            res.1 = Raise (Exception ("Error waiting for host connectivity, error msg: "
                                      +:+ failure +:+ ". See debug log ("
                                      +:+ LOG_FILE_NAME example_env +:+ ") for details."))
            ∧ queue_of q res.2 = rest
        end.
Proof.
  intros hosts w q res.
  assert (1 ≤ MAX_SIMULTANEOUS_OUTBOUND_CONNECTIONS (_pnda_env example_backend)) as Hsize
    by (simpl; lia).
  split; [exact Hsize|]. split; [reflexivity|]. split; [exact example_schedule|].
  exact (proj2 (wait_for_host_connectivity_polls example_env example_backend hosts "c"
                  false w Hsize eq_refl example_schedule)).
Defined.

(** The property of C3 as stated: every failure that was recorded is in the
    message of the exception. A failure that is still in the queue when the
    exception is raised was recorded. *)
Definition surfaces_all_failures (env : Env) (self : BaseBackend) (hosts : list string)
    (cluster : string) (bastion_used : bool) (w : World) : Prop :=
  let res := _wait_for_host_connectivity env self hosts cluster bastion_used w in
  ∀ message, res.1 = Raise (Exception message) →
    ∀ failure, failure ∈ queue_of (length (queues w)) res.2 →
      str_contains failure message.

(** With two hosts that do not answer, the failure of the second one is
    recorded and left out of the exception. *)
Lemma wait_for_host_connectivity_drops_failures :
  ¬ (∀ env self hosts cluster bastion_used w,
       surfaces_all_failures env self hosts cluster bastion_used w).
Proof.
  intros Hall.
  pose proof (Hall example_env example_backend ["10.0.0.1"; "10.0.0.3"; "10.0.0.4"] "c"
                false initial_world) as Hrun.
  unfold surfaces_all_failures in Hrun.
  set (res := _wait_for_host_connectivity _ _ _ _ _ _) in Hrun.
  assert (res.1 = Raise (Exception
            ("Error waiting for host connectivity, error msg: "
             +:+ giving_up "10.0.0.3"
             +:+ ". See debug log (logs/pnda-cli.log) for details."))) as Hraised
    by (vm_compute; reflexivity).
  assert (queue_of (length (queues initial_world)) res.2 = [giving_up "10.0.0.4"])
    as Hqueue by (vm_compute; reflexivity).
  specialize (Hrun _ Hraised (giving_up "10.0.0.4")). rewrite Hqueue in Hrun.
  assert (giving_up "10.0.0.4" ∈ [giving_up "10.0.0.4"]) as Hleft
    by (apply list_elem_of_singleton; reflexivity).
  pose proof (str_contains_containsb _ _ (Hrun Hleft)) as Hfound.
  vm_compute in Hfound. discriminate Hfound.
Qed.

(** What [_install_pnda] has prepared in the example when it comes to the
    bootstrap of the saltmaster. *)
Definition example_prepared : Prepared :=
  {| p_instance_map := example_instances; p_bastion_ip := None;
     p_saltmaster := example_instance "c-saltmaster" "10.0.0.1" "saltmaster" None;
     p_salt_tarball := None; p_certs_tarball := None |}.

(** The volume configuration is missing in this world, so the bootstrap of
    the saltmaster records an error. *)
Lemma install_pnda_coordinator_first_witness :
  let w := set_RUNFILE (Some "cli/logs/c.0.run") initial_world in
  let prepared := _install_pnda_prepare example_env example_backend w in
  let res := _install_pnda example_env example_backend w in
  prepared = (Ok example_prepared, prepared.2)
  ∧ (∃ error_message,
       res.1 = Raise (Exception ("Error bootstrapping saltmaster, error msg: "
                                 +:+ error_message +:+ ". See debug log ("
                                 +:+ LOG_FILE_NAME example_env +:+ ") for details.")))
  ∧ logs_only before_remaining w res.2.
Proof.
  intros w prepared res.
  assert (prepared = (Ok example_prepared, prepared.2)) as Hprepared
    by (vm_compute; reflexivity).
  split; [exact Hprepared|].
  pose proof (install_pnda_coordinator_first example_env example_backend w
                example_prepared prepared.2 Hprepared) as Hfirst.
  cbv zeta in Hfirst. destruct Hfirst as (_ & _ & _ & Hqueue).
  destruct (queue_of _ _) as [|error_message rest] eqn:Herrors in Hqueue.
  - vm_compute in Herrors. discriminate Herrors.
  - destruct Hqueue as (Hraised & _ & Hlog). split; [|exact Hlog].
    exists error_message. exact Hraised.
Defined.

(** * Further properties *)

(** ** Command lines *)

(** Whether the character [c] occurs in [s]. *)
Fixpoint has_char (c : ascii) (s : string) : bool :=
  match s with
  | EmptyString => false
  | String a s' => Ascii.eqb a c || has_char c s'
  end.

Lemma str_split_nonempty (c : ascii) (s : string) : str_split c s ≠ [].
Proof.
  induction s as [|a s IH]; [done|]. simpl.
  destruct (Ascii.eqb a c); [done|]. by destruct (str_split c s).
Qed.

Lemma str_split_cons (c a : ascii) (s : string) :
  Ascii.eqb a c = false →
  ∃ h t, str_split c s = h :: t ∧ str_split c (String a s) = String a h :: t.
Proof.
  intros Ha. simpl. rewrite Ha.
  destruct (str_split c s) as [|h t] eqn:Hs; [by apply str_split_nonempty in Hs|].
  by exists h, t.
Qed.

Lemma str_split_whole (c : ascii) (s : string) :
  has_char c s = false → str_split c s = [s].
Proof.
  induction s as [|a s IH]; [done|]. simpl. intros [Ha Hs]%orb_false_elim.
  by rewrite Ha, IH.
Qed.

(** Splitting at a separator that stands between two strings. *)
Lemma str_split_sep (c : ascii) (s t : string) :
  str_split c (s +:+ String c t) = str_split c s ++ str_split c t.
Proof.
  induction s as [|a s IH].
  - change ("" +:+ String c t) with (String c t). simpl. by rewrite Ascii.eqb_refl.
  - change (String a s +:+ String c t) with (String a (s +:+ String c t)).
    simpl. destruct (Ascii.eqb a c); [by rewrite IH|].
    rewrite IH. destruct (str_split c s) as [|h l] eqn:Hs; [|done].
    by apply str_split_nonempty in Hs.
Qed.

Lemma str_split_join (c : ascii) (l : list string) :
  l ≠ [] → str_split c (str_join (String c "") l) = l ≫= str_split c.
Proof.
  induction l as [|x l IH]; [done|]. intros _.
  destruct l as [|y l].
  - simpl. by rewrite app_nil_r.
  - change (str_join (String c "") (x :: y :: l))
      with (x +:+ String c "" +:+ str_join (String c "") (y :: l)).
    change (String c "" +:+ str_join (String c "") (y :: l))
      with (String c (str_join (String c "") (y :: l))).
    rewrite str_split_sep, IH by done. reflexivity.
Qed.

(** [sep.join(s.split(sep))] gives [s] back. *)
Lemma str_join_split (c : ascii) (s : string) :
  str_join (String c "") (str_split c s) = s.
Proof.
  induction s as [|a s IH]; [done|]. simpl.
  destruct (Ascii.eqb_spec a c) as [->|Hac].
  - destruct (str_split c s) as [|h t] eqn:Hs; [by apply str_split_nonempty in Hs|].
    change (str_join (String c "") ("" :: h :: t))
      with ("" +:+ String c "" +:+ str_join (String c "") (h :: t)).
    rewrite IH. reflexivity.
  - destruct (str_split c s) as [|h t] eqn:Hs; [by apply str_split_nonempty in Hs|].
    destruct t as [|h' t].
    + simpl in *. by subst.
    + change (str_join (String c "") (String a h :: h' :: t))
        with (String a (h +:+ String c "" +:+ str_join (String c "") (h' :: t))).
      change (str_join (String c "") (h :: h' :: t))
        with (h +:+ String c "" +:+ str_join (String c "") (h' :: t)) in IH.
      by rewrite IH.
Qed.

Lemma bind_singletons {A} (f : A → list A) (l : list A) :
  Forall (λ x, f x = [x]) l → l ≫= f = l.
Proof.
  induction 1 as [|x l Hx _ IH]; [done|].
  change ((x :: l) ≫= f) with (f x ++ (l ≫= f)). by rewrite Hx, IH.
Qed.

(** X1. The arguments of the [scp] command. The command line is split at
    every space, so a file name is passed on in the pieces that its spaces
    separate; file names without spaces are passed on as they are, between
    the options and the destination. With no file at all an empty argument
    stands in their place. Joined with spaces the arguments give the
    command line back. *)
Theorem scp_parts_arguments (files : list string) (cluster host : string) :
  has_char " " cluster = false → has_char " " host = false →
  scp_parts files cluster host
  = ["scp"; "-F"; "cli/ssh_config-" +:+ cluster]
    ++ (if decide (files = []) then [""] else files ≫= str_split " ")
    ++ [host +:+ ":/tmp"]
  ∧ (Forall (λ file, has_char " " file = false) files → files ≠ [] →
     scp_parts files cluster host
     = ["scp"; "-F"; "cli/ssh_config-" +:+ cluster] ++ files ++ [host +:+ ":/tmp"])
  ∧ str_join " " (scp_parts files cluster host)
    = "scp -F cli/ssh_config-" +:+ cluster +:+ " " +:+ str_join " " files
      +:+ " " +:+ host +:+ ":" +:+ "/tmp".
Proof.
  intros Hcluster Hhost.
  assert (scp_parts files cluster host
          = ["scp"; "-F"; "cli/ssh_config-" +:+ cluster]
            ++ (if decide (files = []) then [""] else files ≫= str_split " ")
            ++ [host +:+ ":/tmp"]) as Hparts.
  { unfold scp_parts.
    change ("scp -F cli/ssh_config-" +:+ cluster +:+ " " +:+ str_join " " files
            +:+ " " +:+ host +:+ ":" +:+ "/tmp")
      with ("scp" +:+ String " " ("-F" +:+ String " "
              (("cli/ssh_config-" +:+ cluster) +:+ String " "
                 (str_join " " files +:+ String " " (host +:+ ":/tmp"))))).
    rewrite !str_split_sep.
    change (str_split " " "scp") with ["scp"]. change (str_split " " "-F") with ["-F"].
    rewrite (str_split_whole " " ("cli/ssh_config-" +:+ cluster)) by exact Hcluster.
    rewrite (str_split_whole " " (host +:+ ":/tmp")).
    2:{ clear -Hhost. induction host as [|a h IH]; [done|].
        change (String a h +:+ ":/tmp") with (String a (h +:+ ":/tmp")). simpl in *.
        apply orb_false_elim in Hhost as [-> Hh]. by rewrite IH. }
    destruct (decide (files = [])) as [->|Hfiles]; [done|].
    by rewrite str_split_join. }
  split; [exact Hparts|]. split.
  - intros Hfiles Hne. rewrite Hparts. destruct (decide (files = [])); [done|].
    rewrite bind_singletons; [done|].
    eapply Forall_impl; [exact Hfiles|]. intros file. apply str_split_whole.
  - unfold scp_parts. apply str_join_split.
Qed.

(** X2. The arguments of the [ssh] command: the options, the host, and the
    commands as one last argument, joined with semicolons and never split,
    whatever spaces they hold. *)
Theorem ssh_parts_arguments (cmds : list string) (cluster host : string) :
  has_char " " cluster = false → has_char " " host = false →
  ssh_parts cmds cluster host
  = ["ssh"; "-F"; "cli/ssh_config-" +:+ cluster; host; str_join ";" cmds].
Proof.
  intros Hcluster Hhost. unfold ssh_parts.
  change ("ssh -F cli/ssh_config-" +:+ cluster +:+ " " +:+ host)
    with ("ssh" +:+ String " " ("-F" +:+ String " "
            (("cli/ssh_config-" +:+ cluster) +:+ String " " host))).
  rewrite !str_split_sep.
  change (str_split " " "ssh") with ["ssh"]. change (str_split " " "-F") with ["-F"].
  rewrite (str_split_whole " " ("cli/ssh_config-" +:+ cluster)) by exact Hcluster.
  by rewrite (str_split_whole " " host).
Qed.

Lemma scp_parts_arguments_witness :
  has_char " " "c" = false
  ∧ has_char " " "10.0.0.1" = false
  ∧ scp_parts ["base.sh"; "my key.pem"] "c" "10.0.0.1"
    = ["scp"; "-F"; "cli/ssh_config-c"; "base.sh"; "my"; "key.pem"; "10.0.0.1:/tmp"]
  ∧ scp_parts [] "c" "10.0.0.1" = ["scp"; "-F"; "cli/ssh_config-c"; ""; "10.0.0.1:/tmp"].
Proof.
  split; [reflexivity|]. split; [reflexivity|]. split.
  - exact (proj1 (scp_parts_arguments ["base.sh"; "my key.pem"] "c" "10.0.0.1"
                    eq_refl eq_refl)).
  - exact (proj1 (scp_parts_arguments [] "c" "10.0.0.1" eq_refl eq_refl)).
Defined.

Lemma ssh_parts_arguments_witness :
  has_char " " "c" = false
  ∧ has_char " " "10.0.0.1" = false
  ∧ ssh_parts ["ls ~"; "touch ~/.bootstrap_complete"] "c" "10.0.0.1"
    = ["ssh"; "-F"; "cli/ssh_config-c"; "10.0.0.1"; "ls ~;touch ~/.bootstrap_complete"].
Proof.
  split; [reflexivity|]. split; [reflexivity|].
  exact (ssh_parts_arguments ["ls ~"; "touch ~/.bootstrap_complete"] "c" "10.0.0.1"
           eq_refl eq_refl).
Defined.

(** ** The run file *)

(** X3. [to_runfile] returns normally in one case only: the run file has
    been named by [init_runfile] and does not exist yet. The file is created
    then and holds the given pairs, and nothing else changes. In every other
    case the call raises and leaves the world as it was: a record that
    exists is never changed, and when it holds a JSON document the
    exception is the [IOError] of writing to a file opened for reading. *)
Theorem to_runfile_outcome (pairs : gmap string Json) (w : World) :
  let res := to_runfile pairs w in
  match RUNFILE w with
  | None =>
      res = (Raise (TypeError "coercing to Unicode: need string or buffer, NoneType found"),
             w)
  | Some path =>
      match fs w !! path with
      | None => res = (Ok tt, set_fs (<[path := JsonDoc pairs]>) w)
      | Some data =>
          (∃ e, res = (Raise e, w))
          ∧ ∀ record, data = JsonDoc record →
              res.1 = Raise (IOError "File not open for writing")
      end
  end.
Proof.
  intros res. subst res.
  destruct (RUNFILE w) as [path|] eqn:Hrun.
  - destruct (fs w !! path) as [data|] eqn:Hfile.
    + rewrite (to_runfile_existing_file pairs path data w Hrun Hfile).
      split; [by eexists|]. by intros record ->.
    + rewrite (to_runfile_new_file pairs path w Hrun Hfile). f_equal.
      destruct w; unfold set_fs; simpl. f_equal.
      by rewrite insert_insert_eq, (right_id_L ∅ (∪)).
  - unfold to_runfile. by rewrite Hrun.
Qed.

(** ** Remote calls *)

Section RemoteCalls.

Variable env : Env.

(** The world after a call that took [ms] milliseconds and returned [r]. *)
Definition after_call (parts : list string) (host : string) (r : Z) (ms : nat)
    (w : World) : World :=
  set_now (λ t, t + Z.of_nat ms)
    (set_log (λ l, l ++ [(actor w, ECall parts host r)]) w).

(** X4. [scp] and [ssh] make one call each, which is all that they change
    in the world, and raise if and only if the call returns a value other
    than zero. The exception names the host and the debug log. *)
Theorem scp_ssh_outcome (items : list string) (cluster host : string) (w : World) :
  (∃ (r : Z) (ms : nat) (message : string),
      subprocess_to_log_call env (now w) (scp_parts items cluster host) host [] = (r, ms)
      ∧ scp env items cluster host w
        = (if decide (r = 0) then Ok tt else Raise (Exception message),
           after_call (scp_parts items cluster host) host r ms w)
      ∧ str_contains host message ∧ str_contains (LOG_FILE_NAME env) message)
  ∧ (∃ (r : Z) (ms : nat) (message : string),
      subprocess_to_log_call env (now w) (ssh_parts items cluster host) host
        ["lost connection"; "\s*Failed:\s*[1-9].*"] = (r, ms)
      ∧ ssh env items cluster host w
        = (if decide (r = 0) then Ok tt else Raise (Exception message),
           after_call (ssh_parts items cluster host) host r ms w)
      ∧ str_contains host message ∧ str_contains (LOG_FILE_NAME env) message).
Proof.
  split.
  - unfold scp, call. munfold.
    destruct (subprocess_to_log_call env (now w) _ host _) as [r ms].
    exists r, ms. eexists. split; [done|]. split.
    + destruct (decide (r = 0)) as [->|Hr]; [done|].
      rewrite bool_decide_eq_true_2 by done. reflexivity.
    + split; [apply str_contains_mid|].
      exists ("Error transferring files to new host " +:+ host
              +:+ " via SCP. See debug log ("), ") for details.".
      by rewrite !str_app_assoc.
  - unfold ssh, call. munfold.
    destruct (subprocess_to_log_call env (now w) _ host _) as [r ms].
    exists r, ms. eexists. split; [done|]. split.
    + destruct (decide (r = 0)) as [->|Hr]; [done|].
      rewrite bool_decide_eq_true_2 by done. reflexivity.
    + split; [apply str_contains_mid|].
      exists ("Error running ssh commands on host " +:+ host
              +:+ ". See debug log ("), ") for details.".
      by rewrite !str_app_assoc.
Qed.

End RemoteCalls.

(** ** Volume requirements *)

(** X5. [_get_volume_info] changes nothing. For an empty node type it
    returns [None] without opening the configuration, which need not exist.
    For any other node type it raises [IOError] when the file is missing;
    with the volume configuration in the file it raises [KeyError] when the
    node type has no class or the class is not declared, and otherwise
    returns what the class declares, which may be nothing. *)
Theorem get_volume_info_outcome (node_type config_file : string) (w : World) :
  let res := _get_volume_info node_type config_file w in
  res.2 = w
  ∧ (node_type = "" → res.1 = Ok None)
  ∧ (node_type ≠ "" → fs w !! config_file = None →
     res.1 = Raise (IOError ("No such file or directory: " +:+ config_file)))
  ∧ (∀ volume_config,
       node_type ≠ "" → fs w !! config_file = Some (YamlVolumes volume_config) →
       res.1 = match vc_instances volume_config !! node_type with
               | None => Raise (KeyError node_type)
               | Some volume_class =>
                   match vc_classes volume_config !! volume_class with
                   | None => Raise (KeyError volume_class)
                   | Some requested => Ok requested
                   end
               end).
Proof.
  intros res. subst res. split; [apply get_volume_info_world|].
  unfold _get_volume_info. split; [by intros ->|].
  assert (node_type ≠ "" → (0 <? String.length node_type)%nat = true) as Hlen
    by (destruct node_type; [done|reflexivity]).
  split.
  - intros Hrole Hfile. rewrite (Hlen Hrole). unfold open. munfold. simpl.
    by rewrite Hfile.
  - intros volume_config Hrole Hfile. rewrite (Hlen Hrole).
    unfold open, yaml_load, getitem. munfold. simpl. rewrite Hfile. simpl.
    rewrite Hfile.
    destruct (vc_instances volume_config !! node_type) as [volume_class|]; [|done].
    simpl. by destruct (vc_classes volume_config !! volume_class).
Qed.

(** ** The errors of the threads *)

Section ThreadErrors.

Variable env : Env.

(** X6. [_process_thread_errors] returns at once, changing nothing, when
    the queue is empty. Otherwise it takes the first message off the queue,
    leaves the other messages there and raises one exception, whose text
    holds the action, that first message and the name of the debug log. *)
Theorem process_thread_errors_outcome (action : string) (errors : nat) (w : World) :
  let res := _process_thread_errors env action errors w in
  match queue_of errors w with
  | [] => res = (Ok tt, w)
  | first :: rest =>
      ∃ message,
        res = (Raise (Exception message), set_queues (alter (drop 1) errors) w)
        ∧ queue_of errors res.2 = rest
        ∧ str_contains action message
        ∧ str_contains first message
        ∧ str_contains (LOG_FILE_NAME env) message
  end.
Proof.
  intros res. subst res.
  destruct (queue_of errors w) as [|first rest] eqn:Hq.
  - by apply process_thread_errors_empty.
  - unfold _process_thread_errors. munfold. rewrite Hq. unfold get. munfold.
    eexists. split; [reflexivity|]. split.
    + cbn [snd]. unfold queue_of in *. unfold set_queues. simpl.
      rewrite list_lookup_alter_eq.
      destruct (queues w !! errors) as [items|]; [|done]. simpl in *. by subst.
    + split; [apply (str_contains_mid "Error ")|]. split.
      * exists ("Error " +:+ action +:+ ", error msg: "),
          (". See debug log (" +:+ LOG_FILE_NAME env +:+ ") for details.").
        by rewrite !str_app_assoc.
      * exists ("Error " +:+ action +:+ ", error msg: " +:+ first +:+ ". See debug log ("),
          ") for details.".
        by rewrite !str_app_assoc.
Qed.

End ThreadErrors.

(** ** Certificates *)

Section ShipCerts.

Variable env : Env.
Variable self : BaseBackend.

(** X7. [_ship_certs] makes the tarball first. When the certificates cannot
    be archived, no call is made: in permissive mode [None] is returned, in
    any other mode [PNDAConfigException] is raised; the tarball that was
    opened stays on disk. When they can, the tarball is transferred to the
    saltmaster by one [scp]; if that succeeds the local tarball is removed
    and its name is returned, and if it fails the exception of [scp] leaves
    and the tarball stays on disk. *)
Theorem ship_certs_outcome (cluster saltmaster_ip : string) (w : World) :
  let path := SECURITY_MATERIAL_PATH (_pnda_env self) in
  let tarball := uuid1 env (now w) +:+ ".tar.gz" in
  let parts := scp_parts [tarball] cluster saltmaster_ip in
  let res := _ship_certs env self cluster saltmaster_ip w in
  if tar_readable env path then
    ∃ (r : Z) (ms : nat),
      subprocess_to_log_call env (now w) parts saltmaster_ip [] = (r, ms)
      ∧ log res.2 = log w ++ [(actor w, ETar tarball path "security-certs");
                              (actor w, ECall parts saltmaster_ip r)]
      ∧ if decide (r = 0)
        then res.1 = Ok (Some tarball) ∧ fs res.2 = delete tarball (fs w)
        else (∃ message, res.1 = Raise (Exception message))
             ∧ fs res.2 = <[tarball := Opaque]> (fs w)
  else
    log res.2 = log w
    ∧ fs res.2 = <[tarball := Opaque]> (fs w)
    ∧ res.1 = if String.eqb (SECURITY_MODE (_pnda_env self)) "permissive"
              then Ok None
              else Raise (PNDAConfigException
                            ("Error: " +:+ path +:+ " must contain certificates")).
Proof.
  intros path tarball parts res. subst res path tarball parts.
  unfold _ship_certs, tar_create, scp, call, os_remove. munfold.
  destruct (tar_readable env (SECURITY_MATERIAL_PATH (_pnda_env self))); simpl.
  - destruct (subprocess_to_log_call env (now w) _ saltmaster_ip []) as [r ms].
    exists r, ms. split; [done|].
    destruct (decide (r = 0)) as [->|Hr].
    + simpl. split; [by rewrite <- app_assoc|]. split; [done|].
      by rewrite delete_insert_eq.
    + rewrite bool_decide_eq_true_2 by done. simpl.
      split; [by rewrite <- app_assoc|]. split; [by eexists|done].
  - by destruct (String.eqb (SECURITY_MODE (_pnda_env self)) "permissive").
Qed.

End ShipCerts.

(** ** The access configuration *)

(** [os.path.exists(path)]: the file system of the model holds files only. *)
Definition os_path_exists (path : string) : M bool := isfile path.

Section Destroy.

Variable self : BaseBackend.

Definition _destroy_pnda : M unit :=
  let socks_proxy_file := "cli/socks_proxy-" +:+ _cluster self in
  found ← os_path_exists socks_proxy_file;
  (if found : bool then os_remove socks_proxy_file else mret tt);;
  let ssh_config_file := "cli/ssh_config-" +:+ _cluster self in
  found ← os_path_exists ssh_config_file;
  (if found : bool then os_remove ssh_config_file else mret tt);;
  let env_sh_file := "cli/pnda_env_" +:+ _cluster self +:+ ".sh" in
  found ← os_path_exists env_sh_file;
  if found : bool then os_remove env_sh_file else mret tt.

End Destroy.

Lemma set_fs_delete_missing (path : string) (w : World) :
  ¬ is_Some (fs w !! path) → set_fs (delete path) w = w.
Proof.
  intros Hmissing. destruct w; unfold set_fs; simpl in *. f_equal. apply delete_id.
  by apply eq_None_not_Some.
Qed.

Lemma remove_if_exists (path : string) (w : World) :
  (found ← os_path_exists path;
   if found : bool then os_remove path else mret tt) w
  = (Ok tt, set_fs (delete path) w).
Proof.
  unfold os_path_exists, os_remove. munfold.
  case_bool_decide as Hfound; [done|]. by rewrite set_fs_delete_missing.
Qed.

Lemma remove_if_exists_then {A} (path : string) (k : M A) (w : World) :
  (found ← os_path_exists path;
   (if found : bool then os_remove path else mret tt);; k) w
  = k (set_fs (delete path) w).
Proof.
  unfold os_path_exists, os_remove. munfold.
  case_bool_decide as Hfound; [done|]. by rewrite set_fs_delete_missing.
Qed.

Lemma destroy_pnda_run (self : BaseBackend) (w : World) :
  _destroy_pnda self w
  = (Ok tt,
     set_fs (λ f, delete ("cli/pnda_env_" +:+ _cluster self +:+ ".sh")
                    (delete ("cli/ssh_config-" +:+ _cluster self)
                       (delete ("cli/socks_proxy-" +:+ _cluster self) f))) w).
Proof.
  unfold _destroy_pnda. cbv zeta.
  rewrite !remove_if_exists_then, remove_if_exists. by destruct w.
Qed.

Section DestroyProperties.

Variable self : BaseBackend.

(** The files that [_destroy_pnda] removes. *)
Definition access_files : list string :=
  ["cli/socks_proxy-" +:+ _cluster self;
   "cli/ssh_config-" +:+ _cluster self;
   "cli/pnda_env_" +:+ _cluster self +:+ ".sh"].

(** X8. [_destroy_pnda] never raises, whether the access files exist or
    not. Afterwards none of the three exists, every other file is as it
    was, and nothing was logged: no host is contacted. Run again, it
    changes nothing. *)
Theorem destroy_pnda_outcome (w : World) :
  let res := _destroy_pnda self w in
  res.1 = Ok tt
  ∧ (∀ path, fs res.2 !! path
             = if decide (path ∈ access_files) then None else fs w !! path)
  ∧ log res.2 = log w
  ∧ _destroy_pnda self res.2 = (Ok tt, res.2).
Proof.
  intros res. subst res. rewrite !destroy_pnda_run. cbn [fst snd].
  split; [done|]. split; [|split; [done|]].
  - intros path. unfold access_files. cbn [fs set_fs]. rewrite !lookup_delete.
    destruct (decide (path ∈ _)) as [Hin|Hout].
    + rewrite !elem_of_cons, elem_of_nil in Hin.
      repeat case_decide; try done. destruct Hin as [->|[->|[->|[]]]]; congruence.
    + rewrite !not_elem_of_cons in Hout. destruct Hout as (H1 & H2 & H3 & _).
      repeat case_decide; congruence.
  - f_equal. destruct w; unfold set_fs; simpl. f_equal.
    apply map_eq. intros path.
    rewrite !lookup_delete. repeat case_decide; done.
Qed.

(** X9. [_write_ssh_config] writes the configuration of the cluster and,
    if and only if a bastion address is given that is not empty, the
    helper of the SOCKS proxy as well; it never removes a helper that is
    there. Whatever it has written, [_destroy_pnda] removes: writing the
    configuration and destroying ends in the world in which destroying
    alone ends. *)
Theorem write_ssh_config_then_destroy (bastion_ip : option string)
    (os_user keyfile : string) (w : World) :
  let cluster := _cluster self in
  let written := _write_ssh_config cluster bastion_ip os_user keyfile w in
  written.1 = Ok tt
  ∧ (∀ path, fs written.2 !! path
             = if decide (path = "cli/ssh_config-" +:+ cluster
                          ∨ (path = "cli/socks_proxy-" +:+ cluster
                             ∧ bastion_ip ≠ None ∧ bastion_ip ≠ Some ""))
               then Some Opaque else fs w !! path)
  ∧ log written.2 = log w
  ∧ _destroy_pnda self written.2 = _destroy_pnda self w.
Proof.
  intros cluster written. subst written cluster.
  unfold _write_ssh_config, open. munfold. simpl.
  case_bool_decide as Hbastion; simpl.
  - split; [done|]. split; [|split; [done|]].
    + intros path. case_decide as Hpath.
      * destruct Hpath as [->|(_ & H1 & H2)]; [by rewrite lookup_insert_eq|].
        destruct Hbastion; done.
      * rewrite lookup_insert_ne; [done|]. intros <-. apply Hpath. by left.
    + rewrite !destroy_pnda_run. f_equal. destruct w; unfold set_fs; simpl. f_equal.
      apply map_eq. intros path.
      rewrite !lookup_delete. repeat case_decide; try done.
      rewrite lookup_insert_ne; done.
  - split; [done|]. split; [|split; [done|]].
    + intros path. case_decide as Hpath.
      * destruct Hpath as [->|(-> & _)].
        -- destruct (decide ("cli/ssh_config-" +:+ _cluster self
                             = "cli/socks_proxy-" +:+ _cluster self)) as [->|?];
             [by rewrite lookup_insert_eq|].
           rewrite lookup_insert_ne by done. by rewrite lookup_insert_eq.
        -- by rewrite lookup_insert_eq.
      * rewrite !lookup_insert_ne; [done|..].
        -- intros <-. apply Hpath. by left.
        -- intros <-. apply Hpath. right. split; [done|].
           split; intros ->; apply Hbastion; [by left|by right].
    + rewrite !destroy_pnda_run. f_equal. destruct w; unfold set_fs; simpl. f_equal.
      apply map_eq. intros path.
      rewrite !lookup_delete. repeat case_decide; try done.
      rewrite !lookup_insert_ne; done.
Qed.

End DestroyProperties.

(** ** The size of the waves *)

Section WaveSize.

Variable env : Env.
Variable self : BaseBackend.

Lemma connectivity_threads (hosts : list string) (cluster : string) (w : World) :
  ∃ threads,
    for_append hosts (λ host,
      thread ← Thread_new (target_do_wait host cluster (length (queues w)));
      mret [thread]) (set_queues (λ qs, qs ++ [[]]) w)
    = (Ok threads,
       set_next_tid (λ n, n + length hosts)%nat (set_queues (λ qs, qs ++ [[]]) w)).
Proof.
  destruct (make_threads hosts (λ host, target_do_wait host cluster (length (queues w)))
              (λ host, thread ← Thread_new (target_do_wait host cluster (length (queues w)));
                       mret [thread]) (set_queues (λ qs, qs ++ [[]]) w))
    as (threads & Hrun & _); [done|]. by exists threads.
Qed.

(** X10. With a maximum of zero connections [_wait_on_host_operations]
    raises [ValueError], from [xrange] with a step of zero, before it starts
    any thread and whatever the list of threads, the empty list included.
    [_wait_for_host_connectivity] then raises it without a probe of any
    host. *)
Theorem zero_wave_size_raises :
  MAX_SIMULTANEOUS_OUTBOUND_CONNECTIONS (_pnda_env self) = 0 →
  (∀ action thread_list bastion_used errors w,
     _wait_on_host_operations env self action thread_list bastion_used errors w
     = (Raise (ValueError "xrange() arg 3 must not be zero"), w))
  ∧ (∀ hosts cluster bastion_used w,
       let res := _wait_for_host_connectivity env self hosts cluster bastion_used w in
       res.1 = Raise (ValueError "xrange() arg 3 must not be zero")
       ∧ log res.2 = log w).
Proof.
  intros Hsize.
  assert (∀ action thread_list bastion_used errors w,
            _wait_on_host_operations env self action thread_list bastion_used errors w
            = (Raise (ValueError "xrange() arg 3 must not be zero"), w)) as Hwait.
  { intros. unfold _wait_on_host_operations. rewrite Hsize, bind_run.
    unfold lift_result. by rewrite thread_sets_of_zero. }
  split; [exact Hwait|].
  intros hosts cluster bastion_used w res.
  assert (∃ w', res = (Raise (ValueError "xrange() arg 3 must not be zero"), w')
                ∧ log w' = log w) as (w' & -> & Hlog); [|done].
  subst res. unfold _wait_for_host_connectivity. rewrite bind_run. unfold Queue at 1.
  rewrite bind_run.
  destruct (connectivity_threads hosts cluster w) as (threads & ->).
  rewrite Hwait. by eexists.
Qed.

(** X11. With a negative maximum [xrange] is empty, so there is no wave:
    [_wait_on_host_operations] starts none of its threads and goes on to
    the error queue at once. [_wait_for_host_connectivity] returns normally
    then, though no host was probed. *)
Theorem negative_wave_size_skips_threads :
  MAX_SIMULTANEOUS_OUTBOUND_CONNECTIONS (_pnda_env self) < 0 →
  (∀ action thread_list bastion_used errors w,
     _wait_on_host_operations env self action thread_list bastion_used errors w
     = match errors with
       | Some errors => _process_thread_errors env action errors w
       | None => (Ok tt, w)
       end)
  ∧ (∀ hosts cluster bastion_used w,
       let res := _wait_for_host_connectivity env self hosts cluster bastion_used w in
       res.1 = Ok tt ∧ log res.2 = log w).
Proof.
  intros Hsize.
  assert (∀ action thread_list bastion_used errors w,
            _wait_on_host_operations env self action thread_list bastion_used errors w
            = match errors with
              | Some errors => _process_thread_errors env action errors w
              | None => (Ok tt, w)
              end) as Hwait.
  { intros. unfold _wait_on_host_operations. rewrite bind_run.
    unfold lift_result. rewrite thread_sets_of_neg by exact Hsize.
    by destruct errors. }
  split; [exact Hwait|].
  intros hosts cluster bastion_used w res.
  assert (∃ w', res = (Ok tt, w') ∧ log w' = log w) as (w' & -> & Hlog); [|done].
  subst res. unfold _wait_for_host_connectivity. rewrite bind_run. unfold Queue at 1.
  rewrite bind_run.
  destruct (connectivity_threads hosts cluster w) as (threads & ->).
  rewrite Hwait, process_thread_errors_empty; [by eexists|].
  unfold queue_of. simpl. by rewrite list_lookup_middle.
Qed.

End WaveSize.

(** ** The bastion *)

Section Bastion.

Variable env : Env.
Variable self : BaseBackend.

(** The command by which [_install_pnda] tries the bastion. *)
Definition nc_install_cmd (bastion_ip : string) : list string :=
  str_split " " ("ssh -i " +:+ _keyfile self +:+
                 " -o StrictHostKeyChecking=no -o UserKnownHostsFile=/dev/null " +:+
                 OS_USER (_pnda_env self) +:+ "@" +:+ bastion_ip)
  ++ ["sudo yum install -y nc || echo nc already installed"].

Definition bastion_probe (bastion_ip : string) (r : Z) : Event :=
  ECall (nc_install_cmd bastion_ip) bastion_ip r.

Lemma nc_install_run (bastion_ip : string) (w : World) :
  ∃ (r : Z) (ms : nat) (e : exn),
    nc_install env self bastion_ip w
    = (if decide (r = 0) then Ok tt else Raise e,
       set_now (λ t, t + Z.of_nat ms)
         (set_log (λ l, l ++ [(actor w, bastion_probe bastion_ip r)]) w)).
Proof.
  unfold nc_install, call, bastion_probe, nc_install_cmd. munfold.
  destruct (subprocess_to_log_call env (now w) _ bastion_ip []) as [r ms].
  exists r, ms. eexists. destruct (decide (r = 0)) as [->|Hr]; [done|].
  rewrite bool_decide_eq_true_2 by done. reflexivity.
Qed.

(** X12. The loop in which [_install_pnda] waits for the bastion ends. It
    tries the bastion, sleeping two seconds after a try that failed, until
    a try succeeds, and then returns; or until, after a try that failed,
    more than ten minutes have gone by since the start, and then it leaves
    with [SystemExit(-1)]. Nothing but the clock and the log changes. *)
Theorem wait_for_bastion_outcome (bastion_ip : string) (time_start : Z) (w : World) :
  let res := wait_for_bastion env self bastion_ip time_start w in
  ∃ (tr : list Event) (reached : bool),
    polled (bastion_probe bastion_ip) tr reached
    ∧ res.1 = (if reached then Ok tt else Raise (SystemExit (-1)))
    ∧ res.2 = set_now (λ _, now res.2) (set_log (λ l, l ++ (pair (actor w) <$> tr)) w)
    ∧ (reached = false → now res.2 - time_start > 10 * 60 * 1000).
Proof.
  intros res. subst res.
  funelim (wait_for_bastion env self bastion_ip time_start w).
  all: match goal with
       | He : nc_install _ _ _ _ = _ |- _ =>
           destruct (nc_install_run bastion_ip w) as (r & ms & failure & Hrun);
           rewrite He in Hrun
       end.
  all: destruct (decide (r = 0)) as [->|Hr]; try discriminate Hrun.
  all: injection Hrun as -> ->.
  - exists [bastion_probe bastion_ip 0], true. split; [constructor|].
    split; [done|]. split; [by destruct w|done].
  - exists [bastion_probe bastion_ip r], false. split; [by constructor|].
    split; [done|]. split; [by destruct w|]. intros _.
    match goal with
    | He : Z.gtb _ _ = true |- _ =>
        pose proof He as Hlate; apply Z.gtb_lt in Hlate; cbn [snd now set_now set_log] in *; lia
    end.
  - match goal with IH : ∃ _ _, _ |- _ => destruct IH as (tr & reached & Htr & Hres & Hw & Hlate) end.
    exists (bastion_probe bastion_ip r :: ESleep 2 :: tr), reached.
    split; [by constructor|]. split; [exact Hres|]. split; [|exact Hlate].
    rewrite Hw at 1. unfold sleep. munfold.
    destruct w; unfold set_now, set_log; simpl. f_equal. by rewrite <- !app_assoc.
Qed.

End Bastion.

(** ** The threads of the create flow *)

Lemma for_append_selected {A} (l : list A) (keep : A → bool) (mk : A → Target)
    (body : A → M (list Thread)) (w : World) :
  (∀ x w, body x w
          = if keep x
            then (Ok [{| tid := next_tid w; target := mk x |}], set_next_tid S w)
            else (Ok [], w)) →
  ∃ threads,
    for_append l body w = (Ok threads, set_next_tid (λ n, n + length threads)%nat w)
    ∧ target <$> threads = mk <$> filter (λ x, keep x = true) l
    ∧ tid <$> threads = seq (next_tid w) (length threads).
Proof.
  intros Hbody. revert w. induction l as [|x l IH]; intros w.
  - exists []. split; [|done]. simpl. unfold mret, M_ret, ret. f_equal.
    destruct w; unfold set_next_tid; simpl. f_equal. lia.
  - rewrite for_append_cons, Hbody. destruct (keep x) eqn:Hkeep.
    + destruct (IH (set_next_tid S w)) as (threads & -> & Htargets & Htids).
      eexists (_ :: threads). split; [|split].
      * simpl. f_equal. destruct w; unfold set_next_tid; simpl. f_equal. lia.
      * rewrite filter_cons_True by done. by rewrite !fmap_cons, Htargets.
      * rewrite fmap_cons, Htids. reflexivity.
    + destruct (IH w) as (threads & -> & Htargets & Htids).
      exists threads. split; [done|]. split; [|done].
      rewrite filter_cons_False; [done|]. by rewrite Hkeep.
Qed.

Section InstallThreads.

Variable self : BaseBackend.

(** Whether a key of the instance map is taken for the saltmaster's: it
    holds the name of the saltmaster after a dash, anywhere. *)
Definition saltmaster_key (key : string) : bool :=
  str_containsb ("-" +:+ salt_master_instance (_node_config self)) key.

(** The pipeline invocation that [_install_pnda] makes for another host. *)
Definition install_invocation (p : Prepared)
    (bootstrap_errors bootstrap_files bootstrap_commands : nat) (i : Instance) : Target :=
  target_bootstrap i (private_ip_address (p_saltmaster p))
    (_cluster self) (_flavor self) (_branch self)
    (p_salt_tarball p) None bootstrap_errors
    (Some bootstrap_files) (Some bootstrap_commands).

(** X13. In the create flow one thread is made for every instance whose
    key does not hold the name of the saltmaster after a dash, in the order
    of the map, whether the instance has a role or not; an instance whose
    key holds it anywhere gets none. Every thread gets the salt tarball and
    the three queues, and none gets the tarball of the certificates. *)
Theorem install_pnda_threads_made (p : Prepared)
    (bootstrap_errors bootstrap_files bootstrap_commands : nat) (w : World) :
  ∃ threads,
    _install_pnda_threads self p bootstrap_errors bootstrap_files bootstrap_commands w
    = (Ok threads, set_next_tid (λ n, n + length threads)%nat w)
    ∧ target <$> threads
      = install_invocation p bootstrap_errors bootstrap_files bootstrap_commands
        <$> (filter (λ entry, saltmaster_key entry.1 = false)
               (map_to_list (p_instance_map p))).*2
    ∧ NoDup (tid <$> threads).
Proof.
  unfold _install_pnda_threads.
  destruct (for_append_selected (map_to_list (p_instance_map p))
              (λ entry, negb (saltmaster_key entry.1))
              (λ entry, install_invocation p bootstrap_errors bootstrap_files
                          bootstrap_commands entry.2)
              (λ '(key, instance),
                 if negb (str_containsb ("-" +:+ salt_master_instance (_node_config self)) key)
                 then
                   thread ← Thread_new (target_bootstrap instance
                                          (private_ip_address (p_saltmaster p))
                                          (_cluster self) (_flavor self) (_branch self)
                                          (p_salt_tarball p) None bootstrap_errors
                                          (Some bootstrap_files) (Some bootstrap_commands));
                   mret [thread]
                 else mret []) w) as (threads & Hrun & Htargets & Htids).
  { intros [key instance] w0. unfold saltmaster_key. simpl.
    by destruct (str_containsb _ key). }
  exists threads. split; [exact Hrun|]. split.
  - rewrite Htargets, <- list_fmap_compose. 
    rewrite (list_filter_iff _ (λ entry, saltmaster_key entry.1 = false)); [done|].
    intros entry. by destruct (saltmaster_key entry.1).
  - rewrite Htids. apply NoDup_seq.
Qed.

End InstallThreads.

(** ** What a bootstrap records *)

Section BootstrapRecords.

Variable env : Env.
Variable self : BaseBackend.

Lemma scp_run (files : list string) (cluster host : string) (w : World) :
  ∃ (r : Z) (ms : nat),
    subprocess_to_log_call env (now w) (scp_parts files cluster host) host [] = (r, ms)
    ∧ scp env files cluster host w
      = (if decide (r = 0) then Ok tt
         else Raise (Exception ("Error transferring files to new host " +:+ host +:+
                                " via SCP. See debug log (" +:+ LOG_FILE_NAME env +:+
                                ") for details.")),
         set_now (λ t, t + Z.of_nat ms)
           (set_log (λ l, l ++ [(actor w, ECall (scp_parts files cluster host) host r)]) w)).
Proof.
  unfold scp, call. munfold.
  destruct (subprocess_to_log_call env (now w) _ host _) as [r ms].
  exists r, ms. split; [done|]. destruct (decide (r = 0)) as [->|Hr]; [done|].
  by rewrite bool_decide_eq_true_2.
Qed.

Lemma record_resources_run (files cmds : list string) (volume_config : string)
    (bootstrap_files bootstrap_commands : option nat) (w : World) :
  record_resources files cmds volume_config bootstrap_files bootstrap_commands w
  = (Ok tt,
     set_queues (λ qs,
       from_option (alter (λ items, items ++ cmds)) id bootstrap_commands
         (from_option (alter (λ items, items ++ files ++ [volume_config])) id
            bootstrap_files qs)) w).
Proof.
  unfold record_resources.
  destruct bootstrap_files as [qf|], bootstrap_commands as [qc|];
    unfold from_option; cbv beta iota.
  - rewrite !bind_run, for_each_put, put_run, for_each_put. f_equal.
    destruct w; unfold set_queues; simpl. f_equal. f_equal.
    rewrite list_alter_twice. apply list_alter_ext; [|done].
    intros. by rewrite <- app_assoc.
  - rewrite !bind_run, for_each_put, put_run. f_equal.
    destruct w; unfold set_queues; simpl. f_equal.
    rewrite list_alter_twice. apply list_alter_ext; [|done].
    intros. by rewrite <- app_assoc.
  - rewrite bind_run. unfold mret, M_ret, ret. rewrite for_each_put. by destruct w.
  - by destruct w.
Qed.

(** X14. What [_bootstrap] leaves in the queues, for an instance with a
    role whose volume requirements resolve. When the transfer and the
    execution both return zero, the files transferred and the path of the
    volume configuration are appended to the queue of files and the
    commands run to the queue of commands, where these are given, and the
    error queue is as it was. When one of the two returns another value,
    one message is appended to the error queue and the other queues are as
    they were; after a transfer that failed nothing is executed. *)
Theorem bootstrap_records_resources (instance : Instance)
    (saltmaster cluster flavor branch : string)
    (salt_tarball certs_tarball : option string) (error_queue : nat)
    (bootstrap_files bootstrap_commands : option nat)
    (requested : option Volumes) (w : World) :
  node_type instance ≠ "" →
  (_get_volume_info (node_type instance)
     ("bootstrap-scripts/" +:+ flavor +:+ "/" +:+ "volume-config.yaml") w).1
  = Ok requested →
  let host := private_ip_address instance in
  let volume_config := "bootstrap-scripts/" +:+ flavor +:+ "/" +:+ "volume-config.yaml" in
  let files := staged_files self cluster flavor instance w in
  let cmds := bootstrap_commands_of self instance saltmaster cluster flavor branch
                salt_tarball certs_tarball requested in
  let transfer := subprocess_to_log_call env (now w) (scp_parts files cluster host)
                    host [] in
  let execution := subprocess_to_log_call env (now w + Z.of_nat transfer.2)
                     (ssh_parts cmds cluster host) host
                     ["lost connection"; "\s*Failed:\s*[1-9].*"] in
  let res := _bootstrap env self instance saltmaster cluster flavor branch
               salt_tarball certs_tarball error_queue bootstrap_files bootstrap_commands w in
  res.1 = Ok tt
  ∧ (transfer.1 = 0 → execution.1 = 0 →
     queues res.2
     = from_option (alter (λ items, items ++ cmds)) id bootstrap_commands
         (from_option (alter (λ items, items ++ files ++ [volume_config])) id
            bootstrap_files (queues w)))
  ∧ (transfer.1 ≠ 0 ∨ execution.1 ≠ 0 →
     ∃ message,
       queues res.2 = alter (λ items, items ++ [message]) error_queue (queues w)
       ∧ str_contains (name instance) message)
  ∧ (transfer.1 ≠ 0 →
     log res.2 = log w ++ [(actor w, ECall (scp_parts files cluster host) host transfer.1)]).
Proof.
  intros Hrole Hvolumes host volume_config files cmds transfer execution res.
  assert (res.1 = Ok tt) as Hok.
  { subst res. unfold _bootstrap, try_except.
    by destruct (_bootstrap_try _ _ _ _ _ _ _ _ _ _ _ w) as [[[]|e] w1]. }
  split; [exact Hok|]. clear Hok.
  subst res execution transfer. unfold _bootstrap, try_except.
  rewrite (bootstrap_try_steps env self instance saltmaster cluster flavor branch
             salt_tarball certs_tarball bootstrap_files bootstrap_commands requested w
             Hrole Hvolumes).
  fold files cmds host volume_config. rewrite bind_run.
  destruct (scp_run files cluster host w) as (r1 & ms1 & Hcall1 & ->).
  rewrite Hcall1. cbn [fst snd].
  destruct (decide (r1 = 0)) as [->|Hr1].
  - rewrite bind_run.
    destruct (ssh_run env cmds cluster host
                (set_now (λ t, t + Z.of_nat ms1)
                   (set_log (λ l, l ++ [(actor w, ECall (scp_parts files cluster host)
                                                     host 0)]) w)))
      as (r2 & ms2 & Hcall2 & ->).
    cbn [now set_now set_log] in Hcall2. rewrite Hcall2. cbn [fst snd].
    destruct (decide (r2 = 0)) as [->|Hr2].
    + rewrite record_resources_run. cbn [snd queues set_queues set_now set_log].
      split; [done|]. split; [|done]. by intros [?|?].
    + cbn [snd]. unfold put, modify. cbn [snd queues set_queues set_now set_log].
      split; [done|]. split; [|done]. intros _. eexists. split; [reflexivity|].
      apply str_contains_mid.
  - cbn [snd]. unfold put, modify. cbn [snd queues set_queues set_now set_log log].
    split; [done|]. split; [|done]. intros _. eexists. split; [reflexivity|].
    apply str_contains_mid.
Qed.

End BootstrapRecords.

(** ** Examples of the further properties *)

Lemma to_runfile_outcome_witness :
  let path := "cli/logs/c.0.run" in
  let first := {["cmdline" := JArray ["pnda-cli.py"; "create"]]} in
  let w1 := (to_runfile first example_world).2 in
  RUNFILE example_world = Some path
  ∧ fs example_world !! path = None
  ∧ fs w1 !! path = Some (JsonDoc first)
  ∧ (to_runfile {["bastion" := JString "bastion"]} w1).1
    = Raise (IOError "File not open for writing").
Proof.
  intros path first w1.
  assert (RUNFILE example_world = Some path) as Hrun by reflexivity.
  assert (fs example_world !! path = None) as Hnew by (vm_compute; reflexivity).
  assert (RUNFILE w1 = Some path) as Hrun1 by (vm_compute; reflexivity).
  assert (fs w1 !! path = Some (JsonDoc first)) as Hfile by (vm_compute; reflexivity).
  split; [exact Hrun|]. split; [exact Hnew|]. split; [exact Hfile|].
  pose proof (to_runfile_outcome {["bastion" := JString "bastion"]} w1) as Hsecond.
  cbv zeta in Hsecond. rewrite Hrun1, Hfile in Hsecond.
  exact (proj2 Hsecond first eq_refl).
Defined.

Lemma get_volume_info_outcome_witness :
  let config_file := "bootstrap-scripts/pico/volume-config.yaml" in
  "saltmaster" ≠ ""
  ∧ fs example_world !! config_file = Some (YamlVolumes example_volume_config)
  ∧ (_get_volume_info "saltmaster" config_file example_world).1 = Ok (Some example_volumes)
  ∧ (_get_volume_info "" "no such file" example_world).1 = Ok None.
Proof.
  intros config_file.
  assert ("saltmaster" ≠ "") as Hrole by discriminate.
  assert (fs example_world !! config_file = Some (YamlVolumes example_volume_config))
    as Hfile by (vm_compute; reflexivity).
  split; [exact Hrole|]. split; [exact Hfile|]. split.
  - destruct (get_volume_info_outcome "saltmaster" config_file example_world)
      as (_ & _ & _ & Hfound).
    rewrite (Hfound example_volume_config Hrole Hfile). reflexivity.
  - destruct (get_volume_info_outcome "" "no such file" example_world)
      as (_ & Hnone & _).
    exact (Hnone eq_refl).
Defined.

(** The example backend with another maximum of connections. *)
Definition example_backend_sized (size : Z) : BaseBackend :=
  {| _pnda_env := {| MAX_SIMULTANEOUS_OUTBOUND_CONNECTIONS := size; OS_USER := "ec2-user";
                     SECURITY_MODE := "disabled"; SECURITY_MATERIAL_PATH := "certs";
                     PLATFORM_SALT_LOCAL := None |};
     _cluster := "c"; _no_config_check := true; _flavor := "pico";
     _keyfile := "key.pem"; _branch := "master";
     _node_config := _node_config example_backend |}.

Lemma zero_wave_size_raises_witness :
  MAX_SIMULTANEOUS_OUTBOUND_CONNECTIONS (_pnda_env (example_backend_sized 0)) = 0
  ∧ (_wait_for_host_connectivity example_env (example_backend_sized 0)
       ["10.0.0.1"; "10.0.0.3"] "c" false initial_world).1
    = Raise (ValueError "xrange() arg 3 must not be zero").
Proof.
  split; [reflexivity|].
  exact (proj1 (proj2 (zero_wave_size_raises example_env (example_backend_sized 0) eq_refl)
                  ["10.0.0.1"; "10.0.0.3"] "c" false initial_world)).
Defined.

Lemma negative_wave_size_skips_threads_witness :
  let res := _wait_for_host_connectivity example_env (example_backend_sized (-1))
               ["10.0.0.1"; "10.0.0.3"] "c" false initial_world in
  MAX_SIMULTANEOUS_OUTBOUND_CONNECTIONS (_pnda_env (example_backend_sized (-1))) < 0
  ∧ res.1 = Ok tt ∧ log res.2 = log initial_world.
Proof.
  intros res.
  assert (MAX_SIMULTANEOUS_OUTBOUND_CONNECTIONS (_pnda_env (example_backend_sized (-1)))
          < 0) as Hsize by (simpl; lia).
  split; [exact Hsize|].
  exact (proj2 (negative_wave_size_skips_threads example_env (example_backend_sized (-1))
                  Hsize)
           ["10.0.0.1"; "10.0.0.3"] "c" false initial_world).
Defined.

(** The example world with three queues: for errors, files and commands. *)
Definition example_queues_world : World :=
  set_queues (λ _, [[]; []; []]) example_world.

Lemma bootstrap_records_resources_witness :
  let instance := example_instance "c-saltmaster" "10.0.0.1" "saltmaster" None in
  let w := example_queues_world in
  let volume_config := "bootstrap-scripts/pico/volume-config.yaml" in
  let files := staged_files example_backend "c" "pico" instance w in
  let cmds := bootstrap_commands_of example_backend instance "10.0.0.1" "c" "pico"
                "master" None None (Some example_volumes) in
  let transfer := subprocess_to_log_call example_env (now w)
                    (scp_parts files "c" "10.0.0.1") "10.0.0.1" [] in
  let execution := subprocess_to_log_call example_env (now w + Z.of_nat transfer.2)
                     (ssh_parts cmds "c" "10.0.0.1") "10.0.0.1"
                     ["lost connection"; "\s*Failed:\s*[1-9].*"] in
  let res := _bootstrap example_env example_backend instance "10.0.0.1" "c" "pico"
               "master" None None 0 (Some 1%nat) (Some 2%nat) w in
  node_type instance ≠ ""
  ∧ (_get_volume_info (node_type instance) volume_config w).1 = Ok (Some example_volumes)
  ∧ transfer.1 = 0 ∧ execution.1 = 0
  ∧ res.1 = Ok tt
  ∧ queues res.2 = [[]; files ++ [volume_config]; cmds].
Proof.
  intros instance w volume_config files cmds transfer execution res.
  assert (node_type instance ≠ "") as Hrole by (simpl; discriminate).
  assert ((_get_volume_info (node_type instance) volume_config w).1
          = Ok (Some example_volumes)) as Hvolumes by (vm_compute; reflexivity).
  assert (transfer.1 = 0) as Htransfer by reflexivity.
  assert (execution.1 = 0) as Hexecution by reflexivity.
  split; [exact Hrole|]. split; [exact Hvolumes|]. split; [exact Htransfer|].
  split; [exact Hexecution|].
  destruct (bootstrap_records_resources example_env example_backend instance
              "10.0.0.1" "c" "pico" "master" None None 0%nat (Some 1%nat) (Some 2%nat)
              (Some example_volumes) w Hrole Hvolumes)
    as (Hok & Hrecorded & _).
  split; [exact Hok|]. exact (Hrecorded Htransfer Hexecution).
Defined.

(** ** The export of the bootstrap resources *)




(** ** Instances without a flag *)

Section ExpandFlags.

Variable self : BaseBackend.

Lemma expand_threads_flags (saltmaster_ip : string) (bootstrap_errors : nat)
    (entries : list (string * Instance)) (w : World) :
  let body := λ '((_, instance) : string * Instance),
    if (0 <? String.length (node_type instance))%nat then
      match bootstrapped instance with
      | None => raise (KeyError "bootstrapped")
      | Some is_bootstrapped =>
          if negb is_bootstrapped then
            thread ← Thread_new (target_bootstrap instance saltmaster_ip
                                   (_cluster self) (_flavor self) (_branch self)
                                   None None bootstrap_errors None None);
            mret [thread]
          else mret []
      end
    else mret [] in
  (Exists (λ e, node_type e.2 ≠ "" ∧ bootstrapped e.2 = None) entries →
   (for_append entries body w).1 = Raise (KeyError "bootstrapped"))
  ∧ (¬ Exists (λ e, node_type e.2 ≠ "" ∧ bootstrapped e.2 = None) entries →
     ∃ threads, (for_append entries body w).1 = Ok threads).
Proof.
  intros body. revert w. induction entries as [|[k i] entries IH]; intros w.
  - split.
    + intros Hex. by apply Exists_nil in Hex.
    + intros _. by exists [].
  - rewrite for_append_cons.
    destruct (decide (node_type i ≠ "" ∧ bootstrapped i = None)) as [[Hrole Hflag]|Hfine].
    + assert (body (k, i) w = (Raise (KeyError "bootstrapped"), w)) as ->.
      { subst body. cbv beta iota. destruct (node_type i); [done|]. by rewrite Hflag. }
      split; [done|]. intros Hnone. exfalso. apply Hnone. by left.
    + assert (∃ ys w', body (k, i) w = (Ok ys, w')) as (ys & w' & ->).
      { subst body. cbv beta iota. destruct (node_type i) eqn:Hnt; [by eexists _, _|].
        destruct (bootstrapped i) as [[|]|] eqn:Hflag; try by eexists _, _.
        exfalso. apply Hfine. split; [|done]. rewrite ?Hnt. discriminate. }
      destruct (IH w') as [Hraise Hok]. split.
      * intros Hex. apply Exists_cons in Hex as [Hhere|Hlater]; [done|].
        specialize (Hraise Hlater).
        destruct (for_append entries body w') as [[zs|e] w'']; cbn [fst] in *;
          [discriminate|]. by injection Hraise as ->.
      * intros Hnone. destruct Hok as [threads Hthreads].
        { intros Hlater. apply Hnone. by right. }
        destruct (for_append entries body w') as [[zs|e] w'']; cbn [fst] in *;
          [by eexists|discriminate].
Qed.

(** X16. The loop of [_expand_pnda] that makes the bootstrap threads raises
    [KeyError] for the key [bootstrapped] if and only if the map holds an
    instance with a role that has no such flag; an instance without a role
    is never asked for its flag. In every other case the loop returns its
    threads. *)
Theorem expand_threads_missing_flag_iff (m : gmap string Instance)
    (saltmaster_ip : string) (bootstrap_errors : nat) (w : World) :
  let res := _expand_pnda_threads self m saltmaster_ip bootstrap_errors w in
  (res.1 = Raise (KeyError "bootstrapped")
   ↔ ∃ k i, m !! k = Some i ∧ node_type i ≠ "" ∧ bootstrapped i = None)
  ∧ ((∀ k i, m !! k = Some i → node_type i ≠ "" → bootstrapped i ≠ None) →
     ∃ threads, res.1 = Ok threads).
Proof.
  intros res. subst res. unfold _expand_pnda_threads.
  destruct (expand_threads_flags saltmaster_ip bootstrap_errors (map_to_list m) w)
    as [Hraise Hok].
  assert (Exists (λ e, node_type e.2 ≠ "" ∧ bootstrapped e.2 = None) (map_to_list m)
          ↔ ∃ k i, m !! k = Some i ∧ node_type i ≠ "" ∧ bootstrapped i = None) as Hex.
  { rewrite Exists_exists. split.
    - intros ([k i] & Hin & Hrole & Hflag). exists k, i.
      by apply elem_of_map_to_list in Hin.
    - intros (k & i & Hin & Hrole & Hflag). exists (k, i).
      by apply elem_of_map_to_list in Hin. }
  split.
  - split.
    + intros Hkey. apply Hex.
      destruct (decide (Exists (λ e, node_type e.2 ≠ "" ∧ bootstrapped e.2 = None)
                          (map_to_list m))) as [?|Hnone]; [done|].
      destruct (Hok Hnone) as [threads Hthreads]. rewrite Hthreads in Hkey. discriminate.
    + intros Hmissing. apply Hex in Hmissing. by apply Hraise.
  - intros Hflags. apply Hok. rewrite Hex. intros (k & i & Hin & Hrole & Hflag).
    by apply (Hflags k i).
Qed.

End ExpandFlags.

(** ** The checks of the configuration *)

(** A line on the console; what [traceback.format_exc()] prints is left
    open. *)
Inductive ConsoleLine :=
| CInfo (text : string)
| CError (text : string)
| CTraceback.

(** What the checks read from the configuration and the network, and the
    hooks that the class of a deployment target overrides. *)
Record Deployment := {
  (** [self._pnda_env['mirrors']['PNDA_MIRROR']]; [None] when a key is
      missing. *)
  PNDA_MIRROR : option string;
  (** [requests.head(url)]: the status code of the response, or the
      exception raised. *)
  requests_head : string → result Z;
  check_target_specific_config : M unit;
  pre_install_pnda : gmap string Z → M unit;
  post_install_pnda : M unit;
  pre_expand_pnda : gmap string Z → M unit;
  post_expand_pnda : M unit;
  pre_destroy_pnda : M unit;
  post_destroy_pnda : M unit
}.

(** [raise_error(reason)], local to [_check_pnda_mirror]: three lines go to
    the console and [sys.exit(1)] raises [SystemExit]. *)
Definition raise_error (reason : string) (console : list ConsoleLine)
    : result unit * list ConsoleLine :=
  (Raise (SystemExit 1),
   console ++ [CInfo "PNDA mirror...... ERROR"; CError reason; CTraceback]).

Definition accepted_status_codes : list Z := [200; 403; 301; 302; 303; 307; 308].

Definition is_KeyError (e : exn) : bool :=
  match e with
  | KeyError _ => true
  | _ => false
  end.

Section Checks.

Variable D : Deployment.

(** The console is passed through [_check_pnda_mirror] explicitly. The
    clause [except KeyError] handles a missing key, the bare [except] every
    other exception that leaves the [try] block, [SystemExit] included. *)
Definition _check_pnda_mirror (console : list ConsoleLine)
    : result unit * list ConsoleLine :=
  match PNDA_MIRROR D with
  | None => raise_error "PNDA mirror was not defined in pnda_env.yaml" console
  | Some mirror =>
      let attempt :=
        match requests_head D mirror with
        | Raise e => (Raise e, console)
        | Ok status_code =>
            if negb (bool_decide (status_code ∈ accepted_status_codes))
            then raise_error ("PNDA mirror configured and present "
                              +:+ "but responded with unexpected status code ("
                              +:+ pretty status_code +:+ "). ") console
            else (Ok tt, console ++ [CInfo "PNDA mirror...... OK"])
        end in
      match attempt with
      | (Ok _, console) => (Ok tt, console)
      | (Raise e, console) =>
          if is_KeyError e
          then raise_error "PNDA mirror was not defined in pnda_env.yaml" console
          else raise_error ("Failed to connect to PNDA mirror. Verify connection "
                            +:+ "to " +:+ mirror
                            +:+ ", check mirror in pnda_env.yaml and try again.") console
      end
  end.

Definition _check_private_key_exists (keyfile : string) : M unit :=
  found ← isfile keyfile;
  if negb found then raise (SystemExit 1) else mret tt.

(** The lines on the console are not kept here. *)
Definition _check_config (keyfile : string) : M unit :=
  _check_private_key_exists keyfile;;
  lift_result (_check_pnda_mirror []).1;;
  check_target_specific_config D.

Variable env : Env.
Variable self : BaseBackend.

Definition create (node_counts : gmap string Z) : M string :=
  (if negb (_no_config_check self) then _check_config (_keyfile self) else mret tt);;
  pre_install_pnda D node_counts;;
  _install_pnda env self;;
  post_install_pnda D;;
  instance_map ← get_instance_map env self false;
  m ← deref instance_map;
  console ← getitem m (_cluster self +:+ "-" +:+ console_instance (_node_config self));
  mret (private_ip_address console).

Definition expand (node_counts : gmap string Z) (do_orchestrate : bool) : M string :=
  (if negb (_no_config_check self) then _check_config (_keyfile self) else mret tt);;
  pre_expand_pnda D node_counts;;
  _expand_pnda env self do_orchestrate;;
  post_expand_pnda D;;
  instance_map ← get_instance_map env self false;
  m ← deref instance_map;
  console ← getitem m (_cluster self +:+ "-" +:+ console_instance (_node_config self));
  mret (private_ip_address console).

Definition destroy : M unit :=
  pre_destroy_pnda D;;
  _destroy_pnda self;;
  post_destroy_pnda D.

Lemma check_pnda_mirror_cases (console : list ConsoleLine) :
  (_check_pnda_mirror console).1 = Ok tt
  ∨ (_check_pnda_mirror console).1 = Raise (SystemExit 1).
Proof.
  unfold _check_pnda_mirror. destruct (PNDA_MIRROR D) as [mirror|]; [|by right].
  destruct (requests_head D mirror) as [status_code|e].
  - case_bool_decide; [by left|by right].
  - cbn [fst snd]. destruct (is_KeyError e); by right.
Qed.

(** X17. [_check_pnda_mirror] returns normally if and only if the mirror
    is configured and answers with one of the status codes 200, 403, 301,
    302, 303, 307 and 308; in every other case it leaves with
    [SystemExit(1)]. After any other status code the error is reported
    twice: the [SystemExit] of the first report is caught by the bare
    [except], so the last reason on the console is that the connection
    failed, although the mirror answered. *)
Theorem check_pnda_mirror_outcome (console : list ConsoleLine) :
  let res := _check_pnda_mirror console in
  (res.1 = Ok tt
   ↔ ∃ mirror status_code,
       PNDA_MIRROR D = Some mirror ∧ requests_head D mirror = Ok status_code
       ∧ status_code ∈ accepted_status_codes)
  ∧ (res.1 = Ok tt ∨ res.1 = Raise (SystemExit 1))
  ∧ (∀ mirror status_code,
       PNDA_MIRROR D = Some mirror → requests_head D mirror = Ok status_code →
       status_code ∉ accepted_status_codes →
       res.2 = console
               ++ [CInfo "PNDA mirror...... ERROR";
                   CError ("PNDA mirror configured and present but responded with "
                           +:+ "unexpected status code (" +:+ pretty status_code +:+ "). ");
                   CTraceback;
                   CInfo "PNDA mirror...... ERROR";
                   CError ("Failed to connect to PNDA mirror. Verify connection to "
                           +:+ mirror +:+ ", check mirror in pnda_env.yaml and try again.");
                   CTraceback]).
Proof.
  intros res. subst res. unfold _check_pnda_mirror.
  destruct (PNDA_MIRROR D) as [mirror|] eqn:Hmirror.
  - destruct (requests_head D mirror) as [status_code|e] eqn:Hhead.
    + case_bool_decide as Hstatus; cbn [negb raise_error is_KeyError fst snd].
      * split; [|split; [by left|]].
        -- split; [intros _; by exists mirror, status_code|done].
        -- intros mirror' status' [= <-]. rewrite Hhead. by intros [= <-].
      * split; [|split; [by right|]].
        -- split; [done|]. intros (mirror' & status' & [= <-] & Hhead' & Hin).
           rewrite Hhead in Hhead'. by injection Hhead' as <-.
        -- intros mirror' status' [= <-]. rewrite Hhead. intros [= <-] _.
           by rewrite <- app_assoc.
    + cbn [fst snd]. destruct (is_KeyError e); cbn [raise_error fst snd].
      all: split; [|split; [by right|]].
      all: try (split; [done|]; intros (mirror' & status' & [= <-] & Hhead' & _);
                by rewrite Hhead in Hhead').
      all: intros mirror' status' [= <-]; by rewrite Hhead.
  - cbn [raise_error fst snd]. split; [|split; [by right|done]].
    split; [done|]. by intros (mirror' & status' & ? & _).
Qed.

(** X18. With the check of the configuration switched on, [create] and
    [expand] leave with [SystemExit(1)] when the keyfile is missing or the
    check of the mirror fails, and the world is then as it was: no hook has
    run, nothing was written and no host was contacted. *)
Theorem config_check_fails_fast (node_counts : gmap string Z) (do_orchestrate : bool)
    (w : World) :
  _no_config_check self = false →
  fs w !! _keyfile self = None ∨ (_check_pnda_mirror []).1 ≠ Ok tt →
  create node_counts w = (Raise (SystemExit 1), w)
  ∧ expand node_counts do_orchestrate w = (Raise (SystemExit 1), w).
Proof.
  intros Hcheck Hfails.
  assert (_check_config (_keyfile self) w = (Raise (SystemExit 1), w)) as Hconfig.
  { unfold _check_config, _check_private_key_exists. rewrite !bind_run.
    unfold isfile at 1. case_bool_decide as Hkey; cbn [negb raise].
    - destruct Hfails as [Hmissing|Hmirror].
      + rewrite Hmissing in Hkey. by destruct Hkey.
      + cbn [mret M_ret ret]. rewrite bind_run. unfold lift_result.
        destruct (check_pnda_mirror_cases []) as [Hok | ->]; [done|reflexivity].
    - reflexivity. }
  unfold create, expand. rewrite Hcheck. cbn [negb]. by rewrite !bind_run, Hconfig.
Qed.

End Checks.

(** ** The instance map when a lookup fails *)

Section FailedLookups.

Variable env : Env.
Variable self : BaseBackend.

Lemma wait_on_host_operations_zero (action : string) (thread_list : list Thread)
    (bastion_used : bool) (errors : option nat) (w : World) :
  MAX_SIMULTANEOUS_OUTBOUND_CONNECTIONS (_pnda_env self) = 0 →
  _wait_on_host_operations env self action thread_list bastion_used errors w
  = (Raise (ValueError "xrange() arg 3 must not be zero"), w).
Proof.
  intros Hsize. unfold _wait_on_host_operations. rewrite Hsize, bind_run.
  unfold lift_result. by rewrite thread_sets_of_zero.
Qed.

Lemma check_hosts_bootstrapped_zero (instances : nat) (cluster : string)
    (bastion_used : bool) (w : World) :
  MAX_SIMULTANEOUS_OUTBOUND_CONNECTIONS (_pnda_env self) = 0 →
  (_check_hosts_bootstrapped env self instances cluster bastion_used w).1
  = Raise (ValueError "xrange() arg 3 must not be zero").
Proof.
  intros Hsize. unfold _check_hosts_bootstrapped.
  rewrite bind_run. unfold Queue at 1. rewrite bind_run. unfold deref at 1.
  rewrite bind_run.
  destruct (for_append_selected
              (map_to_list (instance_map_of instances
                              (set_queues (λ qs, qs ++ [[]]) w)))
              (λ _, true)
              (λ entry, target_do_check entry.1 (private_ip_address entry.2) cluster
                          (length (queues w)))
              (λ '(key, instance),
                 thread ← Thread_new (target_do_check key (private_ip_address instance)
                                        cluster (length (queues w)));
                 mret [thread])
              (set_queues (λ qs, qs ++ [[]]) w)) as (threads & -> & _).
  { by intros [key instance] w0. }
  by rewrite bind_run, wait_on_host_operations_zero.
Qed.

(** X19. [get_instance_map] stores the map only after the check of the
    bootstrap status. With a maximum of zero connections that check raises
    [ValueError]: a call that asks for the status and finds nothing in the
    cache has called [fill_instance_map] then, raises, and leaves the cache
    as it was, so that the map it was given is lost. *)
Theorem get_instance_map_check_failure (w : World) :
  MAX_SIMULTANEOUS_OUTBOUND_CONNECTIONS (_pnda_env self) = 0 →
  truthy_cache w = None →
  let res := get_instance_map env self true w in
  res.1 = Raise (ValueError "xrange() arg 3 must not be zero")
  ∧ fill_calls res.2 = S (fill_calls w)
  ∧ _cached_instance_map res.2 = _cached_instance_map w.
Proof.
  intros Hsize Hmiss res.
  assert (res.1 = Raise (ValueError "xrange() arg 3 must not be zero")) as Hraise.
  { subst res. rewrite get_instance_map_miss_eq by exact Hmiss.
    unfold fill_and_check.
    pose proof (check_hosts_bootstrapped_zero (length (heap w)) (_cluster self)
                  (bool_decide (is_Some (instance_map_of (length (heap w))
                                           (fill_instance_map env w).2
                                         !! (_cluster self +:+ "-" +:+
                                             bastion_instance (_node_config self)))))
                  (fill_instance_map env w).2 Hsize) as Hcheck.
    destruct (_check_hosts_bootstrapped _ _ _ _ _ _) as [[[]|e] w2]; cbn [fst] in *;
      [discriminate|by injection Hcheck as ->]. }
  split; [exact Hraise|].
  destruct (get_instance_map_miss env self true w Hmiss) as (Hfill & _ & _ & _ & Hcache).
  fold res in Hfill, Hcache. split; [exact Hfill|]. by rewrite Hraise in Hcache.
Qed.

Lemma write_ssh_config_keeps (cluster : string) (bastion_ip : option string)
    (os_user keyfile : string) (w : World) :
  let written := _write_ssh_config cluster bastion_ip os_user keyfile w in
  written.1 = Ok tt
  ∧ log written.2 = log w
  ∧ is_Some (fs written.2 !! ("cli/ssh_config-" +:+ cluster))
  ∧ ∀ path, is_Some (fs w !! path) → is_Some (fs written.2 !! path).
Proof.
  unfold _write_ssh_config, open. munfold. simpl.
  case_bool_decide; simpl; (split; [done|]); (split; [done|]); split.
  - rewrite lookup_insert_eq. by eexists.
  - intros path Hpath. destruct (decide (path = "cli/ssh_config-" +:+ cluster)) as [->|?];
      [rewrite lookup_insert_eq; by eexists|by rewrite lookup_insert_ne].
  - destruct (decide ("cli/ssh_config-" +:+ cluster = "cli/socks_proxy-" +:+ cluster))
      as [->|?]; [rewrite lookup_insert_eq; by eexists|].
    rewrite lookup_insert_ne by done. rewrite lookup_insert_eq. by eexists.
  - intros path Hpath.
    destruct (decide (path = "cli/socks_proxy-" +:+ cluster)) as [->|?];
      [rewrite lookup_insert_eq; by eexists|]. rewrite lookup_insert_ne by done.
    destruct (decide (path = "cli/ssh_config-" +:+ cluster)) as [->|?];
      [rewrite lookup_insert_eq; by eexists|by rewrite lookup_insert_ne].
Qed.

(** X20. When the instance map has no entry for the console instance,
    [_install_pnda] raises [KeyError] for its key. By then the run file and
    the access configuration have been written and [fill_instance_map] has
    been called; no host has been contacted. *)
Theorem install_pnda_missing_console (path : string) (w : World) :
  let console_key := _cluster self +:+ "-" +:+ console_instance (_node_config self) in
  RUNFILE w = Some path → fs w !! path = None → truthy_cache w = None →
  fill_oracle env (fill_calls w) !! console_key = None →
  let res := _install_pnda env self w in
  res.1 = Raise (KeyError console_key)
  ∧ log res.2 = log w ++ [(actor w, EFill (fill_calls w))]
  ∧ is_Some (fs res.2 !! path)
  ∧ is_Some (fs res.2 !! ("cli/ssh_config-" +:+ _cluster self)).
Proof.
  intros console_key Hrun Hnew Hmiss Hconsole res.
  assert (∃ w', res = (Raise (KeyError console_key), w')
                ∧ log w' = log w ++ [(actor w, EFill (fill_calls w))]
                ∧ is_Some (fs w' !! path)
                ∧ is_Some (fs w' !! ("cli/ssh_config-" +:+ _cluster self)))
    as (w' & -> & Hlog & Hfile & Hconfig); [|done].
  subst res. unfold _install_pnda. rewrite bind_run.
  unfold _install_pnda_prepare. cbv zeta. rewrite bind_run.
  rewrite (to_runfile_new_file _ path w Hrun Hnew). rewrite bind_run.
  match goal with |- context [get_instance_map env self false ?w0] => set (w1 := w0) end.
  assert (truthy_cache w1 = None) as Hmiss1 by exact Hmiss.
  rewrite (get_instance_map_miss_eq env self false w1 Hmiss1).
  unfold fill_and_check. cbn [fst snd].
  rewrite bind_run. unfold deref at 1.
  match goal with |- context [instance_map_of ?r ?w0] => set (m := instance_map_of r w0) end.
  assert (m = fill_oracle env (fill_calls w)) as Hm.
  { subst m w1. unfold instance_map_of, fill_instance_map. simpl.
    by rewrite list_lookup_middle. }
  rewrite bind_run.
  match goal with
  | |- context [match ?pick ?w2 with _ => _ end] =>
      assert (∃ bastion_ip, pick w2 = (Ok bastion_ip, w2)) as (bastion_ip & ->)
  end.
  { case_bool_decide as Hbastion; [|by eexists].
    destruct Hbastion as [i Hi]. rewrite bind_run. unfold getitem. rewrite Hi.
    by eexists. }
  rewrite bind_run.
  match goal with
  | |- context [_write_ssh_config ?c ?b ?u ?k ?w2] =>
      destruct (_write_ssh_config c b u k w2) as [written w3] eqn:Hwritten;
      pose proof (write_ssh_config_keeps c b u k w2) as Hfiles
  end.
  cbv zeta in Hfiles. rewrite Hwritten in Hfiles. cbn [fst snd] in Hfiles.
  destruct Hfiles as (-> & Hlog3 & Hcfg & Hkept).
  rewrite bind_run. unfold getitem at 1. fold console_key.
  rewrite Hm, Hconsole. eexists. split; [reflexivity|].
  split; [by rewrite Hlog3|]. split; [|exact Hcfg].
  apply Hkept. subst w1.
  cbn [fs set_fs fill_instance_map snd set_cached set_log set_fill_calls set_heap].
  rewrite lookup_insert_eq. by eexists.
Qed.

End FailedLookups.

(** ** More examples *)


Lemma expand_threads_missing_flag_iff_witness :
  let unflagged := {["c-h4" := example_instance "c-h4" "10.0.0.8" "dn" None]} in
  (∃ k i, unflagged !! k = Some i ∧ node_type i ≠ "" ∧ bootstrapped i = None)
  ∧ (_expand_pnda_threads example_backend unflagged "10.0.0.1" 0 initial_world).1
    = Raise (KeyError "bootstrapped")
  ∧ (∀ k i, example_expansion !! k = Some i → node_type i ≠ "" → bootstrapped i ≠ None)
  ∧ ∃ threads,
      (_expand_pnda_threads example_backend example_expansion "10.0.0.1" 0
         initial_world).1 = Ok threads.
Proof.
  intros unflagged.
  assert (∃ k i, unflagged !! k = Some i ∧ node_type i ≠ "" ∧ bootstrapped i = None)
    as Hmissing.
  { exists "c-h4", (example_instance "c-h4" "10.0.0.8" "dn" None).
    split; [reflexivity|]. split; [discriminate|reflexivity]. }
  assert (∀ k i, example_expansion !! k = Some i →
                 node_type i ≠ "" → bootstrapped i ≠ None) as Hflags.
  { intros k i Hk _. revert k i Hk.
    change (map_Forall (λ _ i, bootstrapped i ≠ None) example_expansion).
    apply (bool_decide_unpack _). vm_compute. exact I. }
  split; [exact Hmissing|]. split.
  - exact (proj2 (proj1 (expand_threads_missing_flag_iff example_backend unflagged
                           "10.0.0.1" 0%nat initial_world)) Hmissing).
  - split; [exact Hflags|].
    exact (proj2 (expand_threads_missing_flag_iff example_backend example_expansion
                    "10.0.0.1" 0%nat initial_world) Hflags).
Defined.

(** A deployment whose mirror answers with 404 and whose hooks do nothing. *)
Definition example_deployment : Deployment :=
  {| PNDA_MIRROR := Some "http://mirror.example";
     requests_head := λ _, Ok 404;
     check_target_specific_config := mret tt;
     pre_install_pnda := λ _, mret tt;
     post_install_pnda := mret tt;
     pre_expand_pnda := λ _, mret tt;
     post_expand_pnda := mret tt;
     pre_destroy_pnda := mret tt;
     post_destroy_pnda := mret tt |}.

(** The example backend with the check of the configuration switched on. *)
Definition example_checked_backend : BaseBackend :=
  {| _pnda_env := _pnda_env example_backend;
     _cluster := "c"; _no_config_check := false; _flavor := "pico";
     _keyfile := "key.pem"; _branch := "master";
     _node_config := _node_config example_backend |}.

Lemma check_pnda_mirror_outcome_witness :
  PNDA_MIRROR example_deployment = Some "http://mirror.example"
  ∧ requests_head example_deployment "http://mirror.example" = Ok 404
  ∧ (404 ∉ accepted_status_codes)
  ∧ _check_pnda_mirror example_deployment []
    = (Raise (SystemExit 1),
       [CInfo "PNDA mirror...... ERROR";
        CError ("PNDA mirror configured and present but responded with "
                +:+ "unexpected status code (404). ");
        CTraceback;
        CInfo "PNDA mirror...... ERROR";
        CError ("Failed to connect to PNDA mirror. Verify connection to "
                +:+ "http://mirror.example, check mirror in pnda_env.yaml and try again.");
        CTraceback]).
Proof.
  assert (404 ∉ accepted_status_codes) as Hstatus.
  { apply (bool_decide_unpack _). vm_compute. exact I. }
  split; [reflexivity|]. split; [reflexivity|]. split; [exact Hstatus|].
  destruct (check_pnda_mirror_outcome example_deployment []) as (_ & _ & Hconsole).
  apply injective_projections.
  - reflexivity.
  - rewrite (Hconsole "http://mirror.example" 404 eq_refl eq_refl Hstatus). reflexivity.
Defined.

Lemma config_check_fails_fast_witness :
  _no_config_check example_checked_backend = false
  ∧ fs initial_world !! _keyfile example_checked_backend = None
  ∧ create example_deployment example_env example_checked_backend ∅ initial_world
    = (Raise (SystemExit 1), initial_world)
  ∧ expand example_deployment example_env example_checked_backend ∅ true initial_world
    = (Raise (SystemExit 1), initial_world).
Proof.
  split; [reflexivity|]. split; [reflexivity|].
  exact (config_check_fails_fast example_deployment example_env example_checked_backend
           ∅ true initial_world eq_refl (or_introl eq_refl)).
Defined.

Lemma get_instance_map_check_failure_witness :
  let res := get_instance_map example_env (example_backend_sized 0) true initial_world in
  MAX_SIMULTANEOUS_OUTBOUND_CONNECTIONS (_pnda_env (example_backend_sized 0)) = 0
  ∧ truthy_cache initial_world = None
  ∧ res.1 = Raise (ValueError "xrange() arg 3 must not be zero")
  ∧ fill_calls res.2 = 1%nat
  ∧ _cached_instance_map res.2 = None.
Proof.
  intros res. split; [reflexivity|]. split; [reflexivity|].
  exact (get_instance_map_check_failure example_env (example_backend_sized 0)
           initial_world eq_refl eq_refl).
Defined.

Lemma install_pnda_missing_console_witness :
  let w := set_RUNFILE (Some "cli/logs/c.0.run") initial_world in
  let res := _install_pnda unprovisioned_env example_backend w in
  RUNFILE w = Some "cli/logs/c.0.run"
  ∧ fs w !! "cli/logs/c.0.run" = None
  ∧ truthy_cache w = None
  ∧ fill_oracle unprovisioned_env (fill_calls w) !! "c-edge" = None
  ∧ res.1 = Raise (KeyError "c-edge")
  ∧ log res.2 = [(MainThread, EFill 0)].
Proof.
  intros w res.
  split; [reflexivity|]. split; [reflexivity|]. split; [reflexivity|].
  split; [reflexivity|].
  destruct (install_pnda_missing_console unprovisioned_env example_backend
              "cli/logs/c.0.run" w eq_refl eq_refl eq_refl eq_refl)
    as (Hraise & Hlog & _).
  split; [exact Hraise|exact Hlog].
Defined.

(** ** A bootstrap without volume information *)

Section VolumeFailure.

Variable env : Env.
Variable self : BaseBackend.

(** X21. The volume requirements are resolved before anything is
    transferred. For an instance with a role for which [_get_volume_info]
    raises, because the configuration is missing or does not know the node
    type or its class, [_bootstrap] records that exception in the error
    queue and returns: no host is contacted and nothing else changes. *)
Theorem bootstrap_volume_info_failure (instance : Instance)
    (saltmaster cluster flavor branch : string)
    (salt_tarball certs_tarball : option string) (error_queue : nat)
    (bootstrap_files bootstrap_commands : option nat) (e : exn) (w : World) :
  node_type instance ≠ "" →
  (_get_volume_info (node_type instance)
     ("bootstrap-scripts/" +:+ flavor +:+ "/" +:+ "volume-config.yaml") w).1
  = Raise e →
  _bootstrap env self instance saltmaster cluster flavor branch
    salt_tarball certs_tarball error_queue bootstrap_files bootstrap_commands w
  = (Ok tt,
     set_queues (alter (λ items, items ++ [bootstrap_error env instance e]) error_queue) w).
Proof.
  intros Hrole Hvolumes.
  pose proof (get_volume_info_world (node_type instance)
    ("bootstrap-scripts/" +:+ flavor +:+ "/" +:+ "volume-config.yaml") w) as Hworld.
  unfold _bootstrap, try_except, _bootstrap_try, bootstrap_error.
  rewrite (nonempty_length _ Hrole). munfold.
  destruct (_get_volume_info _ _ w) as [rv wv]. simpl in Hvolumes, Hworld. subst rv wv.
  reflexivity.
Qed.

End VolumeFailure.

(** ** After the bootstrap of the other hosts *)







Section Remaining.

Variable env : Env.
Variable self : BaseBackend.






End Remaining.

Lemma bootstrap_volume_info_failure_witness :
  let instance := example_instance "c-saltmaster" "10.0.0.1" "saltmaster" None in
  let w := set_queues (λ _, [[]]) initial_world in
  let e := IOError "No such file or directory: bootstrap-scripts/pico/volume-config.yaml" in
  node_type instance ≠ ""
  ∧ (_get_volume_info (node_type instance)
       ("bootstrap-scripts/" +:+ "pico" +:+ "/" +:+ "volume-config.yaml") w).1 = Raise e
  ∧ _bootstrap example_env example_backend instance "10.0.0.1" "c" "pico" "master"
      None None 0 None None w
    = (Ok tt, set_queues (λ _, [[bootstrap_error example_env instance e]]) initial_world).
Proof.
  intros instance w e.
  assert (node_type instance ≠ "") as Hrole by (simpl; discriminate).
  assert ((_get_volume_info (node_type instance)
             ("bootstrap-scripts/" +:+ "pico" +:+ "/" +:+ "volume-config.yaml") w).1
          = Raise e) as Hvolumes by (vm_compute; reflexivity).
  split; [exact Hrole|]. split; [exact Hvolumes|].
  rewrite (bootstrap_volume_info_failure example_env example_backend instance
             "10.0.0.1" "c" "pico" "master" None None 0%nat None None e w Hrole Hvolumes).
  reflexivity.
Defined.


(** ** The instance map after the create flow *)

(** The updates of the file system. *)
Class AdmitsFiles (R : relation World) := {
  adm_files w f : R w (set_fs f w)
}.

(** The cache, the dictionaries and the count of the calls of
    [fill_instance_map] are as they were. *)
Definition keeps_maps : relation World := λ w w',
  _cached_instance_map w' = _cached_instance_map w
  ∧ heap w' = heap w
  ∧ fill_calls w' = fill_calls w.

Global Instance keeps_maps_preorder : PreOrder keeps_maps.
Proof.
  split; [done|].
  intros w1 w2 w3 (H1 & H2 & H3) (H1' & H2' & H3').
  unfold keeps_maps. by rewrite H1', H2', H3'.
Qed.

Global Instance keeps_maps_admits : Admits (λ _, True) keeps_maps.
Proof. split; [apply _|done..]. Qed.

Global Instance keeps_maps_threads : AdmitsThreads keeps_maps.
Proof. by split. Qed.

Global Instance keeps_maps_files : AdmitsFiles keeps_maps.
Proof. by split. Qed.

Section AlwaysWithFiles.

Variable env : Env.
Variable self : BaseBackend.
Context {Q : Event → Prop} {R : relation World}
  `{!Admits Q R, !AdmitsThreads R, !AdmitsFiles R}.
Hypothesis Q_all : ∀ e, Q e.

Lemma files_open (path mode : string) : always R (open path mode).
Proof.
  intros w. unfold open. destruct (String.eqb mode "w"); simpl.
  - apply adm_files.
  - by destruct (fs w !! path).
Qed.

Lemma files_to_runfile (pairs : gmap string Json) : always R (to_runfile pairs).
Proof.
  intros w. unfold to_runfile. destruct (RUNFILE w) as [path|]; [|done].
  revert w. apply always_bind; [apply (always_isfile (Q:=Q))|]. intros is_file.
  apply always_bind; [apply files_open|]. intros runfile.
  apply always_bind.
  { destruct (String.eqb _ "r"); [|apply always_mret].
    intros w. unfold json_load. by destruct (fs w !! f_path runfile) as [[]|]. }
  intros jrf. unfold json_dump.
  destruct (String.eqb (f_mode runfile) "r"); [apply always_raise|].
  apply always_modify. intros w. apply adm_files.
Qed.

Lemma files_write_ssh_config (cluster : string) (bastion_ip : option string)
    (os_user keyfile : string) :
  always R (_write_ssh_config cluster bastion_ip os_user keyfile).
Proof.
  unfold _write_ssh_config. apply always_bind; [apply files_open|]. intros _.
  case_bool_decide; [apply always_mret|].
  apply always_bind; [apply files_open|]. intros _. apply always_mret.
Qed.

Lemma files_tar_create (archive path arcname : string) :
  always R (tar_create env archive path arcname).
Proof.
  unfold tar_create. apply always_bind.
  { apply always_modify. intros w. apply adm_files. }
  intros _. destruct (tar_readable env path); [|apply always_raise].
  apply always_emit, Q_all.
Qed.

Lemma files_os_remove (path : string) : always R (os_remove path).
Proof. apply always_modify. intros w. apply adm_files. Qed.

Lemma files_ship_certs (cluster saltmaster_ip : string) :
  always R (_ship_certs env self cluster saltmaster_ip).
Proof.
  unfold _ship_certs. apply always_bind; [apply always_pure|]. intros t.
  apply always_bind.
  { apply always_try_except.
    - apply always_bind; [apply files_tar_create|]. intros _. apply always_mret.
    - intros exception. destruct (String.eqb _ _); [apply always_mret|apply always_raise]. }
  intros [|]; [|apply always_mret].
  apply always_bind; [apply (always_scp env (λ _ _ _, Q_all _))|]. intros _.
  apply always_bind; [apply files_os_remove|]. intros _. apply always_mret.
Qed.

Lemma files_export (cluster : string) (files commands : list string) :
  always R (_export_bootstrap_resources cluster files commands).
Proof.
  unfold _export_bootstrap_resources. apply always_bind; [apply always_pure|]. intros t.
  apply always_bind.
  { apply always_modify. intros w. apply adm_files. }
  intros _. apply always_bind.
  { apply always_for_each. intros file _.
    apply always_bind; [apply (always_isfile (Q:=Q))|].
    intros [|]; [apply always_mret|apply always_raise]. }
  intros _. apply always_emit, Q_all.
Qed.

Lemma files_install_pnda_remaining (p : Prepared)
    (bootstrap_errors bootstrap_files bootstrap_commands : nat) :
  always R (_install_pnda_remaining env self p bootstrap_errors bootstrap_files
              bootstrap_commands).
Proof.
  unfold _install_pnda_remaining. cbv zeta.
  apply always_bind.
  { unfold _install_pnda_threads. apply always_for_append. intros [key instance] _.
    destruct (negb _); [|apply always_mret].
    apply always_bind; [apply always_Thread_new|]. intros t. apply always_mret. }
  intros threads. apply always_bind.
  { apply (always_wait_on_host_operations env self (λ _ _ _, Q_all _) (λ _, Q_all _)).
    intros t _. split; apply Q_all. }
  intros _. apply always_bind; [apply always_pure|]. intros files.
  apply always_bind; [apply always_pure|]. intros commands.
  apply always_bind; [apply files_export|]. intros _.
  apply always_bind; [apply (always_sleep (λ _, Q_all _)); lia|]. intros _.
  apply (always_ssh env (λ _ _ _, Q_all _)).
Qed.

Lemma files_install_pnda_bootstrap (p : Prepared) :
  always R (_install_pnda_bootstrap env self p).
Proof.
  unfold _install_pnda_bootstrap. cbv zeta.
  apply always_bind; [apply (always_Queue (Q:=Q))|]. intros bootstrap_errors.
  apply always_bind; [apply (always_Queue (Q:=Q))|]. intros bootstrap_files.
  apply always_bind; [apply (always_Queue (Q:=Q))|]. intros bootstrap_commands.
  apply always_bind; [apply (always_bootstrap env self (λ _ _ _, Q_all _))|]. intros _.
  apply always_bind; [apply (always_process_thread_errors env (Q:=Q))|]. intros _.
  apply files_install_pnda_remaining.
Qed.

(** [_install_pnda_prepare] after the console instance has been looked
    up. *)
Lemma files_prepare_rest (m : gmap string Instance) (bastion_ip : option string)
    (k : option string → option string → Instance → M Prepared) :
  (∀ a b c, always R (k a b c)) →
  always R
    (match bastion_ip with
     | Some ip =>
         if bool_decide (ip = "") then mret tt
         else time_start ← MILLI_TIME; wait_for_bastion env self ip time_start
     | None => mret tt
     end;;
     _wait_for_host_connectivity env self ((λ h, private_ip_address h.2) <$> map_to_list m)
       (_cluster self) (bool_decide (bastion_ip ≠ None));;
     saltmaster ← getitem m (_cluster self +:+ "-"
                             +:+ salt_master_instance (_node_config self));
     let saltmaster_ip := private_ip_address saltmaster in
     platform_salt_tarball ←
       match PLATFORM_SALT_LOCAL (_pnda_env self) with
       | Some local_salt_path =>
           t ← MILLI_TIME;
           let platform_salt_tarball := uuid1 env t +:+ ".tmp" in
           tar_create env platform_salt_tarball local_salt_path "platform-salt";;
           scp env [platform_salt_tarball] (_cluster self) saltmaster_ip;;
           os_remove platform_salt_tarball;;
           mret (Some platform_salt_tarball)
       | None => mret None
       end;
     platform_certs_tarball ←
       (if negb (String.eqb (SECURITY_MODE (_pnda_env self)) "disabled")
        then _ship_certs env self (_cluster self) saltmaster_ip
        else mret None);
     k platform_salt_tarball platform_certs_tarball saltmaster).
Proof.
  intros Hk. apply always_bind.
  { destruct bastion_ip as [ip|]; [|apply always_mret].
    case_bool_decide; [apply always_mret|].
    apply always_bind; [apply always_pure|]. intros time_start.
    apply (always_wait_for_bastion env self (λ _ _ _, Q_all _) (λ _, Q_all _)). }
  intros _. apply always_bind.
  { apply (always_wait_for_host_connectivity env self (λ _ _ _, Q_all _) (λ _, Q_all _)).
    intros t host wait_errors _. split; apply Q_all. }
  intros _. apply always_bind.
  { unfold getitem. destruct (m !! _); [apply always_ret|apply always_raise]. }
  intros saltmaster. cbv zeta. apply always_bind.
  { destruct (PLATFORM_SALT_LOCAL (_pnda_env self)) as [local_salt_path|];
      [|apply always_mret].
    apply always_bind; [apply always_pure|]. intros t.
    apply always_bind; [apply files_tar_create|]. intros _.
    apply always_bind; [apply (always_scp env (λ _ _ _, Q_all _))|]. intros _.
    apply always_bind; [apply files_os_remove|]. intros _. apply always_mret. }
  intros platform_salt_tarball. apply always_bind.
  { destruct (negb _); [apply files_ship_certs|apply always_mret]. }
  intros platform_certs_tarball. apply Hk.
Qed.

End AlwaysWithFiles.

Section InstallKeepsMap.

Variable env : Env.
Variable self : BaseBackend.

Lemma get_instance_map_fills_once (check_bootstrapped : bool) (w : World) :
  (fill_calls (get_instance_map env self check_bootstrapped w).2 ≤ S (fill_calls w))%nat.
Proof.
  destruct (truthy_cache w) as [cached|] eqn:Hcache.
  - apply truthy_cache_Some in Hcache as [Hcached Hfilled].
    rewrite (get_instance_map_hit env self check_bootstrapped w cached Hcached Hfilled).
    simpl. lia.
  - destruct (get_instance_map_miss env self check_bootstrapped w Hcache) as (Hfill & _).
    rewrite Hfill. lia.
Qed.

(** X23. When [_install_pnda] has returned, the instance map that it
    worked on is still in the cache and holds the console instance, and
    [fill_instance_map] was called once at most. A call of
    [get_instance_map] that follows, as the one at the end of [create],
    returns that map and changes nothing, whatever its argument. *)
Theorem install_pnda_keeps_map_cached (w w' : World) :
  _install_pnda env self w = (Ok tt, w') →
  ∃ (r : nat) (console : Instance),
    _cached_instance_map w' = Some r
    ∧ instance_map_of r w'
      !! (_cluster self +:+ "-" +:+ console_instance (_node_config self)) = Some console
    ∧ (fill_calls w' ≤ S (fill_calls w))%nat
    ∧ ∀ check_bootstrapped,
        get_instance_map env self check_bootstrapped w' = (Ok r, w').
Proof.
  intros Hrun. unfold _install_pnda in Hrun. rewrite bind_run in Hrun.
  destruct (_install_pnda_prepare env self w) as [[p|e] w5] eqn:Hprep; [|discriminate].
  pose proof (files_install_pnda_bootstrap env self (Q:=λ _, True) (R:=keeps_maps)
                (λ _, I) p w5) as Hboot.
  rewrite Hrun in Hboot. cbn [snd] in Hboot. clear Hrun.
  unfold _install_pnda_prepare in Hprep. cbv zeta in Hprep. rewrite bind_run in Hprep.
  match type of Hprep with
  | context [to_runfile ?pairs w] =>
      pose proof (files_to_runfile (Q:=λ _, True) (R:=keeps_maps) pairs w) as Hfile;
      destruct (to_runfile pairs w) as [[[]|e] w1]; [|discriminate]
  end.
  cbn [snd] in Hfile. rewrite bind_run in Hprep.
  pose proof (get_instance_map_fills_once false w1) as Hfill.
  destruct (get_instance_map env self false w1) as [[r|e] w2] eqn:Hget; [|discriminate].
  cbn [snd] in Hfill. apply cached_after_get_instance_map in Hget.
  rewrite bind_run in Hprep. unfold deref at 1 in Hprep.
  set (m := instance_map_of r w2) in Hprep. rewrite bind_run in Hprep.
  match type of Hprep with
  | context [match ?pick w2 with _ => _ end] =>
      assert (∃ bastion_ip, pick w2 = (Ok bastion_ip, w2) ∨ ∃ e, pick w2 = (Raise e, w2))
        as (bastion_ip & [Hpick|[e Hpick]]); [|rewrite Hpick in Hprep..]
  end.
  { case_bool_decide; [|exists None; by left].
    unfold getitem. destruct (m !! _) as [i|]; [exists (Some (ip_address i))|exists None];
      [by left|right; by eexists]. }
  2: discriminate.
  rewrite bind_run in Hprep.
  match type of Hprep with
  | context [_write_ssh_config ?c ?b ?u ?k w2] =>
      pose proof (files_write_ssh_config (Q:=λ _, True) (R:=keeps_maps) c b u k w2)
        as Hconfig;
      destruct (_write_ssh_config c b u k w2) as [[[]|e] w3]; [|discriminate]
  end.
  cbn [snd] in Hconfig. rewrite bind_run in Hprep. unfold getitem at 1 in Hprep.
  destruct (m !! (_cluster self +:+ "-" +:+ console_instance (_node_config self)))
    as [console|] eqn:Hconsole; [|discriminate].
  cbn [ret] in Hprep.
  assert (keeps_maps w3 w5) as Hrest.
  { match type of Hprep with
    | ?rest w3 = _ =>
        assert (always keeps_maps rest) as Hall;
        [|specialize (Hall w3); by rewrite Hprep in Hall]
    end.
    apply (files_prepare_rest env self (Q:=λ _, True) (R:=keeps_maps) (λ _, I)).
    intros a b c. apply always_mret. }
  assert (keeps_maps w2 w') as (Hcached & Hheap & Hcalls).
  { etransitivity; [exact Hconfig|]. etransitivity; [exact Hrest|exact Hboot]. }
  destruct Hfile as (_ & _ & Hcalls1).
  assert (instance_map_of r w' = m) as Hmap.
  { subst m. unfold instance_map_of. by rewrite Hheap. }
  exists r, console. split; [by rewrite Hcached|]. split; [by rewrite Hmap|].
  split; [lia|]. intros check_bootstrapped.
  apply get_instance_map_hit; [by rewrite Hcached|].
  rewrite Hmap. intros Hempty. by rewrite Hempty in Hconsole.
Qed.

End InstallKeepsMap.

(** A world in which the create flow goes through: the scripts to stage
    are there and the volume configuration knows every node type. *)
Definition example_full_volume_config : VolumeConfig :=
  {| vc_instances := {["saltmaster" := "generic"; "edge" := "generic"; "dn" := "generic"]};
     vc_classes := {["generic" := Some example_volumes]} |}.

Definition example_full_world : World :=
  set_RUNFILE (Some "cli/logs/c.0.run")
    (set_fs (λ _,
       <["bootstrap-scripts/pico/volume-config.yaml" := YamlVolumes example_full_volume_config]>
         (list_to_map ((λ path, (path, Opaque)) <$>
            ["cli/pnda_env_c.sh";
             "bootstrap-scripts/package-install.sh";
             "bootstrap-scripts/base.sh";
             "bootstrap-scripts/volume-mappings.sh";
             "bootstrap-scripts/saltmaster-common.sh";
             "bootstrap-scripts/saltmaster.sh";
             "bootstrap-scripts/edge.sh";
             "bootstrap-scripts/dn.sh"])))
       initial_world).

Lemma install_pnda_keeps_map_cached_witness :
  let res := _install_pnda example_env example_backend example_full_world in
  res = (Ok tt, res.2)
  ∧ ∃ (r : nat) (console : Instance),
      _cached_instance_map res.2 = Some r
      ∧ instance_map_of r res.2 !! "c-edge" = Some console
      ∧ (fill_calls res.2 ≤ S (fill_calls example_full_world))%nat
      ∧ ∀ check_bootstrapped,
          get_instance_map example_env example_backend check_bootstrapped res.2
          = (Ok r, res.2).
Proof.
  intros res.
  assert (res = (Ok tt, res.2)) as Hrun by (vm_compute; reflexivity).
  split; [exact Hrun|].
  exact (install_pnda_keeps_map_cached example_env example_backend example_full_world
           res.2 Hrun).
Defined.
